(** * BAR tools of the Teradata DSA MCP server: a shallow embedding

    The module [bar_tools.py] turns a handful of administrative operations
    (disk file systems, AWS S3 backup targets, media servers) into requests
    against the DSA REST service and renders the JSON replies as text.

    The embedding has three layers:
    - [Py]: the JSON values the service exchanges and the Python built-ins
      the module applies to them ([dict.get], truthiness, iteration, [str],
      [repr], [json.dumps], [str.strip]), with the exceptions they raise
      (the messages are CPython 3.11's);
    - [Dsa]: the request collaborator [dsa_client._make_request] as an
      oracle, and a monad that records every request issued and threads
      Python exceptions;
    - [BarTools]: the functions of [bar_tools.py], transcribed statement by
      statement.  A log statement is kept where its f-string can raise:
      where it formats an argument of the caller ([max_files], [port],
      [bucketsByRegion]) or calls [len].  The others are left out: they
      format texts, or a reply, which holds no [int] that [str] refuses.

    Then come the vocabulary of the properties ([Spec]), sample services
    ([Examples]), the lemmas about the embedding ([Facts]), the properties
    of the disk-file-system reconciler and of the writes ([Claims]), and the
    properties of the rest of the module: argument checks, listings, reports,
    handlers and the requests an execution may issue ([Coverage]).

    Strings are byte strings holding the UTF-8 encoding of the Python text. *)

From Stdlib Require Import String Ascii List ZArith NArith Bool Lia DecimalString.
Import ListNotations.
Local Open Scope list_scope.
Local Open Scope string_scope.
Set Warnings "-register-all".

(** List append, kept apart from string append [++]. *)
Infix "+++" := app (right associativity, at level 60) : list_scope.

(* ================================================================== *)
(** * Python values and built-ins *)
(* ================================================================== *)

Module Py.

(** JSON values as Python objects.  Numbers are restricted to integers:
    no function of the module computes with a float.  A [dict] is kept as
    an association list in insertion order, as [str] and [json.dumps] print
    it; its keys are meant distinct, and [dict.get] reads the first binding
    of a key. *)
Inductive json : Type :=
| JNull
| JBool (b : bool)
| JInt (z : Z)
| JStr (s : string)
| JList (l : list json)
| JObj (d : list (string * json)).

Definition dict := list (string * json).

(** Result of an evaluation that may raise.  Every handler in the module is
    [except Exception as e] and only ever reads [str(e)], so an exception is
    represented by that message.  [Raise] stands for an exception of class
    [Exception]; a [BaseException] outside it ([KeyboardInterrupt],
    [SystemExit]), which no handler of the module catches, is not
    modelled. *)
Inductive Exc (A : Type) : Type :=
| Ret (a : A)
| Raise (msg : string).
Arguments Ret {A} a.
Arguments Raise {A} msg.

Definition bindE {A B} (m : Exc A) (k : A -> Exc B) : Exc B :=
  match m with
  | Ret a => k a
  | Raise e => Raise e
  end.

Declare Scope exc_scope.
Delimit Scope exc_scope with exc.
Notation "x <- m ;; k" := (bindE m (fun x => k))
  (at level 61, m at next level, right associativity) : exc_scope.

(** ** Characters and small string helpers *)

Definition nl : string := String "010"%char EmptyString.
Definition dquote : string := String "034"%char EmptyString.
Definition backslash : string := String "092"%char EmptyString.

(** ["\n".join(lines)] *)
Definition join_lines (lines : list string) : string := String.concat nl lines.

(** [s * n] *)
Fixpoint str_repeat (s : string) (n : nat) : string :=
  match n with
  | O => ""
  | S n' => s ++ str_repeat s n'
  end.

(** The decimal text of [z]: what [str(z)] returns for an [int] of at most
    4300 digits.  CPython refuses to print a longer one; [int_str] below is
    [str(z)] with that refusal. *)
Definition str_of_Z (z : Z) : string := NilZero.string_of_int (Z.to_int z).

(** [sys.int_info.default_max_str_digits], and whether [z] has no more
    decimal digits than that (the sign is not counted). *)
Definition int_max_str_digits : Z := 4300.

Definition int_digits (z : Z) : nat := String.length (str_of_Z (Z.abs z)).

Definition printable_int (z : Z) : bool :=
  (Z.of_nat (int_digits z) <=? int_max_str_digits)%Z.

(** The message of the [ValueError] that [str], [repr] and an f-string field
    raise for an [int] beyond the limit. *)
Definition int_too_long : string :=
  "Exceeds the limit (4300 digits) for integer string conversion; use sys.set_int_max_str_digits() to increase the limit".

Definition hex_digit (n : N) : string :=
  match n with
  | 0 => "0" | 1 => "1" | 2 => "2" | 3 => "3" | 4 => "4" | 5 => "5"
  | 6 => "6" | 7 => "7" | 8 => "8" | 9 => "9" | 10 => "a" | 11 => "b"
  | 12 => "c" | 13 => "d" | 14 => "e" | _ => "f"
  end%N.

(** ['{:02x}'.format(n)], ['{:04x}'.format(n)] and ['{:08x}'.format(n)] *)
Definition hex2 (n : N) : string :=
  hex_digit (N.land (N.shiftr n 4) 15) ++ hex_digit (N.land n 15).
Definition hex4 (n : N) : string :=
  hex2 (N.land (N.shiftr n 8) 255) ++ hex2 (N.land n 255).
Definition hex8 (n : N) : string :=
  hex4 (N.land (N.shiftr n 16) 65535) ++ hex4 (N.land n 65535).

(** ** UTF-8: the characters of a byte string *)

Definition is_continuation (c : ascii) : bool :=
  let n := N_of_ascii c in (128 <=? n)%N && (n <? 192)%N.

(** Splits from the right: a byte that is not a continuation byte closes a
    character made of itself and the continuation bytes after it. *)
Fixpoint utf8_split (s : string) : string * list string :=
  match s with
  | EmptyString => ("", [])
  | String c rest =>
      let '(pending, done) := utf8_split rest in
      if is_continuation c then (String c pending, done)
      else ("", String c pending :: done)
  end.

(** The characters of [s], each as the bytes that encode it. *)
Definition utf8_chars (s : string) : list string :=
  let '(pending, done) := utf8_split s in
  match pending with
  | EmptyString => done
  | _ => pending :: done
  end.

Fixpoint continuation_bits (acc : N) (s : string) : N :=
  match s with
  | EmptyString => acc
  | String c rest =>
      continuation_bits (N.lor (N.shiftl acc 6) (N.land (N_of_ascii c) 63)) rest
  end.

(** The code point a character (as returned by [utf8_chars]) encodes. *)
Definition code_point (ch : string) : N :=
  match ch with
  | EmptyString => 0
  | String c rest =>
      let b := N_of_ascii c in
      if (b <? 128)%N then b
      else
        let lead :=
          if (b <? 224)%N then N.land b 31
          else if (b <? 240)%N then N.land b 15
          else N.land b 7 in
        continuation_bits lead rest
  end.

(** ** Printable characters *)

(** The ranges of the code points from 128 on for which [str.isprintable]
    is false in CPython 3.11 (Unicode 14.0.0): the categories Cc, Cf, Cs, Co,
    Cn, Zl, Zp and Zs. *)
Definition non_printable : list (N * N) :=
  [(128, 160); (173, 173); (888, 889); (896, 899); (907, 907); (909, 909);
   (930, 930); (1328, 1328); (1367, 1368); (1419, 1420); (1424, 1424);
   (1480, 1487); (1515, 1518); (1525, 1541); (1564, 1564); (1757, 1757);
   (1806, 1807); (1867, 1868); (1970, 1983); (2043, 2044); (2094, 2095);
   (2111, 2111); (2140, 2141); (2143, 2143); (2155, 2159); (2191, 2199);
   (2274, 2274); (2436, 2436); (2445, 2446); (2449, 2450); (2473, 2473);
   (2481, 2481); (2483, 2485); (2490, 2491); (2501, 2502); (2505, 2506);
   (2511, 2518); (2520, 2523); (2526, 2526); (2532, 2533); (2559, 2560);
   (2564, 2564); (2571, 2574); (2577, 2578); (2601, 2601); (2609, 2609);
   (2612, 2612); (2615, 2615); (2618, 2619); (2621, 2621); (2627, 2630);
   (2633, 2634); (2638, 2640); (2642, 2648); (2653, 2653); (2655, 2661);
   (2679, 2688); (2692, 2692); (2702, 2702); (2706, 2706); (2729, 2729);
   (2737, 2737); (2740, 2740); (2746, 2747); (2758, 2758); (2762, 2762);
   (2766, 2767); (2769, 2783); (2788, 2789); (2802, 2808); (2816, 2816);
   (2820, 2820); (2829, 2830); (2833, 2834); (2857, 2857); (2865, 2865);
   (2868, 2868); (2874, 2875); (2885, 2886); (2889, 2890); (2894, 2900);
   (2904, 2907); (2910, 2910); (2916, 2917); (2936, 2945); (2948, 2948);
   (2955, 2957); (2961, 2961); (2966, 2968); (2971, 2971); (2973, 2973);
   (2976, 2978); (2981, 2983); (2987, 2989); (3002, 3005); (3011, 3013);
   (3017, 3017); (3022, 3023); (3025, 3030); (3032, 3045); (3067, 3071);
   (3085, 3085); (3089, 3089); (3113, 3113); (3130, 3131); (3141, 3141);
   (3145, 3145); (3150, 3156); (3159, 3159); (3163, 3164); (3166, 3167);
   (3172, 3173); (3184, 3190); (3213, 3213); (3217, 3217); (3241, 3241);
   (3252, 3252); (3258, 3259); (3269, 3269); (3273, 3273); (3278, 3284);
   (3287, 3292); (3295, 3295); (3300, 3301); (3312, 3312); (3315, 3327);
   (3341, 3341); (3345, 3345); (3397, 3397); (3401, 3401); (3408, 3411);
   (3428, 3429); (3456, 3456); (3460, 3460); (3479, 3481); (3506, 3506);
   (3516, 3516); (3518, 3519); (3527, 3529); (3531, 3534); (3541, 3541);
   (3543, 3543); (3552, 3557); (3568, 3569); (3573, 3584); (3643, 3646);
   (3676, 3712); (3715, 3715); (3717, 3717); (3723, 3723); (3748, 3748);
   (3750, 3750); (3774, 3775); (3781, 3781); (3783, 3783); (3790, 3791);
   (3802, 3803); (3808, 3839); (3912, 3912); (3949, 3952); (3992, 3992);
   (4029, 4029); (4045, 4045); (4059, 4095); (4294, 4294); (4296, 4300);
   (4302, 4303); (4681, 4681); (4686, 4687); (4695, 4695); (4697, 4697);
   (4702, 4703); (4745, 4745); (4750, 4751); (4785, 4785); (4790, 4791);
   (4799, 4799); (4801, 4801); (4806, 4807); (4823, 4823); (4881, 4881);
   (4886, 4887); (4955, 4956); (4989, 4991); (5018, 5023); (5110, 5111);
   (5118, 5119); (5760, 5760); (5789, 5791); (5881, 5887); (5910, 5918);
   (5943, 5951); (5972, 5983); (5997, 5997); (6001, 6001); (6004, 6015);
   (6110, 6111); (6122, 6127); (6138, 6143); (6158, 6158); (6170, 6175);
   (6265, 6271); (6315, 6319); (6390, 6399); (6431, 6431); (6444, 6447);
   (6460, 6463); (6465, 6467); (6510, 6511); (6517, 6527); (6572, 6575);
   (6602, 6607); (6619, 6621); (6684, 6685); (6751, 6751); (6781, 6782);
   (6794, 6799); (6810, 6815); (6830, 6831); (6863, 6911); (6989, 6991);
   (7039, 7039); (7156, 7163); (7224, 7226); (7242, 7244); (7305, 7311);
   (7355, 7356); (7368, 7375); (7419, 7423); (7958, 7959); (7966, 7967);
   (8006, 8007); (8014, 8015); (8024, 8024); (8026, 8026); (8028, 8028);
   (8030, 8030); (8062, 8063); (8117, 8117); (8133, 8133); (8148, 8149);
   (8156, 8156); (8176, 8177); (8181, 8181); (8191, 8207); (8232, 8239);
   (8287, 8303); (8306, 8307); (8335, 8335); (8349, 8351); (8385, 8399);
   (8433, 8447); (8588, 8591); (9255, 9279); (9291, 9311); (11124, 11125);
   (11158, 11158); (11508, 11512); (11558, 11558); (11560, 11564);
   (11566, 11567); (11624, 11630); (11633, 11646); (11671, 11679);
   (11687, 11687); (11695, 11695); (11703, 11703); (11711, 11711);
   (11719, 11719); (11727, 11727); (11735, 11735); (11743, 11743);
   (11870, 11903); (11930, 11930); (12020, 12031); (12246, 12271);
   (12284, 12288); (12352, 12352); (12439, 12440); (12544, 12548);
   (12592, 12592); (12687, 12687); (12772, 12783); (12831, 12831);
   (42125, 42127); (42183, 42191); (42540, 42559); (42744, 42751);
   (42955, 42959); (42962, 42962); (42964, 42964); (42970, 42993);
   (43053, 43055); (43066, 43071); (43128, 43135); (43206, 43213);
   (43226, 43231); (43348, 43358); (43389, 43391); (43470, 43470);
   (43482, 43485); (43519, 43519); (43575, 43583); (43598, 43599);
   (43610, 43611); (43715, 43738); (43767, 43776); (43783, 43784);
   (43791, 43792); (43799, 43807); (43815, 43815); (43823, 43823);
   (43884, 43887); (44014, 44015); (44026, 44031); (55204, 55215);
   (55239, 55242); (55292, 63743); (64110, 64111); (64218, 64255);
   (64263, 64274); (64280, 64284); (64311, 64311); (64317, 64317);
   (64319, 64319); (64322, 64322); (64325, 64325); (64451, 64466);
   (64912, 64913); (64968, 64974); (64976, 65007); (65050, 65055);
   (65107, 65107); (65127, 65127); (65132, 65135); (65141, 65141);
   (65277, 65280); (65471, 65473); (65480, 65481); (65488, 65489);
   (65496, 65497); (65501, 65503); (65511, 65511); (65519, 65531);
   (65534, 65535); (65548, 65548); (65575, 65575); (65595, 65595);
   (65598, 65598); (65614, 65615); (65630, 65663); (65787, 65791);
   (65795, 65798); (65844, 65846); (65935, 65935); (65949, 65951);
   (65953, 65999); (66046, 66175); (66205, 66207); (66257, 66271);
   (66300, 66303); (66340, 66348); (66379, 66383); (66427, 66431);
   (66462, 66462); (66500, 66503); (66518, 66559); (66718, 66719);
   (66730, 66735); (66772, 66775); (66812, 66815); (66856, 66863);
   (66916, 66926); (66939, 66939); (66955, 66955); (66963, 66963);
   (66966, 66966); (66978, 66978); (66994, 66994); (67002, 67002);
   (67005, 67071); (67383, 67391); (67414, 67423); (67432, 67455);
   (67462, 67462); (67505, 67505); (67515, 67583); (67590, 67591);
   (67593, 67593); (67638, 67638); (67641, 67643); (67645, 67646);
   (67670, 67670); (67743, 67750); (67760, 67807); (67827, 67827);
   (67830, 67834); (67868, 67870); (67898, 67902); (67904, 67967);
   (68024, 68027); (68048, 68049); (68100, 68100); (68103, 68107);
   (68116, 68116); (68120, 68120); (68150, 68151); (68155, 68158);
   (68169, 68175); (68185, 68191); (68256, 68287); (68327, 68330);
   (68343, 68351); (68406, 68408); (68438, 68439); (68467, 68471);
   (68498, 68504); (68509, 68520); (68528, 68607); (68681, 68735);
   (68787, 68799); (68851, 68857); (68904, 68911); (68922, 69215);
   (69247, 69247); (69290, 69290); (69294, 69295); (69298, 69375);
   (69416, 69423); (69466, 69487); (69514, 69551); (69580, 69599);
   (69623, 69631); (69710, 69713); (69750, 69758); (69821, 69821);
   (69827, 69839); (69865, 69871); (69882, 69887); (69941, 69941);
   (69960, 69967); (70007, 70015); (70112, 70112); (70133, 70143);
   (70162, 70162); (70207, 70271); (70279, 70279); (70281, 70281);
   (70286, 70286); (70302, 70302); (70314, 70319); (70379, 70383);
   (70394, 70399); (70404, 70404); (70413, 70414); (70417, 70418);
   (70441, 70441); (70449, 70449); (70452, 70452); (70458, 70458);
   (70469, 70470); (70473, 70474); (70478, 70479); (70481, 70486);
   (70488, 70492); (70500, 70501); (70509, 70511); (70517, 70655);
   (70748, 70748); (70754, 70783); (70856, 70863); (70874, 71039);
   (71094, 71095); (71134, 71167); (71237, 71247); (71258, 71263);
   (71277, 71295); (71354, 71359); (71370, 71423); (71451, 71452);
   (71468, 71471); (71495, 71679); (71740, 71839); (71923, 71934);
   (71943, 71944); (71946, 71947); (71956, 71956); (71959, 71959);
   (71990, 71990); (71993, 71994); (72007, 72015); (72026, 72095);
   (72104, 72105); (72152, 72153); (72165, 72191); (72264, 72271);
   (72355, 72367); (72441, 72703); (72713, 72713); (72759, 72759);
   (72774, 72783); (72813, 72815); (72848, 72849); (72872, 72872);
   (72887, 72959); (72967, 72967); (72970, 72970); (73015, 73017);
   (73019, 73019); (73022, 73022); (73032, 73039); (73050, 73055);
   (73062, 73062); (73065, 73065); (73103, 73103); (73106, 73106);
   (73113, 73119); (73130, 73439); (73465, 73647); (73649, 73663);
   (73714, 73726); (74650, 74751); (74863, 74863); (74869, 74879);
   (75076, 77711); (77811, 77823); (78895, 82943); (83527, 92159);
   (92729, 92735); (92767, 92767); (92778, 92781); (92863, 92863);
   (92874, 92879); (92910, 92911); (92918, 92927); (92998, 93007);
   (93018, 93018); (93026, 93026); (93048, 93052); (93072, 93759);
   (93851, 93951); (94027, 94030); (94088, 94094); (94112, 94175);
   (94181, 94191); (94194, 94207); (100344, 100351); (101590, 101631);
   (101641, 110575); (110580, 110580); (110588, 110588); (110591, 110591);
   (110883, 110927); (110931, 110947); (110952, 110959); (111356, 113663);
   (113771, 113775); (113789, 113791); (113801, 113807); (113818, 113819);
   (113824, 118527); (118574, 118575); (118599, 118607); (118724, 118783);
   (119030, 119039); (119079, 119080); (119155, 119162); (119275, 119295);
   (119366, 119519); (119540, 119551); (119639, 119647); (119673, 119807);
   (119893, 119893); (119965, 119965); (119968, 119969); (119971, 119972);
   (119975, 119976); (119981, 119981); (119994, 119994); (119996, 119996);
   (120004, 120004); (120070, 120070); (120075, 120076); (120085, 120085);
   (120093, 120093); (120122, 120122); (120127, 120127); (120133, 120133);
   (120135, 120137); (120145, 120145); (120486, 120487); (120780, 120781);
   (121484, 121498); (121504, 121504); (121520, 122623); (122655, 122879);
   (122887, 122887); (122905, 122906); (122914, 122914); (122917, 122917);
   (122923, 123135); (123181, 123183); (123198, 123199); (123210, 123213);
   (123216, 123535); (123567, 123583); (123642, 123646); (123648, 124895);
   (124903, 124903); (124908, 124908); (124911, 124911); (124927, 124927);
   (125125, 125126); (125143, 125183); (125260, 125263); (125274, 125277);
   (125280, 126064); (126133, 126208); (126270, 126463); (126468, 126468);
   (126496, 126496); (126499, 126499); (126501, 126502); (126504, 126504);
   (126515, 126515); (126520, 126520); (126522, 126522); (126524, 126529);
   (126531, 126534); (126536, 126536); (126538, 126538); (126540, 126540);
   (126544, 126544); (126547, 126547); (126549, 126550); (126552, 126552);
   (126554, 126554); (126556, 126556); (126558, 126558); (126560, 126560);
   (126563, 126563); (126565, 126566); (126571, 126571); (126579, 126579);
   (126584, 126584); (126589, 126589); (126591, 126591); (126602, 126602);
   (126620, 126624); (126628, 126628); (126634, 126634); (126652, 126703);
   (126706, 126975); (127020, 127023); (127124, 127135); (127151, 127152);
   (127168, 127168); (127184, 127184); (127222, 127231); (127406, 127461);
   (127491, 127503); (127548, 127551); (127561, 127567); (127570, 127583);
   (127590, 127743); (128728, 128732); (128749, 128751); (128765, 128767);
   (128884, 128895); (128985, 128991); (129004, 129007); (129009, 129023);
   (129036, 129039); (129096, 129103); (129114, 129119); (129160, 129167);
   (129198, 129199); (129202, 129279); (129620, 129631); (129646, 129647);
   (129653, 129655); (129661, 129663); (129671, 129679); (129709, 129711);
   (129723, 129727); (129734, 129743); (129754, 129759); (129768, 129775);
   (129783, 129791); (129939, 129939); (129995, 130031); (130042, 131071);
   (173792, 173823); (177977, 177983); (178206, 178207); (183970, 183983);
   (191457, 194559); (195102, 196607); (201547, 917759); (918000, 1114111)]%N.

(** [chr(cp).isprintable()] *)
Definition isprintable (cp : N) : bool :=
  if (cp <? 128)%N then (32 <=? cp)%N && (cp <? 127)%N
  else
    negb (existsb (fun r => (fst r <=? cp)%N && (cp <=? snd r)%N)
            non_printable).

(** ** Type names and truthiness *)

Definition type_name (v : json) : string :=
  match v with
  | JNull => "NoneType"
  | JBool _ => "bool"
  | JInt _ => "int"
  | JStr _ => "str"
  | JList _ => "list"
  | JObj _ => "dict"
  end.

(** [bool(v)] *)
Definition truthy (v : json) : bool :=
  match v with
  | JNull => false
  | JBool b => b
  | JInt z => negb (z =? 0)%Z
  | JStr s => negb (s =? "")
  | JList l => match l with [] => false | _ => true end
  | JObj d => match d with [] => false | _ => true end
  end.

(** [v == s] for a [str] [s]: only an equal [str] compares equal. *)
Definition eq_str (v : json) (s : string) : bool :=
  match v with
  | JStr s' => (s' =? s)
  | _ => false
  end.

(** [v == s] where [v] is the result of [d.get(k)] ([None] when absent). *)
Definition opt_eq_str (v : option json) (s : string) : bool :=
  match v with
  | Some v' => eq_str v' s
  | None => false
  end.

Definition isinstance_list (v : json) : bool :=
  match v with JList _ => true | _ => false end.
Definition isinstance_dict (v : json) : bool :=
  match v with JObj _ => true | _ => false end.

(** ** Dictionaries *)

Fixpoint lookup (k : string) (d : dict) : option json :=
  match d with
  | [] => None
  | (k', v) :: rest => if (k' =? k) then Some v else lookup k rest
  end.

(** [v.get(k)], as an [option] ([None] is Python's [None] for an absent
    key); only a [dict] has the attribute. *)
Definition get (v : json) (k : string) : Exc (option json) :=
  match v with
  | JObj d => Ret (lookup k d)
  | _ => Raise ("'" ++ type_name v ++ "' object has no attribute 'get'")
  end.

(** The Python object an [option] stands for. *)
Definition of_option (o : option json) : json :=
  match o with Some v => v | None => JNull end.

(** [v.get(k, default)] *)
Definition get_default (v : json) (k : string) (default : json) : Exc json :=
  (o <- get v k ;;
   Ret (match o with Some x => x | None => default end))%exc.

(** [k in v] for a [dict] [v] *)
Definition has_key (d : dict) (k : string) : bool :=
  match lookup k d with Some _ => true | None => false end.

(** ** [len] and iteration *)

(** [len(v)] *)
Definition len (v : json) : Exc Z :=
  match v with
  | JList l => Ret (Z.of_nat (length l))
  | JObj d => Ret (Z.of_nat (length d))
  | JStr s => Ret (Z.of_nat (length (utf8_chars s)))
  | _ => Raise ("object of type '" ++ type_name v ++ "' has no len()")
  end.

(** The items [for x in v] visits: the elements of a list, the keys of a
    dict, the characters of a string. *)
Definition iter (v : json) : Exc (list json) :=
  match v with
  | JList l => Ret l
  | JObj d => Ret (map (fun kv => JStr (fst kv)) d)
  | JStr s => Ret (map JStr (utf8_chars s))
  | _ => Raise ("'" ++ type_name v ++ "' object is not iterable")
  end.

(** A [for] loop whose body may raise, threading the loop's variables. *)
Fixpoint for_each {S : Type} (items : list json) (body : S -> json -> Exc S)
    (s : S) : Exc S :=
  match items with
  | [] => Ret s
  | x :: rest => (s' <- body s x ;; for_each rest body s')%exc
  end.

(** [v[k]] for a [str] key [k] *)
Definition subscript (v : json) (k : string) : Exc json :=
  match v with
  | JObj d =>
      match lookup k d with
      | Some x => Ret x
      | None => Raise ("'" ++ k ++ "'")
      end
  | JList _ => Raise "list indices must be integers or slices, not str"
  | JStr _ => Raise "string indices must be integers, not 'str'"
  | _ => Raise ("'" ++ type_name v ++ "' object is not subscriptable")
  end.

Definition int_of_bool (b : bool) : Z := if b then 1%Z else 0%Z.

(** [a + b] *)
Definition add (a b : json) : Exc json :=
  let unsupported :=
    Raise ("unsupported operand type(s) for +: '" ++ type_name a ++ "' and '"
           ++ type_name b ++ "'") in
  match a, b with
  | JList l1, JList l2 => Ret (JList (l1 ++ l2)%list)
  | JList _, _ =>
      Raise ("can only concatenate list (not " ++ dquote ++ type_name b
             ++ dquote ++ ") to list")
  | JStr s1, JStr s2 => Ret (JStr (s1 ++ s2))
  | JStr _, _ =>
      Raise ("can only concatenate str (not " ++ dquote ++ type_name b
             ++ dquote ++ ") to str")
  | JInt x, JInt y => Ret (JInt (x + y))
  | JInt x, JBool y => Ret (JInt (x + int_of_bool y))
  | JBool x, JInt y => Ret (JInt (int_of_bool x + y))
  | JBool x, JBool y => Ret (JInt (int_of_bool x + int_of_bool y))
  | _, _ => unsupported
  end.

(** ** Substrings *)

(** [hay.startswith(needle)] *)
Fixpoint starts_with (needle hay : string) : bool :=
  match needle, hay with
  | EmptyString, _ => true
  | String a needle', String b hay' => (a =? b)%char && starts_with needle' hay'
  | String _ _, EmptyString => false
  end.

(** [needle in hay] for two strings: the text [needle] occurs in [hay]. *)
Fixpoint contains (needle hay : string) : bool :=
  starts_with needle hay
  || match hay with
     | EmptyString => false
     | String _ rest => contains needle rest
     end.

(** [needle in v] for a [str] [needle]: a substring of a string, an element
    of a list, a key of a dict. *)
Definition is_in (needle : string) (v : json) : Exc bool :=
  match v with
  | JStr s => Ret (contains needle s)
  | JList l => Ret (existsb (fun x => eq_str x needle) l)
  | JObj d => Ret (existsb (fun kv => (fst kv =? needle)) d)
  | _ => Raise ("argument of type '" ++ type_name v ++ "' is not iterable")
  end.

(** ** [repr] and [str] *)

Fixpoint contains_char (c : ascii) (s : string) : bool :=
  match s with
  | EmptyString => false
  | String c' rest => (c' =? c)%char || contains_char c rest
  end.

(** One character of [repr(s)], as CPython's [unicode_repr] writes it: the
    quote and the backslash are escaped, then tab, line feed and carriage
    return; a printable character is copied; every other one becomes
    [\xhh], [\uhhhh] or [\Uhhhhhhhh] by the size of its code point. *)
Definition repr_char (quote : ascii) (ch : string) : string :=
  let cp := code_point ch in
  if (cp =? N_of_ascii quote)%N || (cp =? 92)%N then backslash ++ ch
  else if (cp =? 9)%N then backslash ++ "t"
  else if (cp =? 10)%N then backslash ++ "n"
  else if (cp =? 13)%N then backslash ++ "r"
  else if isprintable cp then ch
  else if (cp <? 256)%N then backslash ++ "x" ++ hex2 cp
  else if (cp <? 65536)%N then backslash ++ "u" ++ hex4 cp
  else backslash ++ "U" ++ hex8 cp.

Definition repr_chars (quote : ascii) (s : string) : string :=
  String.concat "" (map (repr_char quote) (utf8_chars s)).

(** [repr(s)] for a [str]: single quotes unless the text holds a single
    quote and no double quote. *)
Definition repr_str (s : string) : string :=
  let quote :=
    if contains_char "'" s && negb (contains_char "034" s)
    then "034"%char else "'"%char in
  String quote (repr_chars quote s) ++ String quote "".

(** [repr(v)], for a value whose [int]s are within the limit of [str] (see
    [printable] and [format_value] below) *)
Fixpoint repr (v : json) : string :=
  match v with
  | JNull => "None"
  | JBool true => "True"
  | JBool false => "False"
  | JInt z => str_of_Z z
  | JStr s => repr_str s
  | JList l => "[" ++ String.concat ", " (map repr l) ++ "]"
  | JObj d =>
      "{" ++ String.concat ", "
               (map (fun kv => let '(k, x) := kv in repr_str k ++ ": " ++ repr x) d)
          ++ "}"
  end.

(** [str(v)], what an f-string field [{v}] prints *)
Definition str (v : json) : string :=
  match v with
  | JStr s => s
  | _ => repr v
  end.

(** No [int] inside [v] is beyond the limit of [str].  A value decoded from
    JSON is so: the decoder refuses a longer literal. *)
Fixpoint printable (v : json) : bool :=
  match v with
  | JInt z => printable_int z
  | JList l => forallb printable l
  | JObj d => forallb (fun kv => printable (snd kv)) d
  | _ => true
  end.

(** [str(z)] and [str(v)] with the refusal of a long [int]: the value of an
    f-string field [{z}] or [{v}] whose object the caller supplies. *)
Definition int_str (z : Z) : Exc string :=
  if printable_int z then Ret (str_of_Z z) else Raise int_too_long.

Definition format_value (v : json) : Exc string :=
  if printable v then Ret (str v) else Raise int_too_long.

(** ** [json.dumps(v, indent=2)] *)

(** The module dumps replies only; like [str], [json.dumps] refuses an
    [int] beyond the limit, which no reply holds. *)

(** One character of a JSON string with [ensure_ascii] (the default). *)
Definition dumps_char (ch : string) : string :=
  let cp := code_point ch in
  if (cp =? 34)%N then backslash ++ dquote
  else if (cp =? 92)%N then backslash ++ backslash
  else if (cp =? 10)%N then backslash ++ "n"
  else if (cp =? 13)%N then backslash ++ "r"
  else if (cp =? 9)%N then backslash ++ "t"
  else if (cp =? 8)%N then backslash ++ "b"
  else if (cp =? 12)%N then backslash ++ "f"
  else if (32 <=? cp)%N && (cp <=? 126)%N then ch
  else if (cp <? 65536)%N then backslash ++ "u" ++ hex4 cp
  else
    let n := (cp - 65536)%N in
    let s1 := N.lor 55296 (N.land (N.shiftr n 10) 1023) in
    let s2 := N.lor 56320 (N.land n 1023) in
    backslash ++ "u" ++ hex4 s1 ++ backslash ++ "u" ++ hex4 s2.

Definition dumps_str (s : string) : string :=
  dquote ++ String.concat "" (map dumps_char (utf8_chars s)) ++ dquote.

Definition indent (level : nat) : string := str_repeat "  " level.

Fixpoint dumps_at (level : nat) (v : json) : string :=
  match v with
  | JNull => "null"
  | JBool true => "true"
  | JBool false => "false"
  | JInt z => str_of_Z z
  | JStr s => dumps_str s
  | JList [] => "[]"
  | JList l =>
      "[" ++ nl ++ indent (S level)
          ++ String.concat ("," ++ nl ++ indent (S level))
               (map (dumps_at (S level)) l)
          ++ nl ++ indent level ++ "]"
  | JObj [] => "{}"
  | JObj d =>
      "{" ++ nl ++ indent (S level)
          ++ String.concat ("," ++ nl ++ indent (S level))
               (map (fun kv => let '(k, x) := kv in
                               dumps_str k ++ ": " ++ dumps_at (S level) x) d)
          ++ nl ++ indent level ++ "}"
  end.

Definition json_dumps (v : json) : string := dumps_at 0 v.

(** ** [str.strip()] *)

(** The code points [str.isspace] accepts. *)
Definition is_space (ch : string) : bool :=
  let cp := code_point ch in
  ((9 <=? cp) && (cp <=? 13) || (28 <=? cp) && (cp <=? 32)
   || (cp =? 133) || (cp =? 160) || (cp =? 5760)
   || (8192 <=? cp) && (cp <=? 8202)
   || (cp =? 8232) || (cp =? 8233) || (cp =? 8239) || (cp =? 8287)
   || (cp =? 12288))%N.

Fixpoint drop_spaces (chars : list string) : list string :=
  match chars with
  | [] => []
  | ch :: rest => if is_space ch then drop_spaces rest else chars
  end.

Definition strip (s : string) : string :=
  String.concat ""
    (rev (drop_spaces (rev (drop_spaces (utf8_chars s))))).

End Py.

(* ================================================================== *)
(** * The request collaborator *)
(* ================================================================== *)

Module Dsa.
Import Py.

(** One call [dsa_client._make_request(method, endpoint, data=..., params=...,
    headers=...)]; a keyword the call site omits is [None]. *)
Record Request : Type := mkRequest {
  req_method : string;
  req_endpoint : string;
  req_data : option json;
  req_params : option json;
  req_headers : option json
}.

(** The client is outside the module: it answers a request, given the
    requests already issued in this execution, with the decoded JSON body or
    by raising (a transport failure, a body that does not decode).  A reply
    is a value decoded from JSON, so it is [printable]: the decoder raises on
    an [int] literal of more than 4300 digits.  The properties read the
    replies under this assumption; the arguments of the caller are not
    bound by it, and the module formats them with [int_str] and
    [format_value]. *)
Definition Client := list Request -> Request -> Exc json.

(** An operation runs against a client, appends the requests it issues to
    the trace, and returns or raises.  The trace survives an exception. *)
Definition Op (A : Type) : Type :=
  Client -> list Request -> Exc A * list Request.

Definition ret {A} (a : A) : Op A := fun _ t => (Ret a, t).

Definition bind {A B} (m : Op A) (k : A -> Op B) : Op B :=
  fun c t =>
    match m c t with
    | (Ret a, t') => k a c t'
    | (Raise e, t') => (Raise e, t')
    end.

(** A pure evaluation inside an operation. *)
Definition lift {A} (m : Exc A) : Op A := fun _ t => (m, t).

(** [try: m  except Exception as e: handler(str(e))] *)
Definition try_except {A} (m : Op A) (handler : string -> Op A) : Op A :=
  fun c t =>
    match m c t with
    | (Ret a, t') => (Ret a, t')
    | (Raise e, t') => handler e c t'
    end.

Definition make_request (r : Request) : Op json :=
  fun c t => (c t r, (t ++ [r])%list).

(** An execution starts with no request issued. *)
Definition run {A} (m : Op A) (c : Client) : Exc A * list Request := m c [].

Declare Scope op_scope.
Delimit Scope op_scope with op.
Notation "x <- m ;; k" := (bind m (fun x => k))
  (at level 61, m at next level, right associativity) : op_scope.

Definition GET (endpoint : string) : Request :=
  mkRequest "GET" endpoint None None None.
Definition POST (endpoint : string) (data : json) : Request :=
  mkRequest "POST" endpoint (Some data) None None.

Definition is_post (r : Request) : bool := (req_method r =? "POST").
Definition is_get (r : Request) : bool := (req_method r =? "GET").

End Dsa.

(* ================================================================== *)
(** * bar_tools.py *)
(* ================================================================== *)

Module BarTools.
Import Py Dsa.

(** ["=" * 50] *)
Definition rule : string := str_repeat "=" 50.

(** ** Disk file systems *)

Definition DISK_FILE_SYSTEM : string :=
  "dsa/components/backup-applications/disk-file-system".

(** The [for error in validation['serverValidationList']] body. *)
Definition server_error_lines (results : list string) (error : json)
  : Exc (list string) :=
  (message <- get_default error "message" (JStr "Unknown error") ;;
   code <- get_default error "code" (JStr "N/A") ;;
   valStatus <- get_default error "valStatus" (JStr "N/A") ;;
   Ret (results +++ ["❌ Server Error: " ++ str message;
                    "   Code: " ++ str code;
                    "   Status: " ++ str valStatus]))%exc.

(** The [for error in validation['clientValidationList']] body. *)
Definition client_error_lines (results : list string) (error : json)
  : Exc (list string) :=
  (message <- get_default error "message" (JStr "Unknown error") ;;
   Ret (results +++ ["❌ Client Error: " ++ str message]))%exc.

(** The block under [# Show validation errors if any], which
    [config_disk_file_system] and [remove_disk_file_system] both carry word
    for word: it extends [results]. *)
Definition validation_details (response : json) (results : list string)
  : Exc (list string) :=
  (vl <- get response "validationlist" ;;
   if truthy (of_option vl) then
     validation <- subscript response "validationlist" ;;
     let results := (results +++ [""; "🔍 Validation Details:"]) in
     svl <- get validation "serverValidationList" ;;
     results <-
       (if truthy (of_option svl) then
          errors <- subscript validation "serverValidationList" ;;
          items <- iter errors ;;
          for_each items server_error_lines results
        else Ret results) ;;
     cvl <- get validation "clientValidationList" ;;
     if truthy (of_option cvl) then
       errors <- subscript validation "clientValidationList" ;;
       items <- iter errors ;;
       for_each items client_error_lines results
     else Ret results
   else Ret results)%exc.

(** The item [config_disk_file_system] writes for its arguments. *)
Definition new_file_system (file_system_path : string) (max_files : Z) : json :=
  JObj [("fileSystemPath", JStr file_system_path); ("maxFiles", JInt max_files)].

(** The first [try] block of [config_disk_file_system]: the value of
    [existing_file_systems] after it.  The f-string of the log line calls
    [len], which may raise inside the [try]. *)
Definition config_fetch_existing : Op json :=
  try_except
    (existing_response <- make_request (GET DISK_FILE_SYSTEM) ;;
     status <- lift (get existing_response "status") ;;
     if opt_eq_str status "LIST_DISK_FILE_SYSTEMS_SUCCESSFUL" then
       existing_file_systems <-
         lift (get_default existing_response "fileSystems" (JList [])) ;;
       _ <- lift (len existing_file_systems) ;;
       ret existing_file_systems
     else ret (JList []))%op
    (fun _ => ret (JList [])).

(** Body of the merge loop; the loop variables are
    [(file_systems_to_configure, path_exists)]. *)
Definition config_step (file_system_path : string) (max_files : Z)
    (st : list json * bool) (fs : json) : Exc (list json * bool) :=
  (key <- get fs "fileSystemPath" ;;
   if opt_eq_str key file_system_path then
     Ret ((fst st +++ [new_file_system file_system_path max_files]), true)
   else
     Ret ((fst st +++ [fs]), snd st))%exc.

(** The collection submitted: the loop, then the append when no item had
    the path. *)
Definition config_merge (file_system_path : string) (max_files : Z)
    (existing_file_systems : json) : Exc (list json * bool) :=
  (items <- iter existing_file_systems ;;
   st <- for_each items (config_step file_system_path max_files) ([], false) ;;
   if snd st then Ret st
   else Ret ((fst st +++ [new_file_system file_system_path max_files]),
             false))%exc.

(** The lines every report of [config_disk_file_system] starts with. *)
Definition config_header (file_system_path max_files : string)
    (total : nat) (path_exists : bool) : list string :=
  ["🗂️ DSA Disk File System Configuration";
   rule;
   "📁 File System Path: " ++ file_system_path;
   "📄 Max Files: " ++ max_files;
   "📊 Total File Systems: " ++ str_of_Z (Z.of_nat total);
   "🔄 Operation: " ++ (if path_exists then "Update" else "Add");
   ""].

(** The lines it ends with. *)
Definition config_footer : list string :=
  [""; rule; "✅ Disk file system configuration operation completed"].

(** The text built from the reply to the POST.  The header formats
    [max_files] anew. *)
Definition config_report (file_system_path : string) (max_files : Z)
    (file_systems_to_configure : list json) (path_exists : bool)
    (response : json) : Exc string :=
  (shown <- int_str max_files ;;
   let results :=
     config_header file_system_path shown
       (length file_systems_to_configure) path_exists in
   status <- get response "status" ;;
   results <-
     (if opt_eq_str status "CONFIG_DISK_FILE_SYSTEM_SUCCESSFUL" then
        valid <- get_default response "valid" (JBool false) ;;
        Ret (results +++ ["✅ Disk file system configured successfully";
                          "📊 Status: " ++ str (of_option status);
                          "✔️ Valid: " ++ str valid])
      else
        status' <- get_default response "status" (JStr "Unknown") ;;
        valid <- get_default response "valid" (JBool false) ;;
        validation_details response
          (results +++ ["❌ Failed to configure disk file system";
                        "📊 Status: " ++ str status';
                        "✔️ Valid: " ++ str valid])) ;;
   Ret (join_lines (results +++ config_footer)))%exc.

(** The text of the outer [except] of [config_disk_file_system]. *)
Definition config_error (file_system_path e : string) : string :=
  "❌ Error configuring disk file system '" ++ file_system_path ++ "': " ++ e.

(** The first statement of the [try] logs the arguments with an f-string,
    which formats [max_files] before any request is issued. *)
Definition config_disk_file_system (file_system_path : string) (max_files : Z)
  : Op string :=
  try_except
    (_ <- lift (int_str max_files) ;;
     existing_file_systems <- config_fetch_existing ;;
     merged <- lift (config_merge file_system_path max_files
                       existing_file_systems) ;;
     let '(file_systems_to_configure, path_exists) := merged in
     let request_data :=
       JObj [("fileSystems", JList file_systems_to_configure)] in
     response <- make_request (POST DISK_FILE_SYSTEM request_data) ;;
     lift (config_report file_system_path max_files
             file_systems_to_configure path_exists response))%op
    (fun e => ret (config_error file_system_path e)).

(** The first [try] block of [remove_disk_file_system]: either the text the
    function returns from inside it ([inl]) or [existing_file_systems]. *)
Definition remove_fetch_existing (file_system_path : string)
  : Op (string + json) :=
  try_except
    (existing_response <- make_request (GET DISK_FILE_SYSTEM) ;;
     status <- lift (get existing_response "status") ;;
     if opt_eq_str status "LIST_DISK_FILE_SYSTEMS_SUCCESSFUL" then
       existing_file_systems <-
         lift (get_default existing_response "fileSystems" (JList [])) ;;
       _ <- lift (len existing_file_systems) ;;
       ret (inr existing_file_systems)
     else
       ret (inl ("❌ Could not retrieve existing file systems to remove '"
                 ++ file_system_path ++ "'")))%op
    (fun e => ret (inl ("❌ Error retrieving existing file systems: " ++ e))).

(** Body of the filter loop; the loop variables are
    [(path_exists, file_systems_to_keep)]. *)
Definition remove_step (file_system_path : string)
    (st : bool * list json) (fs : json) : Exc (bool * list json) :=
  (key <- get fs "fileSystemPath" ;;
   if opt_eq_str key file_system_path then Ret (true, snd st)
   else Ret (fst st, (snd st +++ [fs])))%exc.

(** [[fs.get('fileSystemPath', 'N/A') for fs in existing_file_systems]] *)
Definition available_paths_step (paths : list json) (fs : json)
  : Exc (list json) :=
  (path <- get_default fs "fileSystemPath" (JStr "N/A") ;;
   Ret (paths +++ [path]))%exc.

(** The text returned when no item has the path. *)
Definition remove_not_found_report (file_system_path : string)
    (existing_file_systems : list json) : Exc string :=
  (available_paths <- for_each existing_file_systems available_paths_step [] ;;
   Ret (join_lines
          (["🗂️ DSA Disk File System Removal";
            rule;
            "❌ File system '" ++ file_system_path ++ "' not found";
            "";
            "📋 Available file systems:"]
           +++ match available_paths with
              | [] => ["   (No file systems configured)"]
              | _ => map (fun path => "   • " ++ str path) available_paths
              end
           +++ [""; rule])))%exc.

(** One line of the [Remaining file systems] list. *)
Definition remaining_step (results : list string) (fs : json)
  : Exc (list string) :=
  (path <- get_default fs "fileSystemPath" (JStr "N/A") ;;
   max_files <- get_default fs "maxFiles" (JStr "N/A") ;;
   Ret (results +++ ["   • " ++ str path ++ " (Max Files: " ++ str max_files
                    ++ ")"]))%exc.

(** The lines every report of a submitted removal starts with. *)
Definition remove_header (file_system_path : string) (remaining : nat)
  : list string :=
  ["🗂️ DSA Disk File System Removal";
   rule;
   "📁 Removed File System: " ++ file_system_path;
   "📊 Remaining File Systems: " ++ str_of_Z (Z.of_nat remaining);
   ""].

(** The lines it ends with. *)
Definition remove_footer : list string :=
  [""; rule; "✅ Disk file system removal operation completed"].

(** The text built from the reply to the POST. *)
Definition remove_report (file_system_path : string)
    (file_systems_to_keep : list json) (response : json) : Exc string :=
  let results :=
    remove_header file_system_path (length file_systems_to_keep) in
  (status <- get response "status" ;;
   results <-
     (if opt_eq_str status "CONFIG_DISK_FILE_SYSTEM_SUCCESSFUL" then
        valid <- get_default response "valid" (JBool false) ;;
        let results :=
          results +++ ["✅ Disk file system removed successfully";
                       "📊 Status: " ++ str (of_option status);
                       "✔️ Valid: " ++ str valid] in
        match file_systems_to_keep with
        | [] =>
            Ret (results +++ [""; "📋 No file systems remaining (all removed)"])
        | _ =>
            for_each file_systems_to_keep remaining_step
              (results +++ [""; "📋 Remaining file systems:"])
        end
      else
        status' <- get_default response "status" (JStr "Unknown") ;;
        valid <- get_default response "valid" (JBool false) ;;
        validation_details response
          (results +++ ["❌ Failed to remove disk file system";
                        "📊 Status: " ++ str status';
                        "✔️ Valid: " ++ str valid])) ;;
   Ret (join_lines (results +++ remove_footer)))%exc.

(** The text of the outer [except] of [remove_disk_file_system]. *)
Definition remove_error (file_system_path e : string) : string :=
  "❌ Error removing disk file system '" ++ file_system_path ++ "': " ++ e.

Definition remove_disk_file_system (file_system_path : string) : Op string :=
  try_except
    (fetched <- remove_fetch_existing file_system_path ;;
     match fetched with
     | inl text => ret text
     | inr existing_file_systems =>
         items <- lift (iter existing_file_systems) ;;
         st <- lift (for_each items (remove_step file_system_path)
                       (false, [])) ;;
         let '(path_exists, file_systems_to_keep) := st in
         if negb path_exists then
           lift (remove_not_found_report file_system_path items)
         else
           let request_data :=
             JObj [("fileSystems", JList file_systems_to_keep)] in
           response <- make_request (POST DISK_FILE_SYSTEM request_data) ;;
           lift (remove_report file_system_path file_systems_to_keep response)
     end)%op
    (fun e => ret (remove_error file_system_path e)).

(** The [for error in validation['serverValidationList']] body of the list
    functions. *)
Definition list_error_lines (results : list string) (error : json)
  : Exc (list string) :=
  (message <- get_default error "message" (JStr "Unknown error") ;;
   Ret (results +++ ["❌ Error: " ++ str message]))%exc.

(** The block under [if response.get('validationlist'):] of the two list
    functions, which carry it word for word. *)
Definition list_failure_details (response : json) (results : list string)
  : Exc (list string) :=
  (vl <- get response "validationlist" ;;
   if truthy (of_option vl) then
     validation <- subscript response "validationlist" ;;
     svl <- get validation "serverValidationList" ;;
     if truthy (of_option svl) then
       errors <- subscript validation "serverValidationList" ;;
       items <- iter errors ;;
       for_each items list_error_lines results
     else Ret results
   else Ret results)%exc.

(** Body of [for i, fs in enumerate(file_systems, 1)]; the loop variables
    are [(results, i)]. *)
Definition file_system_step (st : list string * Z) (fs : json)
  : Exc (list string * Z) :=
  let '(results, i) := st in
  (path <- get_default fs "fileSystemPath" (JStr "N/A") ;;
   max_files <- get_default fs "maxFiles" (JStr "N/A") ;;
   Ret (results +++ ["🗂️ File System #" ++ str_of_Z i;
                     "   📁 Path: " ++ str path;
                     "   📄 Max Files: " ++ str max_files;
                     ""],
        (i + 1)%Z))%exc.

(** The text [list_disk_file_systems] builds from the reply. *)
Definition list_disk_report (response : json) : Exc string :=
  let results := ["🗂️ DSA Disk File Systems"; rule] in
  (status <- get response "status" ;;
   if opt_eq_str status "LIST_DISK_FILE_SYSTEMS_SUCCESSFUL" then
     file_systems <- get_default response "fileSystems" (JList []) ;;
     results <-
       (if truthy file_systems then
          total <- len file_systems ;;
          items <- iter file_systems ;;
          st <- for_each items file_system_step
                  (results +++ ["📊 Total File Systems: " ++ str_of_Z total; ""],
                   1%Z) ;;
          Ret (fst st)
        else Ret (results +++ ["📋 No disk file systems configured"])) ;;
     found <- get_default response "foundComponent" (JBool false) ;;
     valid <- get_default response "valid" (JBool false) ;;
     Ret (join_lines
            (results +++ [rule;
                          "✅ Status: " ++ str (of_option status);
                          "🔍 Found Component: " ++ str found;
                          "✔️ Valid: " ++ str valid]))
   else
     status' <- get_default response "status" (JStr "Unknown") ;;
     results <-
       list_failure_details response
         (results +++ ["❌ Failed to list disk file systems";
                       "📊 Status: " ++ str status']) ;;
     Ret (join_lines results))%exc.

Definition list_disk_file_systems : Op string :=
  try_except
    (response <- make_request (GET DISK_FILE_SYSTEM) ;;
     lift (list_disk_report response))%op
    (fun e => ret ("❌ Error listing disk file systems: " ++ e)).

(** [any('in use by' in error.get('message', '') for error in errors)]:
    it stops at the first error that matches. *)
Fixpoint any_in_use (errors : list json) : Exc bool :=
  match errors with
  | [] => Ret false
  | error :: rest =>
      (message <- get_default error "message" (JStr "") ;;
       found <- is_in "in use by" message ;;
       if found then Ret true else any_in_use rest)%exc
  end.

(** The text [delete_disk_file_systems] builds from the reply. *)
Definition delete_disk_report (response : json) : Exc string :=
  let results := ["🗂️ DSA Disk File System Deletion"; rule] in
  (status <- get response "status" ;;
   results <-
     (if opt_eq_str status "DELETE_COMPONENT_SUCCESSFUL" then
        valid <- get_default response "valid" (JBool false) ;;
        Ret (results +++ ["✅ All disk file systems deleted successfully";
                          "📊 Status: " ++ str (of_option status);
                          "✔️ Valid: " ++ str valid])
      else
        status' <- get_default response "status" (JStr "Unknown") ;;
        valid <- get_default response "valid" (JBool false) ;;
        let results :=
          results +++ ["❌ Failed to delete disk file systems";
                       "📊 Status: " ++ str status';
                       "✔️ Valid: " ++ str valid] in
        vl <- get response "validationlist" ;;
        if truthy (of_option vl) then
          results <- validation_details response results ;;
          validation <- subscript response "validationlist" ;;
          server_errors <-
            get_default validation "serverValidationList" (JList []) ;;
          errors <- iter server_errors ;;
          in_use <- any_in_use errors ;;
          if in_use then
            Ret (results +++ ["";
                              "💡 Helpful Notes:";
                              "   • Remove all backup jobs using these file systems first";
                              "   • Delete any file target groups that reference these file systems";
                              "   • Use list_disk_file_systems() to see current configurations"])
          else Ret results
        else Ret results) ;;
   Ret (join_lines
          (results +++ [""; rule;
                        "✅ Disk file system deletion operation completed"]))
  )%exc.

Definition delete_disk_file_systems : Op string :=
  try_except
    (response <-
       make_request (mkRequest "DELETE" DISK_FILE_SYSTEM None None None) ;;
     lift (delete_disk_report response))%op
    (fun e => ret ("❌ Error deleting disk file systems: " ++ e)).

(** [not s] for an [Optional[str]]: the argument when it is a non-empty
    string. *)
Definition given (s : option string) : option string :=
  match s with
  | Some x => if (x =? "") then None else Some x
  | None => None
  end.

Definition available_operations : list string :=
  ["list"; "config"; "delete_all"; "remove"].

(** The text for an operation outside [available_operations]. *)
Definition unknown_operation (operation : string) : string :=
  "❌ Error: Unknown operation '" ++ operation ++ "'. Available operations: "
  ++ String.concat ", " available_operations.

Definition manage_dsa_disk_file_systems (operation : string)
    (file_system_path : option string) (max_files : option Z) : Op string :=
  try_except
    (if (operation =? "list") then list_disk_file_systems
     else if (operation =? "config") then
       match given file_system_path with
       | None => ret "❌ Error: file_system_path is required for config operation"
       | Some file_system_path =>
           match max_files with
           | None => ret "❌ Error: max_files is required for config operation"
           | Some max_files =>
               config_disk_file_system file_system_path max_files
           end
       end
     else if (operation =? "delete_all") then delete_disk_file_systems
     else if (operation =? "remove") then
       match given file_system_path with
       | None => ret "❌ Error: file_system_path is required for remove operation"
       | Some file_system_path => remove_disk_file_system file_system_path
       end
     else ret (unknown_operation operation))
    (fun e => ret ("❌ Error during " ++ operation ++ ": " ++ e)).

(** ** AWS S3 backup configurations *)

Definition AWS_S3 : string := "dsa/components/backup-applications/aws-s3".

(** [if isinstance(v, dict): v = [v]] *)
Definition as_list (v : json) : json :=
  if isinstance_dict v then JList [v] else v.

(** [results.insert(1, line)] *)
Definition insert_at_1 (line : string) (results : list string) : list string :=
  firstn 1 results +++ [line] +++ skipn 1 results.

(** Body of [for k, prefix in enumerate(prefix_list, 1)]; the loop variables
    are [(results, k)]. *)
Definition prefix_step (st : list string * Z) (prefix : json)
  : Exc (list string * Z) :=
  let '(results, k) := st in
  (prefix_name <- get_default prefix "prefixName" (JStr "N/A") ;;
   storage_devices <- get_default prefix "storageDevices" (JStr "N/A") ;;
   Ret (results +++ ["      🔖 Prefix #" ++ str_of_Z k ++ ": " ++ str prefix_name;
                     "         Storage Devices: " ++ str storage_devices],
        (k + 1)%Z))%exc.

(** Body of [for j, bucket in enumerate(buckets, 1)]; the loop variables are
    [(results, j, bucket_count)]. *)
Definition bucket_step (st : list string * Z * Z) (bucket : json)
  : Exc (list string * Z * Z) :=
  let '(results, j, bucket_count) := st in
  let bucket_count := (bucket_count + 1)%Z in
  (bucket_name <- get_default bucket "bucketName" (JStr "N/A") ;;
   let results :=
     results +++ ["   📁 Bucket #" ++ str_of_Z j ++ ": " ++ str bucket_name] in
   prefix_list <- get_default bucket "prefixList" (JList []) ;;
   let prefix_list := as_list prefix_list in
   results <-
     (if truthy prefix_list then
        items <- iter prefix_list ;;
        st' <- for_each items prefix_step (results, 1%Z) ;;
        Ret (fst st')
      else Ret (results +++ ["      🔖 No prefixes configured"])) ;;
   Ret (results, (j + 1)%Z, bucket_count))%exc.

(** Body of [for i, region in enumerate(bucketsByRegion, 1)]; the loop
    variables are [(results, i, bucket_count)]. *)
Definition region_step (st : list string * Z * Z) (region : json)
  : Exc (list string * Z * Z) :=
  let '(results, i, bucket_count) := st in
  (region_name <- get_default region "region" (JStr "N/A") ;;
   let results :=
     results +++ ["🗂️ Region #" ++ str_of_Z i ++ ": " ++ str region_name] in
   buckets <- get_default region "buckets" (JList []) ;;
   let buckets := as_list buckets in
   st' <-
     (if truthy buckets then
        items <- iter buckets ;;
        st' <- for_each items bucket_step (results, 1%Z, bucket_count) ;;
        let '(results, _, bucket_count) := st' in
        Ret (results, bucket_count)
      else
        Ret (results +++ ["   📁 No buckets configured in this region"],
             bucket_count)) ;;
   Ret (fst st' +++ [""], (i + 1)%Z, snd st'))%exc.

(** The text [list_aws_s3_backup_configurations] builds from the reply. *)
Definition list_aws_s3_report (response : json) : Exc string :=
  let results := ["🗂️ DSA AWS S3 Backup Solution Systems Available"; rule] in
  (status <- get response "status" ;;
   if opt_eq_str status "LIST_AWS_APP_SUCCESSFUL" then
     aws_list <- get_default response "aws" (JList []) ;;
     bucketsByRegion <-
       match aws_list with
       | JList (first :: _) =>
           configAwsRest <- get_default first "configAwsRest" (JObj []) ;;
           get_default configAwsRest "bucketsByRegion" (JList [])
       | _ => Ret (JList [])
       end ;;
     let bucketsByRegion := as_list bucketsByRegion in
     results <-
       (if truthy bucketsByRegion then
          items <- iter bucketsByRegion ;;
          st <- for_each items region_step (results, 1%Z, 0%Z) ;;
          let '(results, _, bucket_count) := st in
          Ret (insert_at_1
                 ("📊 Total Buckets Configured: " ++ str_of_Z bucket_count)
                 results)
        else Ret (results +++ ["📋 No AWS backup Solutions Configured"])) ;;
     found <- get_default response "foundComponent" (JBool false) ;;
     valid <- get_default response "valid" (JBool false) ;;
     Ret (join_lines
            (results +++ [rule;
                          "✅ Status: " ++ str (of_option status);
                          "🔍 Found Component: " ++ str found;
                          "✔️ Valid: " ++ str valid]))
   else
     status' <- get_default response "status" (JStr "Unknown") ;;
     results <-
       list_failure_details response
         (results +++ ["❌ Failed to list AWS S3 Backup Solutions Configured";
                       "📊 Status: " ++ str status']) ;;
     Ret (join_lines results))%exc.

Definition list_aws_s3_backup_configurations : Op string :=
  try_except
    (response <- make_request (GET AWS_S3) ;;
     lift (list_aws_s3_report response))%op
    (fun e => ret ("❌ Error listing AWS S3 Backup Solutions Configured: " ++ e)).

(** [not v] for an [Optional[object]] *)
Definition given_object (v : option json) : option json :=
  match v with
  | Some x => if truthy x then Some x else None
  | None => None
  end.

(** The [request_data] of the S3 [config] operation. *)
Definition s3_request_data (accessId accessKey : string) (bucketsByRegion : json)
    (bucketName acctName : string) : json :=
  JObj [("configAwsRest",
         JObj [("accessId", JStr accessId);
               ("accessKey", JStr accessKey);
               ("bucketsByRegion", bucketsByRegion);
               ("bucketName", JStr bucketName);
               ("acctName", JStr acctName);
               ("viewpoint", JBool true);
               ("viewpointBucketRegion", JBool true)])].

Definition manage_AWS_S3_backup_configurations (operation : string)
    (accessId accessKey : option string) (bucketsByRegion : option json)
    (bucketName acctName : option string) : Op string :=
  try_except
    (if (operation =? "list") then list_aws_s3_backup_configurations
     else if (operation =? "config") then
       match given accessId with
       | None => ret "❌ Error: accessId is required for config operation"
       | Some accessId =>
       match given accessKey with
       | None => ret "❌ Error: accessKey is required for config operation"
       | Some accessKey =>
       match given_object bucketsByRegion with
       | None => ret "❌ Error: bucketsByRegion is required for config operation"
       | Some bucketsByRegion =>
       match given acctName with
       | None => ret "❌ Error: acctName is required for config operation"
       | Some acctName =>
       match given bucketName with
       | None => ret "❌ Error: bucketName is required for config operation"
       | Some bucketName =>
           let request_data :=
             s3_request_data accessId accessKey bucketsByRegion bucketName
               acctName in
           try_except
             (response <- make_request (POST AWS_S3 request_data) ;;
              ret ("✅ AWS backup solution configuration operation completed"
                   ++ nl ++ "Response: " ++ str response))%op
             (fun e => ret ("❌ Error configuring AWS backup solution: " ++ e))
       end end end end end
     else if (operation =? "delete_all") then
       ret "❌ Error: 'delete_all' operation is not implemented yet for AWS S3 Configuration"
     else if (operation =? "remove") then
       ret "❌ Error: 'remove' operation is not implemented yet for AWS S3 Configuration"
     else
       ret (unknown_operation operation))
    (fun e => ret ("❌ Error during " ++ operation ++ ": " ++ e)).

(** ** Media servers *)

Definition MEDIA_SERVERS : string := "dsa/components/mediaservers".

(** Body of [for error in client_errors + server_errors]. *)
Definition error_message_step (error_messages : list string) (error : json)
  : Exc (list string) :=
  (code <- get_default error "code" (JStr "N/A") ;;
   message <- get_default error "message" (JStr "Unknown error") ;;
   Ret (error_messages +++ ["Code " ++ str code ++ ": " ++ str message]))%exc.

(** What each media-server function does with the reply, from
    [if not response.get("valid", False)] to its last [return]; the six
    functions differ only in the text [failed] that opens a failure. *)
Definition media_report (failed : string) (response : json) : Exc string :=
  (valid <- get_default response "valid" (JBool false) ;;
   if negb (truthy valid) then
     validation_list <- get_default response "validationlist" (JObj []) ;;
     error_messages <-
       (if truthy validation_list then
          client_errors <-
            get_default validation_list "clientValidationList" (JList []) ;;
          server_errors <-
            get_default validation_list "serverValidationList" (JList []) ;;
          errors <- add client_errors server_errors ;;
          items <- iter errors ;;
          for_each items error_message_step []
        else Ret []) ;;
     match error_messages with
     | [] =>
         status <- get_default response "status" (JStr "Unknown error") ;;
         Ret (failed ++ ": " ++ str status)
     | _ => Ret (failed ++ ":" ++ nl ++ join_lines error_messages)
     end
   else Ret (json_dumps response))%exc.

Definition _list_media_servers : Op string :=
  try_except
    (response <- make_request (GET MEDIA_SERVERS) ;;
     lift (media_report "❌ Failed to list media servers" response))%op
    (fun e => ret ("❌ Error listing media servers: " ++ e)).

Definition _get_media_server (server_name : string) : Op string :=
  try_except
    (let endpoint := MEDIA_SERVERS ++ "/" ++ server_name in
     response <- make_request (GET endpoint) ;;
     lift (media_report ("❌ Failed to get media server '" ++ server_name ++ "'")
             response))%op
    (fun e => ret ("❌ Error getting media server '" ++ server_name ++ "': " ++ e)).

(** [isinstance(ip_info, dict) and 'ipAddress' in ip_info and 'netmask' in
    ip_info] *)
Definition well_formed_ip_info (ip_info : json) : bool :=
  match ip_info with
  | JObj d => has_key d "ipAddress" && has_key d "netmask"
  | _ => false
  end.

(** The [payload] of [_add_media_server]. *)
Definition add_payload (server_name : string) (port : Z) (ip_list : json) : json :=
  JObj [("serverName", JStr (strip server_name));
        ("port", JInt port);
        ("ipInfo", ip_list)].

Definition add_headers : json :=
  JObj [("Content-Type", JStr "application/json"); ("Accept", JStr "*/*")].

Definition _add_media_server (server_name : string) (port : Z) (ip_list : json)
    (pool_shared_pipes : Z) : Op string :=
  try_except
    (if (server_name =? "") || (strip server_name =? "") then
       ret "❌ Server name is required and cannot be empty"
     else if negb ((1 <=? port)%Z && (port <=? 65535)%Z) then
       ret "❌ Port must be between 1 and 65535"
     else
       match ip_list with
       | JList ((_ :: _) as ip_infos) =>
           if negb (forallb well_formed_ip_info ip_infos) then
             ret "❌ Each IP address must be a dictionary with 'ipAddress' and 'netmask' keys"
           else
             let payload := add_payload server_name port ip_list in
             response <-
               make_request
                 (mkRequest "POST" MEDIA_SERVERS (Some payload) None
                    (Some add_headers)) ;;
             lift (media_report
                     ("❌ Failed to add media server '" ++ server_name ++ "'")
                     response)
       | _ => ret "❌ At least one IP address is required"
       end)%op
    (fun e => ret ("❌ Error adding media server '" ++ server_name ++ "': " ++ e)).

Definition _delete_media_server (server_name : string) (virtual : bool)
  : Op string :=
  try_except
    (let params :=
       if virtual then JObj [("virtual", JStr "true")] else JObj [] in
     let endpoint := MEDIA_SERVERS ++ "/" ++ server_name in
     response <-
       make_request (mkRequest "DELETE" endpoint None (Some params) None) ;;
     lift (media_report
             ("❌ Failed to delete media server '" ++ server_name ++ "'")
             response))%op
    (fun e => ret ("❌ Error deleting media server '" ++ server_name ++ "': " ++ e)).

Definition _list_media_server_consumers : Op string :=
  try_except
    (response <- make_request (GET (MEDIA_SERVERS ++ "/listconsumers")) ;;
     lift (media_report "❌ Failed to list media server consumers" response))%op
    (fun e => ret ("❌ Error listing media server consumers: " ++ e)).

Definition _list_media_server_consumers_by_name (server_name : string)
  : Op string :=
  try_except
    (let endpoint :=
       MEDIA_SERVERS ++ "/listconsumers/" ++ strip server_name in
     response <- make_request (GET endpoint) ;;
     lift (media_report
             ("❌ Failed to list consumers for media server '" ++ server_name
              ++ "'")
             response))%op
    (fun e => ret ("❌ Error listing consumers for media server '"
                   ++ server_name ++ "': " ++ e)).

Definition valid_operations : list string :=
  ["list"; "get"; "add"; "delete"; "list_consumers"; "list_consumers_by_server"].

(** [operation in valid_operations] *)
Definition is_valid_operation (operation : string) : bool :=
  existsb (String.eqb operation) valid_operations.

(** [pool_shared_pipes or 50] *)
Definition pipes_or_50 (pool_shared_pipes : option Z) : Z :=
  match pool_shared_pipes with
  | Some z => if (z =? 0)%Z then 50%Z else z
  | None => 50%Z
  end.

(** [not port]: the argument when it is a non-zero integer. *)
Definition given_int (port : option Z) : option Z :=
  match port with
  | Some z => if (z =? 0)%Z then None else Some z
  | None => None
  end.

(** The outcome of [json.loads]: the decoded value, a [JSONDecodeError], or
    another exception (the [ValueError] of an [int] literal of more than
    4300 digits, a [RecursionError]). *)
Inductive Loaded : Type :=
| Decoded (v : json)
| JSONDecodeError (msg : string)
| OtherError (msg : string).

Section MediaServers.

(** [json.loads] of the standard library. *)
Variable json_loads : string -> Loaded.

(** The text that shows callers the expected JSON. *)
Definition expected_ip_format : string :=
  "'[{" ++ dquote ++ "ipAddress" ++ dquote ++ ": " ++ dquote ++ "IP" ++ dquote
   ++ ", " ++ dquote ++ "netmask" ++ dquote ++ ": " ++ dquote ++ "MASK"
   ++ dquote ++ "}]'".

(** The [if]/[elif] chain is exhaustive over [valid_operations]; falling off
    its end (Python's implicit [None]) happens for no operation that passes the
    membership test, and is rendered as the empty text. *)
Definition manage_dsa_media_servers (operation : string)
    (server_name : option string) (port : option Z)
    (ip_addresses : option string) (pool_shared_pipes : option Z)
    (virtual : option bool) : Op string :=
  if negb (is_valid_operation operation) then
    ret ("❌ Invalid operation '" ++ operation ++ "'. Valid operations: "
         ++ String.concat ", " valid_operations)
  else
    try_except
      (if (operation =? "list") then _list_media_servers
       else if (operation =? "get") then
         match given server_name with
         | None => ret "❌ server_name is required for 'get' operation"
         | Some server_name => _get_media_server server_name
         end
       else if (operation =? "add") then
         match given server_name with
         | None => ret "❌ server_name is required for 'add' operation"
         | Some server_name =>
         match given_int port with
         | None => ret "❌ port is required for 'add' operation"
         | Some port =>
         match given ip_addresses with
         | None => ret "❌ ip_addresses is required for 'add' operation"
         | Some ip_addresses =>
             match json_loads ip_addresses with
             | Decoded ip_list =>
                 _add_media_server server_name port ip_list
                   (pipes_or_50 pool_shared_pipes)
             | JSONDecodeError e =>
                 ret ("❌ Invalid IP addresses format: " ++ e ++ nl
                      ++ "Expected JSON format: " ++ expected_ip_format)
             | OtherError e => lift (Raise e)
             end
         end end end
       else if (operation =? "delete") then
         match given server_name with
         | None => ret "❌ server_name is required for 'delete' operation"
         | Some server_name =>
             _delete_media_server server_name
               (match virtual with Some b => b | None => false end)
         end
       else if (operation =? "list_consumers") then _list_media_server_consumers
       else if (operation =? "list_consumers_by_server") then
         match given server_name with
         | None =>
             ret "❌ server_name is required for 'list_consumers_by_server' operation"
         | Some server_name => _list_media_server_consumers_by_name server_name
         end
       else ret "")
      (fun e => ret ("❌ Error executing media server operation '" ++ operation
                     ++ "': " ++ e)).

End MediaServers.

(** ** Tool handlers for MCP *)

(** [None] or the string, as a Python object. *)
Definition of_opt_str (s : option string) : json :=
  match s with Some x => JStr x | None => JNull end.

Definition of_opt_int (z : option Z) : json :=
  match z with Some x => JInt x | None => JNull end.

(** The [metadata] of a completed call of the S3 handler. *)
Definition s3_metadata (operation : string) (accessId accessKey : option string)
    (bucketsByRegion : option json) (bucketName acctName : option string)
  : json :=
  JObj [("tool_name", JStr "bar_manageAWSS3Operations");
        ("operation", JStr operation);
        ("accessId", of_opt_str accessId);
        ("accessKey", of_opt_str accessKey);
        ("bucketsByRegion", of_option bucketsByRegion);
        ("bucketName", of_opt_str bucketName);
        ("acctName", of_opt_str acctName);
        ("success", JBool true)].

Section Handlers.

(** [create_response] of [teradata_mcp_server.tools.utils]: it wraps the
    text and the metadata into the response the MCP framework returns, and
    issues no request. *)
Variable ResponseType : Type.
Variable create_response : string -> json -> ResponseType.
Variable json_loads : string -> Loaded.

(** The handlers ignore [conn], [*args] and [**kwargs].  Each logs its
    arguments with an f-string before its [try], so an argument that cannot
    be formatted raises out of the handler; the log of the metadata is inside
    the [try]. *)
Definition handle_bar_manageDsaDiskFileSystem (operation : string)
    (file_system_path : option string) (max_files : option Z)
  : Op ResponseType :=
  (_ <- lift (format_value (of_opt_int max_files)) ;;
   try_except
    (result <-
       manage_dsa_disk_file_systems operation file_system_path max_files ;;
     let metadata :=
       JObj [("tool_name", JStr "bar_manageDsaDiskFileSystem");
             ("operation", JStr operation);
             ("file_system_path", of_opt_str file_system_path);
             ("max_files", of_opt_int max_files);
             ("success", JBool true)] in
     _ <- lift (format_value metadata) ;;
     ret (create_response result metadata))%op
    (fun e =>
       let error_result := "❌ Error in DSA disk file system operation: " ++ e in
       let metadata :=
         JObj [("tool_name", JStr "bar_manageDsaDiskFileSystem");
               ("operation", JStr operation);
               ("error", JStr e);
               ("success", JBool false)] in
       ret (create_response error_result metadata)))%op.

Definition handle_bar_manageAWSS3Operations (operation : string)
    (accessId accessKey : option string) (bucketsByRegion : option json)
    (bucketName acctName : option string) : Op ResponseType :=
  (_ <- lift (format_value (of_option bucketsByRegion)) ;;
   _ <- lift (format_value (of_option bucketsByRegion)) ;;
   try_except
    (result <-
       manage_AWS_S3_backup_configurations operation accessId accessKey
         bucketsByRegion (Some "tdedsabucket01") acctName ;;
     let metadata :=
       s3_metadata operation accessId accessKey bucketsByRegion bucketName
         acctName in
     _ <- lift (format_value metadata) ;;
     ret (create_response result metadata))%op
    (fun e =>
       let error_result := "❌ Error in DSA AWS S3 operation: " ++ e in
       let metadata :=
         JObj [("tool_name", JStr "bar_manageAWSS3Operations");
               ("operation", JStr operation);
               ("error", JStr e);
               ("success", JBool false)] in
       ret (create_response error_result metadata)))%op.

Definition handle_bar_manageMediaServer (operation : string)
    (server_name : option string) (port : option Z)
    (ip_addresses : option string) (pool_shared_pipes : option Z)
    (virtual : option bool) : Op ResponseType :=
  (_ <- lift (format_value (of_opt_int port)) ;;
   try_except
    (if negb (is_valid_operation operation) then
       let error_result :=
         "❌ Invalid operation '" ++ operation ++ "'. Valid operations: "
         ++ String.concat ", " valid_operations in
       let metadata :=
         JObj [("tool_name", JStr "bar_manageMediaServer");
               ("operation", JStr operation);
               ("error", JStr "Invalid operation");
               ("success", JBool false)] in
       ret (create_response error_result metadata)
     else
       result <-
         manage_dsa_media_servers json_loads operation server_name port
           ip_addresses pool_shared_pipes virtual ;;
       let metadata :=
         JObj [("tool_name", JStr "bar_manageMediaServer");
               ("operation", JStr operation);
               ("server_name", of_opt_str server_name);
               ("success", JBool true)] in
       ret (create_response result metadata))%op
    (fun e =>
       let error_result := "❌ Error in DSA media server operation: " ++ e in
       let metadata :=
         JObj [("tool_name", JStr "bar_manageMediaServer");
               ("operation", JStr operation);
               ("error", JStr e);
               ("success", JBool false)] in
       ret (create_response error_result metadata)))%op.

End Handlers.

End BarTools.

(* ================================================================== *)
(** * Specification vocabulary *)
(* ================================================================== *)

Module Spec.
Import Py Dsa BarTools.

(** The request body that carries a whole collection. *)
Definition collection (items : list json) : json :=
  JObj [("fileSystems", JList items)].

(** The two requests of a disk-file-system mutation. *)
Definition fetch : Request := GET DISK_FILE_SYSTEM.
Definition write (items : list json) : Request :=
  POST DISK_FILE_SYSTEM (collection items).

(** An item's key is the value under [fileSystemPath]; it matches a path
    when it is that string. *)
Definition key (fs : dict) : option json := lookup "fileSystemPath" fs.
Definition has_path (path : string) (fs : dict) : bool :=
  opt_eq_str (key fs) path.

Definition new_item (path : string) (max_files : Z) : dict :=
  [("fileSystemPath", JStr path); ("maxFiles", JInt max_files)].

(** The reconciler's contracts, as the specification words them: an item
    with the key is replaced where it stands, otherwise the new item is
    appended; removal filters the key out. *)
Definition upsert (path : string) (max_files : Z) (items : list dict)
  : list dict :=
  map (fun fs => if has_path path fs then new_item path max_files else fs) items
  +++ (if existsb (has_path path) items then [] else [new_item path max_files]).

Definition remove (path : string) (items : list dict) : list dict :=
  filter (fun fs => negb (has_path path fs)) items.

(** The reply to the fetch is a successful listing of [items]. *)
Definition lists (reply : Exc json) (items : list dict) : Prop :=
  exists d,
    reply = Ret (JObj d)
    /\ lookup "status" d = Some (JStr "LIST_DISK_FILE_SYSTEMS_SUCCESSFUL")
    /\ lookup "fileSystems" d = Some (JList (map JObj items)).

(** The fetch failed: the client raised, or the reply is not a listing with
    the success status. *)
Definition fetch_failed (reply : Exc json) : bool :=
  match reply with
  | Ret (JObj d) =>
      negb (opt_eq_str (lookup "status" d) "LIST_DISK_FILE_SYSTEMS_SUCCESSFUL")
  | _ => true
  end.

(** The value [existing_file_systems] holds after the first [try] block of
    [config_disk_file_system], as a function of the reply to the fetch. *)
Definition existing_after_fetch (reply : Exc json) : json :=
  match
    (existing_response <- reply ;;
     status <- get existing_response "status" ;;
     if opt_eq_str status "LIST_DISK_FILE_SYSTEMS_SUCCESSFUL" then
       existing_file_systems <-
         get_default existing_response "fileSystems" (JList []) ;;
       _ <- len existing_file_systems ;;
       Ret existing_file_systems
     else Ret (JList []))%exc
  with
  | Ret v => v
  | Raise _ => JList []
  end.

(** What the first [try] block of [remove_disk_file_system] yields, as a
    function of the reply to the fetch: the text returned from inside the
    block, or [existing_file_systems]. *)
Definition remove_after_fetch (path : string) (reply : Exc json)
  : string + json :=
  match
    (existing_response <- reply ;;
     status <- get existing_response "status" ;;
     if opt_eq_str status "LIST_DISK_FILE_SYSTEMS_SUCCESSFUL" then
       existing_file_systems <-
         get_default existing_response "fileSystems" (JList []) ;;
       _ <- len existing_file_systems ;;
       Ret (inr existing_file_systems)
     else
       Ret (inl ("❌ Could not retrieve existing file systems to remove '"
                 ++ path ++ "'")))%exc
  with
  | Ret x => x
  | Raise e => inl ("❌ Error retrieving existing file systems: " ++ e)
  end.

(** The filter loop of [remove_disk_file_system] over the fetched value. *)
Definition remove_scan (path : string) (existing_file_systems : json)
  : Exc (list json * (bool * list json)) :=
  (items <- iter existing_file_systems ;;
   st <- for_each items (remove_step path) (false, []) ;;
   Ret (items, st))%exc.

(** [fs.get(k, default)] on an item. *)
Definition field (k : string) (default : json) (fs : dict) : json :=
  match lookup k fs with
  | Some v => v
  | None => default
  end.

(** The line that lists one known key in the not-found report. *)
Definition bullet (fs : dict) : string :=
  "   • " ++ str (field "fileSystemPath" (JStr "N/A") fs).

(** The line that lists one remaining item after a removal. *)
Definition remaining_line (fs : dict) : string :=
  "   • " ++ str (field "fileSystemPath" (JStr "N/A") fs)
  ++ " (Max Files: " ++ str (field "maxFiles" (JStr "N/A") fs) ++ ")".

(** The lines a rejected write shows for one server error and for one
    client error. *)
Definition server_error_shown (error : dict) : list string :=
  ["❌ Server Error: " ++ str (field "message" (JStr "Unknown error") error);
   "   Code: " ++ str (field "code" (JStr "N/A") error);
   "   Status: " ++ str (field "valStatus" (JStr "N/A") error)].

Definition client_error_shown (error : dict) : string :=
  "❌ Client Error: " ++ str (field "message" (JStr "Unknown error") error).

(** The value under a key of the validation list stands for the error
    objects [errors]: it is the list of them, or it is absent or otherwise
    falsy and there are none. *)
Definition error_list (o : option json) (errors : list dict) : Prop :=
  o = Some (JList (map JObj errors))
  \/ (truthy (of_option o) = false /\ errors = []).

(** The reply carries a validation list whose server and client errors are
    the given objects. *)
Definition rejects_with (d : dict) (server_errors client_errors : list dict)
  : Prop :=
  exists validation : dict,
    lookup "validationlist" d = Some (JObj validation)
    /\ error_list (lookup "serverValidationList" validation) server_errors
    /\ error_list (lookup "clientValidationList" validation) client_errors.

(** The reply's status is the one the disk-file-system writes take for
    success. *)
Definition accepted (d : dict) : bool :=
  opt_eq_str (lookup "status" d) "CONFIG_DISK_FILE_SYSTEM_SUCCESSFUL".

(** The requests of the media-server writes. *)
Definition add_request (server_name : string) (port : Z) (ip_list : json)
  : Request :=
  mkRequest "POST" MEDIA_SERVERS (Some (add_payload server_name port ip_list))
    None (Some add_headers).

Definition delete_request (server_name : string) (virtual : bool) : Request :=
  mkRequest "DELETE" (MEDIA_SERVERS ++ "/" ++ server_name) None
    (Some (if virtual then JObj [("virtual", JStr "true")] else JObj []))
    None.

(** The text an operation returns: its value, or what its outer handler
    makes of the exception. *)
Definition text_or (handler : string -> string) (r : Exc string) : string :=
  match r with
  | Ret t => t
  | Raise e => handler e
  end.

(** ** Vocabulary of the entry points *)

(** An argument of the S3 [config] operation is missing: [field] names one
    that is [None] or empty. *)
Definition s3_missing (accessId accessKey : option string)
    (bucketsByRegion : option json) (bucketName acctName : option string)
    (field : string) : Prop :=
  (field = "accessId" /\ given accessId = None)
  \/ (field = "accessKey" /\ given accessKey = None)
  \/ (field = "bucketsByRegion" /\ given_object bucketsByRegion = None)
  \/ (field = "acctName" /\ given acctName = None)
  \/ (field = "bucketName" /\ given bucketName = None).

(** The metadata the media-server handler attaches to a refused operation
    name. *)
Definition invalid_operation_metadata (operation : string) : json :=
  JObj [("tool_name", JStr "bar_manageMediaServer");
        ("operation", JStr operation);
        ("error", JStr "Invalid operation");
        ("success", JBool false)].

(** The request of [delete_disk_file_systems]. *)
Definition delete_all_request : Request :=
  mkRequest "DELETE" DISK_FILE_SYSTEM None None None.

(** ** Vocabulary of the reports *)

(** The line a failed media-server request shows for one error. *)
Definition code_line (error : dict) : string :=
  "Code " ++ str (field "code" (JStr "N/A") error) ++ ": "
  ++ str (field "message" (JStr "Unknown error") error).

(** The value under a key stands for the objects [items]: it is the list of
    them, or the key is absent and there are none. *)
Definition listed (o : option json) (items : list dict) : Prop :=
  o = Some (JList (map JObj items)) \/ (o = None /\ items = []).

(** The reply is not [valid] and carries the given client and server
    errors; without a validation list it carries none. *)
Definition media_rejects (d : dict) (client_errors server_errors : list dict)
  : Prop :=
  truthy (field "valid" (JBool false) d) = false
  /\ ((lookup "validationlist" d = None
       /\ client_errors = [] /\ server_errors = [])
      \/ exists validation : dict,
           lookup "validationlist" d = Some (JObj validation)
           /\ listed (lookup "clientValidationList" validation) client_errors
           /\ listed (lookup "serverValidationList" validation) server_errors).

(** The lines a listing shows for the file system numbered [i], and the
    line a failed listing shows for one server error. *)
Definition file_system_shown (i : Z) (fs : dict) : list string :=
  ["🗂️ File System #" ++ str_of_Z i;
   "   📁 Path: " ++ str (field "fileSystemPath" (JStr "N/A") fs);
   "   📄 Max Files: " ++ str (field "maxFiles" (JStr "N/A") fs);
   ""].

Definition list_error_shown (error : dict) : string :=
  "❌ Error: " ++ str (field "message" (JStr "Unknown error") error).

(** The lines of [items], numbered upwards from [i]. *)
Fixpoint numbered {A : Type} (shown : Z -> A -> list string) (i : Z)
    (items : list A) : list string :=
  match items with
  | [] => []
  | item :: rest => shown i item +++ numbered shown (i + 1) rest
  end.

(** The reply refuses the deletion of every file system: it carries a
    non-empty validation list with the given server errors, whose messages
    are texts, and client errors. *)
Definition delete_rejects (d : dict) (server_errors client_errors : list dict)
  : Prop :=
  exists validation : dict,
    validation <> []
    /\ lookup "validationlist" d = Some (JObj validation)
    /\ listed (lookup "serverValidationList" validation) server_errors
    /\ error_list (lookup "clientValidationList" validation) client_errors
    /\ forall error, In error server_errors ->
         exists m, field "message" (JStr "") error = JStr m.

(** Some server error names a user of the file systems. *)
Definition in_use_by (server_errors : list dict) : bool :=
  existsb
    (fun error => contains "in use by" (str (field "message" (JStr "") error)))
    server_errors.

Definition helpful_notes : list string :=
  ["";
   "💡 Helpful Notes:";
   "   • Remove all backup jobs using these file systems first";
   "   • Delete any file target groups that reference these file systems";
   "   • Use list_disk_file_systems() to see current configurations"].

(** ** Vocabulary of the S3 listing *)

(** The value under a key stands for the objects [items]: it is the list of
    them, a single object (which the listing wraps into a list), or absent. *)
Definition one_or_many (o : option json) (items : list dict) : Prop :=
  listed o items \/ exists item, o = Some (JObj item) /\ items = [item].

(** A bucket with its prefixes, and a region with its buckets. *)
Definition Bucket : Type := dict * list dict.
Definition Region : Type := dict * list Bucket.

Definition bucket_ok (bucket : Bucket) : Prop :=
  one_or_many (lookup "prefixList" (fst bucket)) (snd bucket).

Definition region_ok (region : Region) : Prop :=
  one_or_many (lookup "buckets" (fst region)) (map fst (snd region))
  /\ Forall bucket_ok (snd region).

(** The reply lists the S3 configuration [regions]: they stand under
    [configAwsRest] of the first entry of [aws]. *)
Definition s3_lists (d : dict) (regions : list Region) : Prop :=
  lookup "status" d = Some (JStr "LIST_AWS_APP_SUCCESSFUL")
  /\ exists (first config : dict) (others : list json),
       lookup "aws" d = Some (JList (JObj first :: others))
       /\ lookup "configAwsRest" first = Some (JObj config)
       /\ one_or_many (lookup "bucketsByRegion" config) (map fst regions)
       /\ Forall region_ok regions.

Definition total_buckets (regions : list Region) : nat :=
  list_sum (map (fun region : Region => length (snd region)) regions).

(** The lines the listing shows for a prefix, a bucket and a region. *)
Definition prefix_shown (k : Z) (prefix : dict) : list string :=
  ["      🔖 Prefix #" ++ str_of_Z k ++ ": "
   ++ str (field "prefixName" (JStr "N/A") prefix);
   "         Storage Devices: "
   ++ str (field "storageDevices" (JStr "N/A") prefix)].

Definition bucket_shown (j : Z) (bucket : Bucket) : list string :=
  ["   📁 Bucket #" ++ str_of_Z j ++ ": "
   ++ str (field "bucketName" (JStr "N/A") (fst bucket))]
  +++ match snd bucket with
      | [] => ["      🔖 No prefixes configured"]
      | prefixes => numbered prefix_shown 1 prefixes
      end.

Definition region_shown (i : Z) (region : Region) : list string :=
  ["🗂️ Region #" ++ str_of_Z i ++ ": "
   ++ str (field "region" (JStr "N/A") (fst region))]
  +++ match snd region with
      | [] => ["   📁 No buckets configured in this region"]
      | buckets => numbered bucket_shown 1 buckets
      end
  +++ [""].

End Spec.

(* ================================================================== *)
(** * Sample services *)
(* ================================================================== *)

Module Examples.
Import Py Dsa BarTools Spec.

Definition fs_a : dict := new_item "/backup/a" 100.
Definition fs_b : dict := new_item "/backup/b" 200.

(** A successful listing of [items]. *)
Definition listing (items : list dict) : json :=
  JObj [("status", JStr "LIST_DISK_FILE_SYSTEMS_SUCCESSFUL");
        ("fileSystems", JList (map JObj items));
        ("foundComponent", JBool true);
        ("valid", JBool true)].

(** The reply to an accepted write. *)
Definition configured : json :=
  JObj [("status", JStr "CONFIG_DISK_FILE_SYSTEM_SUCCESSFUL");
        ("valid", JBool true)].

(** A service that lists [items] on every GET and answers every other
    request with [reply]. *)
Definition serving (items : list dict) (reply : json) : Client :=
  fun _ r => if is_get r then Ret (listing items) else Ret reply.

(** A service whose GET fails in transport and whose other requests are
    answered with [reply]. *)
Definition unreachable_for_reads (reply : json) : Client :=
  fun _ r => if is_get r then Raise "Connection refused" else Ret reply.

(** A service whose listing reports a failure status. *)
Definition listing_refused (reply : json) : Client :=
  fun _ r =>
    if is_get r then Ret (JObj [("status", JStr "LIST_DISK_FILE_SYSTEMS_FAILED");
                                ("valid", JBool false)])
    else Ret reply.

(** A reply that rejects a write: two server errors and one client error. *)
Definition in_use : dict :=
  [("code", JInt 2010);
   ("message", JStr "File system is in use by a target group");
   ("valStatus", JStr "ERROR")].
Definition not_a_directory : dict :=
  [("code", JInt 2011);
   ("message", JStr "Path is not a directory");
   ("valStatus", JStr "ERROR")].
Definition bad_max_files : dict :=
  [("code", JInt 1001); ("message", JStr "maxFiles must be positive")].

Definition rejected : dict :=
  [("status", JStr "CONFIG_DISK_FILE_SYSTEM_FAILED");
   ("valid", JBool false);
   ("validationlist",
    JObj [("serverValidationList", JList [JObj in_use; JObj not_a_directory]);
          ("clientValidationList", JList [JObj bad_max_files])])].

(** A reply with the success status that nevertheless carries
    [valid: false] and a server validation error. *)
Definition accepted_but_invalid : dict :=
  [("status", JStr "CONFIG_DISK_FILE_SYSTEM_SUCCESSFUL");
   ("valid", JBool false);
   ("validationlist",
    JObj [("serverValidationList", JList [JObj not_a_directory]);
          ("clientValidationList", JList [])])].

(** The reply to a deletion of every file system that carries the success
    status and [valid: false]. *)
Definition deleted_but_invalid : dict :=
  [("status", JStr "DELETE_COMPONENT_SUCCESSFUL"); ("valid", JBool false)].

(** Arguments of an S3 configuration and a service that answers it with a
    failure envelope. *)
Definition regions : json :=
  JList [JObj [("region", JStr "us-west-2");
               ("buckets",
                JList [JObj [("bucketName", JStr "tdedsabucket01");
                             ("prefixList", JList [])]])]].

Definition s3_rejected : json :=
  JObj [("status", JStr "CONFIG_AWS_APP_FAILED"); ("valid", JBool false)].

Definition answering (reply : json) : Client := fun _ _ => Ret reply.

(** The reply to a refused media-server request. *)
Definition media_refused : dict :=
  [("status", JStr "COMPONENT_NOT_ADDED"); ("valid", JBool false)].

(** The reply to an accepted media-server request. *)
Definition media_done : json :=
  JObj [("status", JStr "DELETE_COMPONENT_SUCCESSFUL"); ("valid", JBool true)].

(** The JSON text of one address list and the value it decodes to. *)
Definition ip_text : string :=
  "[{" ++ dquote ++ "ipAddress" ++ dquote ++ ": " ++ dquote ++ "10.0.0.5"
  ++ dquote ++ ", " ++ dquote ++ "netmask" ++ dquote ++ ": " ++ dquote
  ++ "255.255.255.0" ++ dquote ++ "}]".

Definition ip_value : json :=
  JList [JObj [("ipAddress", JStr "10.0.0.5");
               ("netmask", JStr "255.255.255.0")]].

(** A fragment of [json.loads], exact on [ip_text] and on the empty text;
    the examples pass it no other text. *)
Definition sample_loads (text : string) : Loaded :=
  if (text =? ip_text) then Decoded ip_value
  else JSONDecodeError "Expecting value: line 1 column 1 (char 0)".

(** A successful S3 listing: one region with two buckets, the first with a
    prefix, and one region without buckets. *)
Definition prefix_backup : dict :=
  [("prefixName", JStr "dsa-backup"); ("storageDevices", JInt 4)].
Definition bucket_main : dict :=
  [("bucketName", JStr "tdedsabucket01");
   ("prefixList", JList [JObj prefix_backup])].
Definition bucket_archive : dict := [("bucketName", JStr "archive")].
Definition region_west : dict :=
  [("region", JStr "us-west-2");
   ("buckets", JList [JObj bucket_main; JObj bucket_archive])].
Definition region_central : dict := [("region", JStr "eu-central-1")].

Definition s3_listing : dict :=
  [("status", JStr "LIST_AWS_APP_SUCCESSFUL");
   ("aws",
    JList [JObj [("configAwsRest",
                  JObj [("bucketsByRegion",
                         JList [JObj region_west; JObj region_central])])]]);
   ("foundComponent", JBool true);
   ("valid", JBool true)].

Definition s3_regions : list Region :=
  [(region_west, [(bucket_main, [prefix_backup]); (bucket_archive, [])]);
   (region_central, [])].

End Examples.

(* ================================================================== *)
(** * Properties *)
(* ================================================================== *)

Module Facts.
Import Py Dsa BarTools Spec.

(** ** Running an operation *)

Lemma run_config_fetch_existing (c : Client) (t : list Request) :
  config_fetch_existing c t
  = (Ret (existing_after_fetch (c t fetch)), t +++ [fetch]).
Proof.
  unfold config_fetch_existing, existing_after_fetch, try_except, bind,
    make_request, lift, ret, fetch.
  destruct (c t (GET DISK_FILE_SYSTEM)) as [resp|e]; cbn; [|reflexivity].
  destruct (get resp "status") as [status|e]; cbn; [|reflexivity].
  destruct (opt_eq_str status _); cbn; [|reflexivity].
  destruct (get_default resp "fileSystems" (JList [])) as [fss|e]; cbn;
    [|reflexivity].
  destruct (len fss); reflexivity.
Qed.

Lemma int_str_printable (n : Z) :
  printable_int n = true -> int_str n = Ret (str_of_Z n).
Proof. intros H. unfold int_str. now rewrite H. Qed.

(** [config_disk_file_system] with a [max_files] that cannot be formatted:
    the log statement raises before the fetch. *)
Lemma run_config_too_long (c : Client) (path : string) (n : Z) :
  printable_int n = false ->
  run (config_disk_file_system path n) c
  = (Ret (config_error path int_too_long), []).
Proof.
  intros H. unfold run, config_disk_file_system, try_except, bind, lift,
    int_str.
  now rewrite H.
Qed.

(** [config_disk_file_system] as a function of the client's two replies. *)
Lemma run_config (c : Client) (path : string) (n : Z) :
  printable_int n = true ->
  run (config_disk_file_system path n) c
  = match config_merge path n (existing_after_fetch (c [] fetch)) with
    | Raise e => (Ret (config_error path e), [fetch])
    | Ret (items, path_exists) =>
        (Ret (text_or (config_error path)
                (response <- c [fetch] (write items) ;;
                 config_report path n items path_exists response)%exc),
         [fetch; write items])
    end.
Proof.
  intros Hn.
  unfold run, config_disk_file_system, try_except, bind.
  unfold lift at 1. rewrite (int_str_printable n Hn).
  rewrite run_config_fetch_existing.
  unfold lift at 1.
  destruct (config_merge path n _) as [[items path_exists]|e]; [|reflexivity].
  unfold make_request, lift, ret, write, collection. cbn.
  destruct (c _ _) as [response|e]; cbn; [|reflexivity].
  destruct (config_report path n items path_exists response); reflexivity.
Qed.

Lemma run_remove_fetch_existing (c : Client) (t : list Request)
    (path : string) :
  remove_fetch_existing path c t
  = (Ret (remove_after_fetch path (c t fetch)), t +++ [fetch]).
Proof.
  unfold remove_fetch_existing, remove_after_fetch, try_except, bind,
    make_request, lift, ret, fetch.
  destruct (c t (GET DISK_FILE_SYSTEM)) as [resp|e]; cbn; [|reflexivity].
  destruct (get resp "status") as [status|e]; cbn; [|reflexivity].
  destruct (opt_eq_str status _); cbn; [|reflexivity].
  destruct (get_default resp "fileSystems" (JList [])) as [fss|e]; cbn;
    [|reflexivity].
  destruct (len fss); reflexivity.
Qed.

(** [remove_disk_file_system] as a function of the client's replies. *)
Lemma run_remove (c : Client) (path : string) :
  run (remove_disk_file_system path) c
  = match remove_after_fetch path (c [] fetch) with
    | inl text => (Ret text, [fetch])
    | inr existing =>
        match remove_scan path existing with
        | Raise e => (Ret (remove_error path e), [fetch])
        | Ret (items, (false, _)) =>
            (Ret (text_or (remove_error path)
                    (remove_not_found_report path items)), [fetch])
        | Ret (_, (true, keep)) =>
            (Ret (text_or (remove_error path)
                    (response <- c [fetch] (write keep) ;;
                     remove_report path keep response)%exc),
             [fetch; write keep])
        end
    end.
Proof.
  unfold run, remove_disk_file_system, try_except, bind.
  rewrite run_remove_fetch_existing.
  destruct (remove_after_fetch path _) as [text|existing]; [reflexivity|].
  unfold remove_scan, lift at 1.
  destruct (iter existing) as [items|e]; cbn; [|reflexivity].
  unfold lift at 1.
  destruct (for_each items _ _) as [[[|] keep]|e]; cbn; [| |reflexivity].
  - unfold make_request, lift, ret, write, collection. cbn.
    destruct (c _ _) as [response|e]; cbn; [|reflexivity].
    destruct (remove_report path keep response); reflexivity.
  - unfold lift, ret.
    destruct (remove_not_found_report path items); reflexivity.
Qed.

(** ** The loops over a collection of items *)

Lemma config_step_item (path : string) (n : Z) (st : list json * bool)
    (fs : dict) :
  config_step path n st (JObj fs)
  = Ret (if has_path path fs
         then (fst st +++ [JObj (new_item path n)], true)
         else (fst st +++ [JObj fs], snd st)).
Proof.
  unfold config_step, has_path, key. cbn.
  now destruct (opt_eq_str (lookup "fileSystemPath" fs) path).
Qed.

Lemma config_loop (path : string) (n : Z) (items : list dict) :
  forall (acc : list json) (seen : bool),
    for_each (map JObj items) (config_step path n) (acc, seen)
    = Ret (acc +++ map JObj
                     (map (fun fs => if has_path path fs
                                     then new_item path n else fs) items),
           seen || existsb (has_path path) items).
Proof.
  induction items as [|fs items IH]; intros acc seen;
    cbn [map for_each existsb].
  - now rewrite app_nil_r, orb_false_r.
  - rewrite config_step_item. cbn [bindE fst snd].
    destruct (has_path path fs); rewrite IH, <- app_assoc; cbn [app orb].
    + now rewrite orb_true_r.
    + reflexivity.
Qed.

(** The merge of [config_disk_file_system] computes [upsert]. *)
Lemma config_merge_upsert (path : string) (n : Z) (items : list dict) :
  config_merge path n (JList (map JObj items))
  = Ret (map JObj (upsert path n items), existsb (has_path path) items).
Proof.
  unfold config_merge, upsert. cbn [iter bindE].
  rewrite config_loop. cbn [bindE fst snd app orb].
  destruct (existsb (has_path path) items).
  - now rewrite app_nil_r.
  - now rewrite map_app.
Qed.

Lemma remove_step_item (path : string) (st : bool * list json) (fs : dict) :
  remove_step path st (JObj fs)
  = Ret (if has_path path fs then (true, snd st)
         else (fst st, snd st +++ [JObj fs])).
Proof.
  unfold remove_step, has_path, key. cbn.
  now destruct (opt_eq_str (lookup "fileSystemPath" fs) path).
Qed.

Lemma remove_loop (path : string) (items : list dict) :
  forall (seen : bool) (acc : list json),
    for_each (map JObj items) (remove_step path) (seen, acc)
    = Ret (seen || existsb (has_path path) items,
           acc +++ map JObj (remove path items)).
Proof.
  induction items as [|fs items IH]; intros seen acc;
    cbn [map for_each existsb remove filter].
  - now rewrite app_nil_r, orb_false_r.
  - rewrite remove_step_item. cbn [bindE fst snd].
    destruct (has_path path fs); rewrite IH; cbn [negb map orb].
    + now rewrite orb_true_r.
    + now rewrite <- app_assoc.
Qed.

Lemma remove_scan_filter (path : string) (items : list dict) :
  remove_scan path (JList (map JObj items))
  = Ret (map JObj items,
         (existsb (has_path path) items, map JObj (remove path items))).
Proof.
  unfold remove_scan. cbn [iter bindE]. now rewrite remove_loop.
Qed.

(** ** What a successful listing yields *)

Lemma existing_after_listing (reply : Exc json) (items : list dict) :
  lists reply items ->
  existing_after_fetch reply = JList (map JObj items).
Proof.
  intros (d & -> & Hs & Hf).
  unfold existing_after_fetch. cbn. rewrite Hs. cbn. 
  unfold get_default. cbn. now rewrite Hf.
Qed.

Lemma remove_after_listing (path : string) (reply : Exc json)
    (items : list dict) :
  lists reply items ->
  remove_after_fetch path reply = inr (JList (map JObj items)).
Proof.
  intros (d & -> & Hs & Hf).
  unfold remove_after_fetch. cbn. rewrite Hs. cbn.
  unfold get_default. cbn. now rewrite Hf.
Qed.

(** ** The reconciler's contracts *)

Lemma has_path_key (path : string) (fs : dict) :
  has_path path fs = true <-> key fs = Some (JStr path).
Proof.
  unfold has_path, opt_eq_str, eq_str. split.
  - destruct (key fs) as [[| | |s| |]|]; try discriminate.
    intros H. apply String.eqb_eq in H. now subst.
  - intros ->. apply String.eqb_refl.
Qed.

Lemma has_path_new_item (path : string) (n : Z) :
  has_path path (new_item path n) = true.
Proof. apply has_path_key. reflexivity. Qed.

Lemma existsb_has_path (path : string) (items : list dict) :
  existsb (has_path path) items = true <-> In (Some (JStr path)) (map key items).
Proof.
  rewrite existsb_exists, in_map_iff. split.
  - intros (fs & Hin & H). exists fs. split; [now apply has_path_key|assumption].
  - intros (fs & H & Hin). exists fs. split; [assumption|now apply has_path_key].
Qed.

(** Replacing an item by the candidate changes no key. *)
Lemma replace_keeps_keys (path : string) (n : Z) (items : list dict) :
  map key (map (fun fs => if has_path path fs then new_item path n else fs) items)
  = map key items.
Proof.
  rewrite map_map. apply map_ext_in. intros fs _.
  destruct (has_path path fs) eqn:E; [|reflexivity].
  apply has_path_key in E. now rewrite E.
Qed.

Lemma upsert_keys (path : string) (n : Z) (items : list dict) :
  map key (upsert path n items)
  = map key items
    +++ (if existsb (has_path path) items then [] else [Some (JStr path)]).
Proof.
  unfold upsert. rewrite map_app, replace_keeps_keys.
  now destruct (existsb (has_path path) items).
Qed.

Lemma upsert_NoDup (path : string) (n : Z) (items : list dict) :
  NoDup (map key items) -> NoDup (map key (upsert path n items)).
Proof.
  intros H. rewrite upsert_keys.
  destruct (existsb (has_path path) items) eqn:E.
  - now rewrite app_nil_r.
  - apply NoDup_app; [assumption|repeat constructor; intros []|].
    intros k Hk [<-|[]]. apply existsb_has_path in Hk. congruence.
Qed.

Lemma upsert_has_path (path : string) (n : Z) (items : list dict) :
  existsb (has_path path) (upsert path n items) = true.
Proof.
  apply existsb_has_path. rewrite upsert_keys.
  destruct (existsb (has_path path) items) eqn:E.
  - rewrite app_nil_r. now apply existsb_has_path.
  - apply in_or_app. right. now left.
Qed.

(** Among distinct keys, at most one item has a given path. *)
Lemma at_most_one_has_path (path : string) (items : list dict) :
  NoDup (map key items) -> length (filter (has_path path) items) <= 1.
Proof.
  induction items as [|fs items IH]; cbn [map filter]; intros H.
  - cbn. lia.
  - inversion H as [|k ks Hnotin Hrest]; subst.
    destruct (has_path path fs) eqn:E; [|now apply IH].
    cbn [length].
    assert (Hnone : filter (has_path path) items = []).
    { destruct (filter (has_path path) items) as [|x xs] eqn:F;
        [reflexivity|exfalso].
      assert (Hx : In x (filter (has_path path) items))
        by (rewrite F; now left).
      apply filter_In in Hx. destruct Hx as [Hin Hp].
      apply has_path_key in E. apply has_path_key in Hp.
      apply Hnotin. rewrite E, <- Hp. now apply in_map. }
    rewrite Hnone. cbn. lia.
Qed.

Lemma some_has_path (path : string) (items : list dict) :
  existsb (has_path path) items = true ->
  1 <= length (filter (has_path path) items).
Proof.
  rewrite existsb_exists. intros (fs & Hin & Hp).
  assert (H : In fs (filter (has_path path) items))
    by (apply filter_In; now split).
  destruct (filter (has_path path) items); [destruct H|cbn; lia].
Qed.

Lemma upsert_idempotent (path : string) (n : Z) (items : list dict) :
  upsert path n (upsert path n items) = upsert path n items.
Proof.
  unfold upsert at 1. rewrite upsert_has_path, app_nil_r.
  rewrite <- (map_id (upsert path n items)) at 2.
  apply map_ext_in. intros fs Hin.
  destruct (has_path path fs) eqn:E; [|reflexivity].
  unfold upsert in Hin. apply in_app_or in Hin. destruct Hin as [Hin|Hin].
  - apply in_map_iff in Hin. destruct Hin as (fs0 & Hfs & _).
    destruct (has_path path fs0) eqn:E0; [now subst|].
    subst. congruence.
  - destruct (existsb (has_path path) items); [destruct Hin|].
    destruct Hin as [<-|[]]. reflexivity.
Qed.

(** ** The reports of a removal *)

Lemma available_paths_loop (items : list dict) :
  forall acc : list json,
    for_each (map JObj items) available_paths_step acc
    = Ret (acc +++ map (field "fileSystemPath" (JStr "N/A")) items).
Proof.
  induction items as [|fs items IH]; intros acc; cbn [map for_each].
  - now rewrite app_nil_r.
  - unfold available_paths_step at 1, get_default. cbn [get bindE].
    fold (field "fileSystemPath" (JStr "N/A") fs).
    now rewrite IH, <- app_assoc.
Qed.

Lemma not_found_report (path : string) (items : list dict) :
  remove_not_found_report path (map JObj items)
  = Ret (join_lines
           (["🗂️ DSA Disk File System Removal";
             rule;
             "❌ File system '" ++ path ++ "' not found";
             "";
             "📋 Available file systems:"]
            +++ match items with
                | [] => ["   (No file systems configured)"]
                | _ => map bullet items
                end
            +++ [""; rule])).
Proof.
  unfold remove_not_found_report. rewrite available_paths_loop.
  cbn [bindE app]. destruct items as [|fs items]; [reflexivity|].
  cbn [map]. rewrite map_map. reflexivity.
Qed.

Lemma remaining_loop (keep : list dict) :
  forall results : list string,
    for_each (map JObj keep) remaining_step results
    = Ret (results +++ map remaining_line keep).
Proof.
  induction keep as [|fs keep IH]; intros results; cbn [map for_each].
  - now rewrite app_nil_r.
  - unfold remaining_step at 1, get_default. cbn [get bindE].
    fold (field "fileSystemPath" (JStr "N/A") fs).
    fold (field "maxFiles" (JStr "N/A") fs).
    fold (remaining_line fs).
    now rewrite IH, <- app_assoc.
Qed.

(** The report of a removal the service accepted. *)
Lemma remove_report_accepted (path : string) (keep : list dict) (d : dict) :
  lookup "status" d = Some (JStr "CONFIG_DISK_FILE_SYSTEM_SUCCESSFUL") ->
  remove_report path (map JObj keep) (JObj d)
  = Ret (join_lines
           (remove_header path (length keep)
            +++ ["✅ Disk file system removed successfully";
                 "📊 Status: CONFIG_DISK_FILE_SYSTEM_SUCCESSFUL";
                 "✔️ Valid: " ++ str (field "valid" (JBool false) d)]
            +++ match keep with
                | [] => [""; "📋 No file systems remaining (all removed)"]
                | _ => [""; "📋 Remaining file systems:"]
                       +++ map remaining_line keep
                end
            +++ remove_footer)).
Proof.
  intros Hs. unfold remove_report, get_default. cbn [get bindE].
  rewrite Hs. cbn [opt_eq_str eq_str of_option str].
  rewrite String.eqb_refl. fold (field "valid" (JBool false) d).
  rewrite length_map.
  destruct keep as [|fs keep].
  - cbn [map bindE]. now rewrite <- !app_assoc.
  - change (JObj fs :: map JObj keep) with (map JObj (fs :: keep)).
    rewrite remaining_loop. cbn [bindE]. now rewrite <- !app_assoc.
Qed.

(** ** Texts that occur in a report *)

Lemma starts_with_app (s t : string) : starts_with s (s ++ t) = true.
Proof.
  induction s as [|a s IH]; cbn; [reflexivity|].
  now rewrite Ascii.eqb_refl.
Qed.

Lemma starts_with_app_l (s t q : string) :
  starts_with s t = true -> starts_with s (t ++ q) = true.
Proof.
  revert t. induction s as [|a s IH]; intros t; cbn; [reflexivity|].
  destruct t as [|b t]; cbn; [discriminate|].
  intros H. apply andb_true_iff in H. destruct H as [-> H].
  now apply IH.
Qed.

Lemma contains_starts_with (s t : string) :
  starts_with s t = true -> contains s t = true.
Proof. intros H. destruct t; cbn [contains]; rewrite H; reflexivity. Qed.

Lemma contains_app_r (s p t : string) :
  contains s t = true -> contains s (p ++ t) = true.
Proof.
  intros H. induction p as [|a p IH]; cbn [append contains]; [assumption|].
  rewrite IH. apply orb_true_r.
Qed.

Lemma contains_app_l (s t q : string) :
  contains s t = true -> contains s (t ++ q) = true.
Proof.
  induction t as [|a t IH]; cbn [contains].
  - rewrite orb_false_r. intros H. apply contains_starts_with.
    now apply (starts_with_app_l s "" q).
  - intros H. apply orb_true_iff in H. destruct H as [H|H].
    + apply contains_starts_with.
      now apply (starts_with_app_l s (String a t) q).
    + cbn [append contains]. rewrite (IH H). apply orb_true_r.
Qed.

Lemma contains_suffix (p s : string) : contains s (p ++ s) = true.
Proof.
  apply contains_app_r, contains_starts_with.
  replace s with (s ++ "") at 2 by (induction s; cbn; congruence).
  apply starts_with_app.
Qed.

(** A text that occurs in a line occurs in the joined report. *)
Lemma contains_join_lines (s line : string) (lines : list string) :
  In line lines -> contains s line = true ->
  contains s (join_lines lines) = true.
Proof.
  unfold join_lines. intros Hin Hs.
  induction lines as [|l lines IH]; [destruct Hin|].
  cbn [String.concat]. destruct lines as [|l' lines].
  - destruct Hin as [->|[]]. assumption.
  - destruct Hin as [->|Hin].
    + now apply contains_app_l.
    + apply contains_app_r, contains_app_r. now apply IH.
Qed.

(** ** The report of a rejected write *)

Lemma server_errors_loop (errors : list dict) :
  forall results : list string,
    for_each (map JObj errors) server_error_lines results
    = Ret (results +++ flat_map server_error_shown errors).
Proof.
  induction errors as [|e errors IH]; intros results;
    cbn [map for_each flat_map].
  - now rewrite app_nil_r.
  - unfold server_error_lines at 1, get_default. cbn [get bindE].
    rewrite IH, <- app_assoc. reflexivity.
Qed.

Lemma client_errors_loop (errors : list dict) :
  forall results : list string,
    for_each (map JObj errors) client_error_lines results
    = Ret (results +++ map client_error_shown errors).
Proof.
  induction errors as [|e errors IH]; intros results; cbn [map for_each].
  - now rewrite app_nil_r.
  - unfold client_error_lines at 1, get_default. cbn [get bindE].
    rewrite IH, <- app_assoc. reflexivity.
Qed.

(** One of the two lists of the validation details. *)
Lemma error_list_shown (validation : dict) (k : string) (errors : list dict)
    (step : list string -> json -> Exc (list string))
    (shown : list dict -> list string) (results : list string) :
  error_list (lookup k validation) errors ->
  shown [] = [] ->
  (forall results, for_each (map JObj errors) step results
                   = Ret (results +++ shown errors)) ->
  (if truthy (of_option (lookup k validation)) then
     errors' <- subscript (JObj validation) k ;;
     items <- iter errors' ;;
     for_each items step results
   else Ret results)%exc
  = Ret (results +++ shown errors).
Proof.
  intros [H|[H ->]] Hnil Hloop.
  - rewrite H. cbn [of_option subscript]. rewrite H.
    destruct errors as [|e errors].
    + cbn [map truthy]. now rewrite Hnil, app_nil_r.
    + cbn [map truthy bindE iter]. apply (Hloop results).
  - rewrite H. now rewrite Hnil, app_nil_r.
Qed.

(** The lines the validation details add hold every message. *)
Lemma message_shown (server_errors client_errors : list dict)
    (e : dict) (m : string) :
  In e (server_errors +++ client_errors) ->
  lookup "message" e = Some (JStr m) ->
  exists line,
    In line (flat_map server_error_shown server_errors
             +++ map client_error_shown client_errors)
    /\ contains m line = true.
Proof.
  intros Hin Hm. apply in_app_or in Hin. destruct Hin as [Hin|Hin].
  - exists ("❌ Server Error: " ++ m). split; [|apply contains_suffix].
    apply in_or_app. left. apply in_flat_map. exists e. split; [assumption|].
    left. unfold field. now rewrite Hm.
  - exists ("❌ Client Error: " ++ m). split; [|apply contains_suffix].
    apply in_or_app. right. apply in_map_iff. exists e. split; [|assumption].
    unfold client_error_shown, field. now rewrite Hm.
Qed.

Lemma validation_details_shown (d : dict) (server_errors client_errors : list dict)
    (results : list string) :
  rejects_with d server_errors client_errors ->
  exists extra : list string,
    validation_details (JObj d) results = Ret (results +++ extra)
    /\ forall e m,
         In e (server_errors +++ client_errors) ->
         lookup "message" e = Some (JStr m) ->
         exists line, In line extra /\ contains m line = true.
Proof.
  intros (validation & Hv & Hs & Hc).
  unfold validation_details. cbn [get bindE subscript]. rewrite Hv.
  cbn [of_option]. destruct validation as [|kv validation].
  - (* an empty validation list holds no error *)
    exists []. split; [now rewrite app_nil_r|].
    destruct Hs as [Hs|[_ ->]]; [discriminate Hs|].
    destruct Hc as [Hc|[_ ->]]; [discriminate Hc|].
    intros e m [].
  - cbn [truthy get bindE].
    rewrite (error_list_shown _ _ _ server_error_lines
               (flat_map server_error_shown) _ Hs eq_refl
               (server_errors_loop server_errors)).
    cbn [bindE].
    rewrite (error_list_shown _ _ _ client_error_lines
               (map client_error_shown) _ Hc eq_refl
               (client_errors_loop client_errors)).
    eexists. split; [rewrite <- !app_assoc; reflexivity|].
    intros e m Hin Hm.
    destruct (message_shown _ _ _ _ Hin Hm) as (line & Hline & Hcontains).
    exists line. split; [|assumption].
    apply in_or_app. now right.
Qed.

Lemma config_report_accepted (path : string) (n : Z) (items : list json)
    (path_exists : bool) (d : dict) :
  printable_int n = true ->
  accepted d = true ->
  config_report path n items path_exists (JObj d)
  = Ret (join_lines
           (config_header path (str_of_Z n) (length items) path_exists
            +++ ["✅ Disk file system configured successfully";
                 "📊 Status: CONFIG_DISK_FILE_SYSTEM_SUCCESSFUL";
                 "✔️ Valid: " ++ str (field "valid" (JBool false) d)]
            +++ config_footer)).
Proof.
  unfold accepted. intros Hn Hs.
  unfold config_report, get_default. rewrite (int_str_printable n Hn).
  cbn [get bindE]. rewrite Hs.
  destruct (lookup "status" d) as [[| | |s| |]|]; try discriminate Hs.
  cbn in Hs. apply String.eqb_eq in Hs. subst s.
  cbn [bindE of_option str]. fold (field "valid" (JBool false) d).
  now rewrite <- !app_assoc.
Qed.

Lemma config_report_rejected (path : string) (n : Z) (items : list json)
    (path_exists : bool) (d : dict) (server_errors client_errors : list dict) :
  printable_int n = true ->
  accepted d = false ->
  rejects_with d server_errors client_errors ->
  exists extra : list string,
    config_report path n items path_exists (JObj d)
    = Ret (join_lines
             (config_header path (str_of_Z n) (length items) path_exists
              +++ ["❌ Failed to configure disk file system";
                   "📊 Status: " ++ str (field "status" (JStr "Unknown") d);
                   "✔️ Valid: " ++ str (field "valid" (JBool false) d)]
              +++ extra +++ config_footer))
    /\ forall e m,
         In e (server_errors +++ client_errors) ->
         lookup "message" e = Some (JStr m) ->
         exists line, In line extra /\ contains m line = true.
Proof.
  unfold accepted. intros Hn Hs Hrej.
  unfold config_report, get_default. rewrite (int_str_printable n Hn).
  cbn [get bindE]. rewrite Hs.
  cbn [bindE].
  match goal with
  | |- context [validation_details _ ?results] =>
      destruct (validation_details_shown _ _ _ results Hrej)
        as (extra & -> & Hshown)
  end.
  exists extra. split; [|assumption].
  cbn [bindE]. unfold field. now rewrite <- !app_assoc.
Qed.

Lemma remove_report_rejected (path : string) (keep : list json) (d : dict)
    (server_errors client_errors : list dict) :
  accepted d = false ->
  rejects_with d server_errors client_errors ->
  exists extra : list string,
    remove_report path keep (JObj d)
    = Ret (join_lines
             (remove_header path (length keep)
              +++ ["❌ Failed to remove disk file system";
                   "📊 Status: " ++ str (field "status" (JStr "Unknown") d);
                   "✔️ Valid: " ++ str (field "valid" (JBool false) d)]
              +++ extra +++ remove_footer))
    /\ forall e m,
         In e (server_errors +++ client_errors) ->
         lookup "message" e = Some (JStr m) ->
         exists line, In line extra /\ contains m line = true.
Proof.
  unfold accepted. intros Hs Hrej.
  unfold remove_report, get_default. cbn [get bindE]. rewrite Hs.
  cbn [bindE].
  match goal with
  | |- context [validation_details _ ?results] =>
      destruct (validation_details_shown _ _ _ results Hrej)
        as (extra & -> & Hshown)
  end.
  exists extra. split; [|assumption].
  cbn [bindE]. unfold field. now rewrite <- !app_assoc.
Qed.

(** ** A report only grows *)

Lemma for_each_extends {A : Type} (step : list A -> json -> Exc (list A)) :
  (forall acc x acc', step acc x = Ret acc' -> exists extra, acc' = acc +++ extra) ->
  forall items acc acc',
    for_each items step acc = Ret acc' -> exists extra, acc' = acc +++ extra.
Proof.
  intros Hstep. induction items as [|x items IH]; intros acc acc';
    cbn [for_each].
  - intros [= <-]. exists []. now rewrite app_nil_r.
  - destruct (step acc x) as [acc1|e] eqn:E; cbn [bindE]; [|discriminate].
    intros H. destruct (Hstep _ _ _ E) as (extra1 & ->).
    destruct (IH _ _ H) as (extra2 & ->).
    exists (extra1 +++ extra2). now rewrite app_assoc.
Qed.

Lemma server_error_lines_extends (acc : list string) (x : json)
    (acc' : list string) :
  server_error_lines acc x = Ret acc' -> exists extra, acc' = acc +++ extra.
Proof.
  unfold server_error_lines.
  destruct (get_default x "message" _); cbn [bindE]; [|discriminate].
  destruct (get_default x "code" _); cbn [bindE]; [|discriminate].
  destruct (get_default x "valStatus" _); cbn [bindE]; [|discriminate].
  intros [= <-]. eauto.
Qed.

Lemma client_error_lines_extends (acc : list string) (x : json)
    (acc' : list string) :
  client_error_lines acc x = Ret acc' -> exists extra, acc' = acc +++ extra.
Proof.
  unfold client_error_lines.
  destruct (get_default x "message" _); cbn [bindE]; [|discriminate].
  intros [= <-]. eauto.
Qed.

Lemma validation_details_extends (response : json) (results results' : list string) :
  validation_details response results = Ret results' ->
  exists extra, results' = results +++ extra.
Proof.
  unfold validation_details.
  destruct (get response "validationlist") as [vl|]; cbn [bindE];
    [|discriminate].
  destruct (truthy (of_option vl));
    [|intros [= <-]; exists []; now rewrite app_nil_r].
  destruct (subscript response "validationlist") as [validation|];
    cbn [bindE]; [|discriminate].
  destruct (get validation "serverValidationList") as [svl|]; cbn [bindE];
    [|discriminate].
  match goal with
  | |- bindE ?server _ = _ -> _ => destruct server as [results1|] eqn:Eserver
  end; cbn [bindE]; [|discriminate].
  assert (H1 : exists extra1, results1 = (results +++ [""; "🔍 Validation Details:"]) +++ extra1).
  { destruct (truthy (of_option svl)).
    - destruct (subscript validation "serverValidationList") as [errors|];
        cbn [bindE] in Eserver; [|discriminate].
      destruct (iter errors) as [items|]; cbn [bindE] in Eserver;
        [|discriminate].
      apply (for_each_extends _ server_error_lines_extends _ _ _ Eserver).
    - injection Eserver as <-. exists []. now rewrite app_nil_r. }
  destruct H1 as (extra1 & ->).
  destruct (get validation "clientValidationList") as [cvl|]; cbn [bindE];
    [|discriminate].
  destruct (truthy (of_option cvl)).
  - destruct (subscript validation "clientValidationList") as [errors|];
      cbn [bindE]; [|discriminate].
    destruct (iter errors) as [items|]; cbn [bindE]; [|discriminate].
    intros H.
    destruct (for_each_extends _ client_error_lines_extends _ _ _ H)
      as (extra2 & ->).
    eexists. rewrite <- !app_assoc. reflexivity.
  - intros [= <-]. eexists. rewrite <- !app_assoc. reflexivity.
Qed.

(** The text returned for a reply whose status is not the success code. *)
Lemma config_text_not_accepted (path : string) (n : Z) (items : list json)
    (path_exists : bool) (d : dict) :
  accepted d = false ->
  contains "❌ Failed to configure disk file system"
    (text_or (config_error path)
       (config_report path n items path_exists (JObj d))) = true
  \/ starts_with "❌ Error configuring disk file system"
       (text_or (config_error path)
          (config_report path n items path_exists (JObj d))) = true.
Proof.
  unfold accepted. intros Hs.
  unfold config_report, get_default.
  destruct (int_str n) as [shown|e]; cbn [bindE text_or];
    [|right; reflexivity].
  cbn [get bindE]. rewrite Hs.
  cbn [bindE].
  match goal with
  | |- context [validation_details ?r ?l] =>
      destruct (validation_details r l) as [results|e] eqn:E
  end; cbn [bindE text_or].
  - left. destruct (validation_details_extends _ _ _ E) as (extra & ->).
    apply (contains_join_lines _ "❌ Failed to configure disk file system");
      [|reflexivity].
    apply in_or_app. left. apply in_or_app. left.
    apply in_or_app. right. now left.
  - right. reflexivity.
Qed.

(** ** Executions that reached the write *)

Lemma config_wrote (c : Client) (path : string) (n : Z) (g p : Request) :
  snd (run (config_disk_file_system path n) c) = [g; p] ->
  exists items path_exists,
    g = fetch /\ p = write items
    /\ fst (run (config_disk_file_system path n) c)
       = Ret (text_or (config_error path)
                (response <- c [g] p ;;
                 config_report path n items path_exists response)%exc).
Proof.
  destruct (printable_int n) eqn:Hn;
    [|rewrite (run_config_too_long _ _ _ Hn); discriminate].
  rewrite (run_config _ _ _ Hn).
  destruct (config_merge path n _) as [[items path_exists]|e]; cbn [fst snd];
    [|discriminate].
  intros H. injection H as <- <-. now exists items, path_exists.
Qed.

(** A run of [config_disk_file_system] that issued a request had a
    [max_files] it could format. *)
Lemma config_requested (c : Client) (path : string) (n : Z) :
  snd (run (config_disk_file_system path n) c) <> [] ->
  printable_int n = true.
Proof.
  destruct (printable_int n) eqn:Hn; [reflexivity|].
  rewrite (run_config_too_long _ _ _ Hn). now intros H.
Qed.

(** The filter loop keeps objects only. *)
Lemma remove_loop_kept (path : string) (items : list json) :
  forall (seen : bool) (acc : list dict) (seen' : bool) (keep : list json),
    for_each items (remove_step path) (seen, map JObj acc) = Ret (seen', keep) ->
    exists kept : list dict, keep = map JObj kept.
Proof.
  induction items as [|x items IH]; intros seen acc seen' keep;
    cbn [for_each].
  - intros [= _ <-]. now exists acc.
  - destruct x as [| | | | |fs]; try discriminate.
    rewrite remove_step_item. cbn [bindE fst snd].
    destruct (has_path path fs).
    + apply IH.
    + change (map JObj acc +++ [JObj fs]) with (map JObj acc +++ map JObj [fs]).
      rewrite <- map_app. apply IH.
Qed.

Lemma remove_wrote (c : Client) (path : string) (g p : Request) :
  snd (run (remove_disk_file_system path) c) = [g; p] ->
  exists kept : list dict,
    g = fetch /\ p = write (map JObj kept)
    /\ fst (run (remove_disk_file_system path) c)
       = Ret (text_or (remove_error path)
                (response <- c [g] p ;;
                 remove_report path (map JObj kept) response)%exc).
Proof.
  rewrite run_remove.
  destruct (remove_after_fetch path _) as [text|existing]; [discriminate|].
  destruct (remove_scan path existing) as [[items [[|] keep]]|e] eqn:E;
    cbn [fst snd]; try discriminate.
  intros H. injection H as <- <-.
  unfold remove_scan in E.
  destruct (iter existing) as [items'|]; cbn [bindE] in E; [|discriminate].
  destruct (for_each items' _ _) as [[seen keep']|] eqn:Eloop; cbn [bindE] in E;
    [|discriminate].
  injection E as _ -> ->.
  destruct (remove_loop_kept path items' false [] _ _ Eloop) as (kept & ->).
  now exists kept.
Qed.

(** The text returned for a removal whose reply has another status than the
    success code. *)
Lemma remove_text_not_accepted (path : string) (keep : list json) (d : dict) :
  accepted d = false ->
  contains "❌ Failed to remove disk file system"
    (text_or (remove_error path) (remove_report path keep (JObj d))) = true
  \/ starts_with "❌ Error removing disk file system"
       (text_or (remove_error path) (remove_report path keep (JObj d))) = true.
Proof.
  unfold accepted. intros Hs.
  unfold remove_report, get_default. cbn [get bindE]. rewrite Hs.
  cbn [bindE].
  match goal with
  | |- context [validation_details ?r ?l] =>
      destruct (validation_details r l) as [results|e] eqn:E
  end; cbn [bindE text_or].
  - left. destruct (validation_details_extends _ _ _ E) as (extra & ->).
    apply (contains_join_lines _ "❌ Failed to remove disk file system");
      [|reflexivity].
    apply in_or_app. left. apply in_or_app. left.
    apply in_or_app. right. now left.
  - right. reflexivity.
Qed.

(** ** Media-server replies *)

Lemma media_report_valid (failed : string) (d : dict) :
  truthy (field "valid" (JBool false) d) = true ->
  media_report failed (JObj d) = Ret (json_dumps (JObj d)).
Proof.
  intros Hv. unfold media_report, get_default. cbn [get bindE].
  fold (field "valid" (JBool false) d). now rewrite Hv.
Qed.

Lemma media_report_invalid (failed : string) (d : dict) (text : string) :
  truthy (field "valid" (JBool false) d) = false ->
  media_report failed (JObj d) = Ret text ->
  starts_with failed text = true.
Proof.
  intros Hv. unfold media_report, get_default. cbn [get bindE].
  fold (field "valid" (JBool false) d). rewrite Hv. cbn [negb].
  match goal with
  | |- bindE ?messages _ = _ -> _ => destruct messages as [[|line lines]|]
  end; cbn [bindE]; try discriminate; intros [= <-]; apply starts_with_app.
Qed.

(** An operation that issues one request and reports on the reply. *)
Lemma run_request_report (req : Request) (report : json -> Exc string)
    (handler : string -> string) (c : Client) (t : list Request) :
  try_except (response <- make_request req ;; lift (report response))%op
    (fun e => ret (handler e)) c t
  = (Ret (text_or handler (response <- c t req ;; report response)%exc),
     t +++ [req]).
Proof.
  unfold try_except, bind, make_request, lift, ret.
  destruct (c t req) as [response|e]; cbn [bindE text_or]; [|reflexivity].
  destruct (report response); reflexivity.
Qed.

Lemma run_delete_media_server (server_name : string) (virtual : bool)
    (c : Client) (t : list Request) :
  _delete_media_server server_name virtual c t
  = (Ret (text_or
            (fun e => "❌ Error deleting media server '" ++ server_name
                      ++ "': " ++ e)
            (response <- c t (delete_request server_name virtual) ;;
             media_report
               ("❌ Failed to delete media server '" ++ server_name ++ "'")
               response)%exc),
     t +++ [delete_request server_name virtual]).
Proof.
  unfold _delete_media_server. cbv zeta.
  now rewrite run_request_report.
Qed.

(** [_add_media_server] refuses its arguments without a request, or issues
    the POST and reports on the reply. *)
Lemma run_add_media_server (server_name : string) (port : Z) (ip_list : json)
    (pool_shared_pipes : Z) (c : Client) (t : list Request) :
  (exists text, _add_media_server server_name port ip_list pool_shared_pipes c t
                = (Ret text, t))
  \/ _add_media_server server_name port ip_list pool_shared_pipes c t
     = (Ret (text_or
               (fun e => "❌ Error adding media server '" ++ server_name
                         ++ "': " ++ e)
               (response <- c t (add_request server_name port ip_list) ;;
                media_report
                  ("❌ Failed to add media server '" ++ server_name ++ "'")
                  response)%exc),
        t +++ [add_request server_name port ip_list]).
Proof.
  unfold _add_media_server.
  destruct ((server_name =? "") || (strip server_name =? ""));
    [left; eexists; reflexivity|].
  destruct (negb ((1 <=? port)%Z && (port <=? 65535)%Z));
    [left; eexists; reflexivity|].
  destruct ip_list as [| | | |[|ip_info ip_infos]|];
    try (left; eexists; reflexivity).
  destruct (negb (forallb well_formed_ip_info (ip_info :: ip_infos)));
    [left; eexists; reflexivity|].
  right. cbv zeta. now rewrite run_request_report.
Qed.

(** What the [add] and [delete] operations return once they have issued
    their request. *)
Lemma media_write_wrote (json_loads : string -> Loaded) (c : Client)
    (operation : string) (server_name : option string) (port : option Z)
    (ip_addresses : option string) (pool_shared_pipes : option Z)
    (virtual : option bool) (g : Request) :
  operation = "add" \/ operation = "delete" ->
  snd (run (manage_dsa_media_servers json_loads operation server_name port
              ip_addresses pool_shared_pipes virtual) c) = [g] ->
  exists (failed : string) (handler : string -> string),
    starts_with "❌" failed = true
    /\ (forall e, starts_with "❌" (handler e) = true)
    /\ fst (run (manage_dsa_media_servers json_loads operation server_name port
                   ip_addresses pool_shared_pipes virtual) c)
       = Ret (text_or handler
                (response <- c [] g ;; media_report failed response)%exc).
Proof.
  intros [->| ->];
    unfold run, manage_dsa_media_servers;
    cbn [is_valid_operation valid_operations existsb String.eqb Ascii.eqb
         Bool.eqb negb orb andb];
    unfold try_except.
  - destruct (given server_name) as [name|]; [|discriminate].
    destruct (given_int port) as [p|]; [|discriminate].
    destruct (given ip_addresses) as [ips|]; [|discriminate].
    destruct (json_loads ips) as [ip_list|e|e]; [|discriminate|discriminate].
    destruct (run_add_media_server name p ip_list
                (pipes_or_50 pool_shared_pipes) c []) as [[text ->]| ->];
      [discriminate|].
    cbn [fst snd app]. intros [= <-].
    exists ("❌ Failed to add media server '" ++ name ++ "'"),
      (fun e => "❌ Error adding media server '" ++ name ++ "': " ++ e).
    split; [reflexivity|]. split; [reflexivity|]. reflexivity.
  - destruct (given server_name) as [name|]; [|discriminate].
    rewrite run_delete_media_server.
    cbn [fst snd app]. intros [= <-].
    exists ("❌ Failed to delete media server '" ++ name ++ "'"),
      (fun e => "❌ Error deleting media server '" ++ name ++ "': " ++ e).
    split; [reflexivity|]. split; [reflexivity|]. reflexivity.
Qed.

Lemma starts_with_trans (a b t : string) :
  starts_with a b = true -> starts_with b t = true -> starts_with a t = true.
Proof.
  revert b t. induction a as [|x a IH]; intros b t; [reflexivity|].
  destruct b as [|y b]; [discriminate|].
  destruct t as [|z t]; [discriminate|]. cbn.
  intros H1 H2. apply andb_true_iff in H1. apply andb_true_iff in H2.
  destruct H1 as [Hxy H1]. destruct H2 as [Hyz H2].
  apply Ascii.eqb_eq in Hxy. apply Ascii.eqb_eq in Hyz. subst.
  rewrite Ascii.eqb_refl. cbn. now apply (IH b t).
Qed.

(** ** The S3 configuration *)

(** The text of the S3 [config] operation for the client's reply. *)
Lemma run_s3_config (c : Client) (accessId accessKey : string)
    (bucketsByRegion : json) (bucketName acctName : string) :
  (accessId =? "") = false -> (accessKey =? "") = false ->
  truthy bucketsByRegion = true ->
  (acctName =? "") = false -> (bucketName =? "") = false ->
  let request :=
    POST AWS_S3
      (s3_request_data accessId accessKey bucketsByRegion bucketName acctName) in
  run (manage_AWS_S3_backup_configurations "config" (Some accessId)
         (Some accessKey) (Some bucketsByRegion) (Some bucketName)
         (Some acctName)) c
  = (Ret (match c [] request with
          | Ret response =>
              "✅ AWS backup solution configuration operation completed"
              ++ nl ++ "Response: " ++ str response
          | Raise e => "❌ Error configuring AWS backup solution: " ++ e
          end),
     [request]).
Proof.
  intros Ha Hk Hb Hacct Hname request.
  unfold run, manage_AWS_S3_backup_configurations, try_except, given,
    given_object.
  cbn [String.eqb Ascii.eqb Bool.eqb]. rewrite Ha, Hk, Hb, Hacct, Hname.
  unfold bind, make_request, ret. fold request. cbn [app].
  destruct (c [] request); reflexivity.
Qed.

(** An S3 [config] issues no request other than the POST of the
    configuration, with the bucket name it was called with. *)
Lemma s3_config_trace (c : Client) (accessId accessKey : option string)
    (bucketsByRegion : option json) (bucketName : string)
    (acctName : option string) (r : Request) :
  In r (snd (run (manage_AWS_S3_backup_configurations "config" accessId
                    accessKey bucketsByRegion (Some bucketName) acctName) c)) ->
  exists a k b acct,
    accessId = Some a /\ accessKey = Some k /\ bucketsByRegion = Some b
    /\ acctName = Some acct
    /\ r = POST AWS_S3 (s3_request_data a k b bucketName acct).
Proof.
  unfold run, manage_AWS_S3_backup_configurations, try_except, given,
    given_object.
  cbn [String.eqb Ascii.eqb Bool.eqb].
  destruct accessId as [a|]; [destruct (a =? "")|]; try (intros []).
  destruct accessKey as [k|]; [destruct (k =? "")|]; try (intros []).
  destruct bucketsByRegion as [b|]; [destruct (truthy b)|]; try (intros []).
  destruct acctName as [acct|]; [destruct (acct =? "")|]; try (intros []).
  destruct (bucketName =? ""); try (intros []).
  unfold bind, make_request, ret. cbn [app].
  destruct (c [] _); cbn [snd In]; intros [<-|[]]; now exists a, k, b, acct.
Qed.

(** An operation whose outer handler returns a text always returns. *)
Lemma try_except_returns {A : Type} (m : Op A) (h : string -> A)
    (c : Client) (t : list Request) :
  exists a, fst (try_except m (fun e => ret (h e)) c t) = Ret a.
Proof.
  unfold try_except, ret.
  destruct (m c t) as [[a|e] t']; cbn [fst]; eauto.
Qed.

(** A handler is not run when the operation returns. *)
Lemma try_except_returned {A : Type} (m : Op A) (handler : string -> Op A)
    (c : Client) (t : list Request) (a : A) :
  fst (m c t) = Ret a -> try_except m handler c t = m c t.
Proof.
  unfold try_except. destruct (m c t) as [[x|e] t']; cbn [fst];
    [reflexivity|discriminate].
Qed.

(** ** The disk-file-system entry point *)

Lemma config_returns (c : Client) (path : string) (n : Z) :
  exists text, fst (run (config_disk_file_system path n) c) = Ret text.
Proof. unfold run, config_disk_file_system. apply try_except_returns. Qed.

Lemma remove_returns (c : Client) (path : string) :
  exists text, fst (run (remove_disk_file_system path) c) = Ret text.
Proof. unfold run, remove_disk_file_system. apply try_except_returns. Qed.

(** With its arguments given, the entry point runs the operation itself. *)
Lemma manage_config (c : Client) (ch : ascii) (rest : string) (n : Z) :
  run (manage_dsa_disk_file_systems "config" (Some (String ch rest)) (Some n)) c
  = run (config_disk_file_system (String ch rest) n) c.
Proof.
  destruct (config_returns c (String ch rest) n) as [text H].
  unfold run in *. unfold manage_dsa_disk_file_systems.
  cbn [String.eqb Ascii.eqb Bool.eqb given].
  now apply (try_except_returned _ _ _ _ text).
Qed.

Lemma manage_remove (c : Client) (ch : ascii) (rest : string)
    (max_files : option Z) :
  run (manage_dsa_disk_file_systems "remove" (Some (String ch rest)) max_files) c
  = run (remove_disk_file_system (String ch rest)) c.
Proof.
  destruct (remove_returns c (String ch rest)) as [text H].
  unfold run in *. unfold manage_dsa_disk_file_systems.
  cbn [String.eqb Ascii.eqb Bool.eqb given].
  now apply (try_except_returned _ _ _ _ text).
Qed.

(** An operation name outside the declared ones is answered with their list
    and no request, at each of the three entry points. *)
Lemma unknown_operation_rejected (json_loads : string -> Loaded) (c : Client)
    (operation : string) :
  (existsb (String.eqb operation) available_operations = false ->
   (forall path n,
       run (manage_dsa_disk_file_systems operation path n) c
       = (Ret (unknown_operation operation), []))
   /\ (forall a k b name acct,
         run (manage_AWS_S3_backup_configurations operation a k b name acct) c
         = (Ret (unknown_operation operation), [])))
  /\ (is_valid_operation operation = false ->
      forall name port ips pipes virtual,
        run (manage_dsa_media_servers json_loads operation name port ips pipes
               virtual) c
        = (Ret ("❌ Invalid operation '" ++ operation
                ++ "'. Valid operations: "
                ++ String.concat ", " valid_operations), [])).
Proof.
  split.
  - cbn [existsb available_operations]. intros H.
    repeat (apply orb_false_iff in H; destruct H as [? H]).
    unfold run, manage_dsa_disk_file_systems,
      manage_AWS_S3_backup_configurations, try_except.
    repeat match goal with E : (_ =? _) = false |- _ => rewrite E; clear E end.
    split; reflexivity.
  - intros H. unfold run, manage_dsa_media_servers. now rewrite H.
Qed.


(** ** Formatting the arguments of a handler *)





Lemma run_media_handler (ResponseType : Type)
    (create_response : string -> json -> ResponseType)
    (json_loads : string -> Loaded) (c : Client) (operation : string)
    (server_name : option string) (port : option Z)
    (ip_addresses : option string) (pool_shared_pipes : option Z)
    (virtual : option bool) :
  printable (of_opt_int port) = true ->
  run (handle_bar_manageMediaServer ResponseType create_response json_loads
         operation server_name port ip_addresses pool_shared_pipes virtual) c
  = if is_valid_operation operation then
      match run (manage_dsa_media_servers json_loads operation server_name
                   port ip_addresses pool_shared_pipes virtual) c with
      | (Ret text, t) =>
          (Ret (create_response text
                  (JObj [("tool_name", JStr "bar_manageMediaServer");
                         ("operation", JStr operation);
                         ("server_name", of_opt_str server_name);
                         ("success", JBool true)])), t)
      | (Raise e, t) =>
          (Ret (create_response
                  ("❌ Error in DSA media server operation: " ++ e)
                  (JObj [("tool_name", JStr "bar_manageMediaServer");
                         ("operation", JStr operation);
                         ("error", JStr e);
                         ("success", JBool false)])), t)
      end
    else
      (Ret (create_response
              ("❌ Invalid operation '" ++ operation ++ "'. Valid operations: "
               ++ String.concat ", " valid_operations)
              (JObj [("tool_name", JStr "bar_manageMediaServer");
                     ("operation", JStr operation);
                     ("error", JStr "Invalid operation");
                     ("success", JBool false)])), []).
Proof.
  intros H.
  unfold handle_bar_manageMediaServer, run, bind at 1, lift at 1,
    format_value at 1.
  rewrite H. unfold try_except.
  destruct (is_valid_operation operation); cbn [negb]; [|reflexivity].
  unfold bind.
  destruct (manage_dsa_media_servers json_loads operation server_name port
              ip_addresses pool_shared_pipes virtual c [])
    as [[text|e] t]; reflexivity.
Qed.

(** ** The report of [delete_disk_file_systems] *)

(** Finds a line in a list built by appends. *)
Ltac find_line :=
  solve [ cbn [In app]; tauto
        | apply in_or_app; left; find_line
        | apply in_or_app; right; find_line ].

Lemma delete_report_accepted (d : dict) :
  opt_eq_str (lookup "status" d) "DELETE_COMPONENT_SUCCESSFUL" = true ->
  delete_disk_report (JObj d)
  = Ret (join_lines
           ["🗂️ DSA Disk File System Deletion";
            rule;
            "✅ All disk file systems deleted successfully";
            "📊 Status: DELETE_COMPONENT_SUCCESSFUL";
            "✔️ Valid: " ++ str (field "valid" (JBool false) d);
            "";
            rule;
            "✅ Disk file system deletion operation completed"]).
Proof.
  intros Hs. unfold delete_disk_report, get_default. cbn [get bindE].
  rewrite Hs.
  destruct (lookup "status" d) as [[| | |s| |]|]; try discriminate Hs.
  cbn in Hs. apply String.eqb_eq in Hs. subst s. reflexivity.
Qed.

Lemma delete_text_not_accepted (d : dict) :
  opt_eq_str (lookup "status" d) "DELETE_COMPONENT_SUCCESSFUL" = false ->
  let text :=
    text_or (fun e => "❌ Error deleting disk file systems: " ++ e)
      (delete_disk_report (JObj d)) in
  contains "❌ Failed to delete disk file systems" text = true
  \/ starts_with "❌ Error deleting disk file systems" text = true.
Proof.
  intros Hs text. subst text.
  unfold delete_disk_report, get_default. cbn [get bindE]. rewrite Hs.
  cbn [bindE].
  destruct (truthy (of_option (lookup "validationlist" d))).
  2:{ left. cbn [bindE text_or].
      apply (contains_join_lines _ "❌ Failed to delete disk file systems");
        [find_line|reflexivity]. }
  match goal with
  | |- context [validation_details ?r ?l] =>
      destruct (validation_details r l) as [results|e] eqn:E
  end; cbn [bindE text_or]; [|right; reflexivity].
  destruct (validation_details_extends _ _ _ E) as (extra & ->).
  destruct (subscript (JObj d) "validationlist") as [validation|e];
    cbn [bindE text_or]; [|right; reflexivity].
  destruct (get validation "serverValidationList") as [o|e];
    cbn [bindE text_or]; [|right; reflexivity].
  match goal with
  | |- context [iter ?v] => destruct (iter v) as [errors|e]
  end; cbn [bindE text_or]; [|right; reflexivity].
  destruct (any_in_use errors) as [[|]|e]; cbn [bindE text_or];
    [| |right; reflexivity];
    left;
    (apply (contains_join_lines _ "❌ Failed to delete disk file systems");
     [find_line|reflexivity]).
Qed.

End Facts.

(* ================================================================== *)
(** * The claims *)
(* ================================================================== *)

Module Claims.
Import Py Dsa BarTools Spec Examples Facts.

(** ** C3 *)

(** C3.  For every fetched collection and every candidate whose [max_files]
    can be formatted (an [int] of at most 4300 digits), the config operation
    submits a collection in which each item whose [fileSystemPath] is the
    candidate's path is replaced where it stands, every other item keeping
    its position and its contents, and, when no item has that path, the
    candidate is appended at the end. *)
Theorem C3_config_replaces_in_place_or_appends
    (c : Client) (path : string) (n : Z) (items : list dict) :
  printable_int n = true ->
  lists (c [] fetch) items ->
  exists submitted : list dict,
    snd (run (config_disk_file_system path n) c)
    = [fetch; write (map JObj submitted)]
    /\ (existsb (has_path path) items = true ->
        length submitted = length items
        /\ forall i fs,
             nth_error items i = Some fs ->
             nth_error submitted i
             = Some (if has_path path fs then new_item path n else fs))
    /\ (existsb (has_path path) items = false ->
        submitted = items +++ [new_item path n]).
Proof.
  intros Hn Hlist. exists (upsert path n items).
  rewrite (run_config _ _ _ Hn), (existing_after_listing _ _ Hlist),
    config_merge_upsert.
  split; [reflexivity|].
  unfold upsert. split; intros E; rewrite E.
  - rewrite app_nil_r. split; [apply length_map|].
    intros i fs Hi. rewrite nth_error_map, Hi. reflexivity.
  - f_equal. rewrite <- (map_id items) at 2. apply map_ext_in.
    intros fs Hin.
    destruct (has_path path fs) eqn:Hp; [|reflexivity].
    assert (existsb (has_path path) items = true)
      by (apply existsb_exists; eauto).
    congruence.
Qed.

Lemma C3_witness :
  exists submitted : list dict,
    snd (run (config_disk_file_system "/backup/a" 9)
           (serving [fs_a; fs_b] configured))
    = [fetch; write (map JObj submitted)]
    /\ (existsb (has_path "/backup/a") [fs_a; fs_b] = true ->
        length submitted = length [fs_a; fs_b]
        /\ forall i fs,
             nth_error [fs_a; fs_b] i = Some fs ->
             nth_error submitted i
             = Some (if has_path "/backup/a" fs
                     then new_item "/backup/a" 9 else fs))
    /\ (existsb (has_path "/backup/a") [fs_a; fs_b] = false ->
        submitted = [fs_a; fs_b] +++ [new_item "/backup/a" 9]).
Proof.
  apply (C3_config_replaces_in_place_or_appends
           (serving [fs_a; fs_b] configured) "/backup/a" 9 [fs_a; fs_b]).
  - reflexivity.
  - eexists. repeat split; reflexivity.
Defined.

(** The specification's two examples of the merge, run on the code. *)
Example update_preserves_others :
  snd (run (config_disk_file_system "/backup/a" 9)
         (serving [fs_a; fs_b] configured))
  = [fetch; write [JObj (new_item "/backup/a" 9); JObj fs_b]].
Proof. reflexivity. Qed.

Example insert_appends :
  snd (run (config_disk_file_system "/backup/c" 3)
         (serving [fs_a] configured))
  = [fetch; write [JObj fs_a; JObj (new_item "/backup/c" 3)]].
Proof. reflexivity. Qed.

(** ** C4 *)

(** C4.  When the fetched items have pairwise distinct [fileSystemPath]
    keys and [max_files] can be formatted (an [int] of at most 4300 digits),
    the collection the config operation submits has pairwise distinct
    keys too and exactly one item with the candidate's key; and a second run
    with the same key and attributes, on a service that now lists the
    submitted collection, submits that same collection again. *)
Theorem C4_config_keeps_keys_distinct
    (c : Client) (path : string) (n : Z) (items : list dict) :
  printable_int n = true ->
  lists (c [] fetch) items ->
  NoDup (map key items) ->
  exists submitted : list dict,
    snd (run (config_disk_file_system path n) c)
    = [fetch; write (map JObj submitted)]
    /\ NoDup (map key submitted)
    /\ length (filter (has_path path) submitted) = 1
    /\ forall c' : Client,
         lists (c' [] fetch) submitted ->
         snd (run (config_disk_file_system path n) c')
         = [fetch; write (map JObj submitted)].
Proof.
  intros Hn Hlist Hdistinct. exists (upsert path n items).
  rewrite (run_config _ _ _ Hn), (existing_after_listing _ _ Hlist),
    config_merge_upsert.
  split; [reflexivity|].
  pose proof (upsert_NoDup path n items Hdistinct) as Hnd.
  split; [assumption|]. split.
  - pose proof (at_most_one_has_path path _ Hnd).
    pose proof (some_has_path path _ (upsert_has_path path n items)).
    lia.
  - intros c' Hlist'.
    rewrite (run_config _ _ _ Hn), (existing_after_listing _ _ Hlist'),
      config_merge_upsert, upsert_idempotent.
    reflexivity.
Qed.

Lemma C4_witness :
  exists submitted : list dict,
    snd (run (config_disk_file_system "/backup/b" 7)
           (serving [fs_a; fs_b] configured))
    = [fetch; write (map JObj submitted)]
    /\ NoDup (map key submitted)
    /\ length (filter (has_path "/backup/b") submitted) = 1
    /\ forall c' : Client,
         lists (c' [] fetch) submitted ->
         snd (run (config_disk_file_system "/backup/b" 7) c')
         = [fetch; write (map JObj submitted)].
Proof.
  apply (C4_config_keeps_keys_distinct
           (serving [fs_a; fs_b] configured) "/backup/b" 7 [fs_a; fs_b]).
  - reflexivity.
  - eexists. repeat split; reflexivity.
  - repeat constructor; cbn; intuition discriminate.
Defined.

(** ** C5 *)

(** C5.  When no fetched item has the target path,
    [remove_disk_file_system] returns the not-found report, which lists the
    key of every fetched item, and issues no request besides the fetch. *)
Theorem C5_remove_reports_not_found
    (c : Client) (path : string) (items : list dict) :
  lists (c [] fetch) items ->
  existsb (has_path path) items = false ->
  exists lines : list string,
    run (remove_disk_file_system path) c = (Ret (join_lines lines), [fetch])
    /\ In ("❌ File system '" ++ path ++ "' not found") lines
    /\ forall fs k,
         In fs items -> key fs = Some k -> In ("   • " ++ str k) lines.
Proof.
  intros Hlist Hnone.
  rewrite run_remove, (remove_after_listing _ _ _ Hlist), remove_scan_filter,
    Hnone, not_found_report.
  eexists. split; [reflexivity|]. split.
  - cbn. tauto.
  - intros fs k Hin Hk.
    apply in_or_app. right. apply in_or_app. left.
    destruct items as [|fs0 items0]; [destruct Hin|].
    apply in_map_iff. exists fs. split; [|assumption].
    unfold bullet, field. fold (key fs). now rewrite Hk.
Qed.

Lemma C5_witness :
  exists lines : list string,
    run (remove_disk_file_system "/backup/z")
      (serving [fs_a; fs_b] configured)
    = (Ret (join_lines lines), [fetch])
    /\ In ("❌ File system '" ++ "/backup/z" ++ "' not found") lines
    /\ forall fs k,
         In fs [fs_a; fs_b] -> key fs = Some k -> In ("   • " ++ str k) lines.
Proof.
  apply (C5_remove_reports_not_found
           (serving [fs_a; fs_b] configured) "/backup/z" [fs_a; fs_b]).
  - eexists. repeat split; reflexivity.
  - reflexivity.
Defined.

(** The specification's example of a removal that finds nothing. *)
Example remove_not_found :
  run (remove_disk_file_system "/backup/z") (serving [fs_a] configured)
  = (Ret (join_lines
            ["🗂️ DSA Disk File System Removal";
             rule;
             "❌ File system '/backup/z' not found";
             "";
             "📋 Available file systems:";
             "   • /backup/a";
             "";
             rule]),
     [fetch]).
Proof. reflexivity. Qed.

(** ** C6 *)

(** C6.  When some fetched item has the target path,
    [remove_disk_file_system] issues exactly one write; the collection it
    submits is the fetched one without the items that have the path, the
    others unchanged and in their order; and when the reply to the write
    carries the status [CONFIG_DISK_FILE_SYSTEM_SUCCESSFUL] the report is the
    success report. *)
Theorem C6_remove_writes_the_rest
    (c : Client) (path : string) (items : list dict) :
  lists (c [] fetch) items ->
  existsb (has_path path) items = true ->
  let kept := filter (fun fs => negb (has_path path fs)) items in
  snd (run (remove_disk_file_system path) c) = [fetch; write (map JObj kept)]
  /\ forall d : dict,
       c [fetch] (write (map JObj kept)) = Ret (JObj d) ->
       lookup "status" d = Some (JStr "CONFIG_DISK_FILE_SYSTEM_SUCCESSFUL") ->
       exists lines : list string,
         fst (run (remove_disk_file_system path) c) = Ret (join_lines lines)
         /\ In "✅ Disk file system removed successfully" lines
         /\ ~ In "❌ Failed to remove disk file system" lines.
Proof.
  intros Hlist Hsome kept.
  rewrite run_remove, (remove_after_listing _ _ _ Hlist), remove_scan_filter,
    Hsome.
  fold kept. change (remove path items) with kept.
  split; [reflexivity|].
  intros d Hreply Hstatus. cbn [fst]. rewrite Hreply. cbn [bindE].
  rewrite (remove_report_accepted _ _ _ Hstatus). cbn [text_or].
  eexists. split; [reflexivity|]. split.
  - cbn. tauto.
  - intros Hin.
    assert (Hline : forall fs, remaining_line fs
                               <> "❌ Failed to remove disk file system")
      by (intros fs; unfold remaining_line; cbn; discriminate).
    unfold remove_header, remove_footer in Hin.
    cbn [app In] in Hin.
    repeat (destruct Hin as [Hin|Hin]; [cbn in Hin; discriminate Hin|]).
    apply in_app_or in Hin. destruct Hin as [Hin|Hin].
    + destruct kept as [|fs0 kept0].
      * cbn in Hin. intuition discriminate.
      * cbn [app In] in Hin.
        destruct Hin as [Hin|[Hin|Hin]];
          [discriminate Hin|cbn in Hin; discriminate Hin|].
        apply in_map_iff in Hin. destruct Hin as (fs & Hfs & _).
        now apply (Hline fs).
    + cbn in Hin. intuition discriminate.
Qed.

Lemma C6_witness :
  let kept :=
    filter (fun fs => negb (has_path "/backup/a" fs)) [fs_a; fs_b] in
  snd (run (remove_disk_file_system "/backup/a")
         (serving [fs_a; fs_b] configured))
  = [fetch; write (map JObj kept)]
  /\ forall d : dict,
       serving [fs_a; fs_b] configured [fetch] (write (map JObj kept))
       = Ret (JObj d) ->
       lookup "status" d = Some (JStr "CONFIG_DISK_FILE_SYSTEM_SUCCESSFUL") ->
       exists lines : list string,
         fst (run (remove_disk_file_system "/backup/a")
                (serving [fs_a; fs_b] configured))
         = Ret (join_lines lines)
         /\ In "✅ Disk file system removed successfully" lines
         /\ ~ In "❌ Failed to remove disk file system" lines.
Proof.
  apply (C6_remove_writes_the_rest
           (serving [fs_a; fs_b] configured) "/backup/a" [fs_a; fs_b]).
  - eexists. repeat split; reflexivity.
  - reflexivity.
Defined.

(** The specification's example of a removal that finds its item. *)
Example remove_found :
  run (remove_disk_file_system "/backup/a") (serving [fs_a; fs_b] configured)
  = (Ret (join_lines
            (remove_header "/backup/a" 1
             +++ ["✅ Disk file system removed successfully";
                  "📊 Status: CONFIG_DISK_FILE_SYSTEM_SUCCESSFUL";
                  "✔️ Valid: True";
                  "";
                  "📋 Remaining file systems:";
                  "   • /backup/b (Max Files: 200)"]
             +++ remove_footer)),
     [fetch; write [JObj fs_b]]).
Proof. reflexivity. Qed.

(** ** C7 *)

(** C7, as the code has it.  When the reply to the write of
    [config_disk_file_system] or [remove_disk_file_system] has a status other
    than [CONFIG_DISK_FILE_SYSTEM_SUCCESSFUL] and carries a validation list
    of error objects, the text returned contains the message of every server
    error and of every client error. *)
Theorem C7_rejected_write_shows_every_message
    (c : Client) (path : string) (n : Z) (g p : Request) (d : dict)
    (server_errors client_errors : list dict) :
  c [g] p = Ret (JObj d) ->
  accepted d = false ->
  rejects_with d server_errors client_errors ->
  forall op : Op string,
    op = config_disk_file_system path n \/ op = remove_disk_file_system path ->
    snd (run op c) = [g; p] ->
    exists text : string,
      fst (run op c) = Ret text
      /\ forall e m,
           In e (server_errors +++ client_errors) ->
           lookup "message" e = Some (JStr m) ->
           contains m text = true.
Proof.
  intros Hreply Hstatus Hrej op [->| ->] Htrace.
  - assert (Hn : printable_int n = true).
    { apply (config_requested c path). now rewrite Htrace. }
    destruct (config_wrote _ _ _ _ _ Htrace)
      as (items & path_exists & _ & _ & ->).
    rewrite Hreply. cbn [bindE].
    destruct (config_report_rejected path n items path_exists _ _ _
                Hn Hstatus Hrej) as (extra & -> & Hshown).
    cbn [text_or]. eexists. split; [reflexivity|].
    intros e m Hin Hm.
    destruct (Hshown e m Hin Hm) as (line & Hline & Hcontains).
    apply (contains_join_lines m line); [|assumption].
    apply in_or_app. right. apply in_or_app. right.
    apply in_or_app. now left.
  - destruct (remove_wrote _ _ _ _ Htrace) as (kept & _ & _ & ->).
    rewrite Hreply. cbn [bindE].
    destruct (remove_report_rejected path (map JObj kept) _ _ _ Hstatus Hrej)
      as (extra & -> & Hshown).
    cbn [text_or]. eexists. split; [reflexivity|].
    intros e m Hin Hm.
    destruct (Hshown e m Hin Hm) as (line & Hline & Hcontains).
    apply (contains_join_lines m line); [|assumption].
    apply in_or_app. right. apply in_or_app. right.
    apply in_or_app. now left.
Qed.

Lemma C7_witness :
  exists text : string,
    fst (run (config_disk_file_system "/backup/a" 0)
           (serving [fs_a; fs_b] (JObj rejected)))
    = Ret text
    /\ forall e m,
         In e ([in_use; not_a_directory] +++ [bad_max_files]) ->
         lookup "message" e = Some (JStr m) ->
         contains m text = true.
Proof.
  apply (C7_rejected_write_shows_every_message
           (serving [fs_a; fs_b] (JObj rejected)) "/backup/a" 0
           fetch (write [JObj (new_item "/backup/a" 0); JObj fs_b]) rejected
           [in_use; not_a_directory] [bad_max_files]).
  - reflexivity.
  - reflexivity.
  - eexists. split; [reflexivity|]. split; left; reflexivity.
  - now left.
  - reflexivity.
Defined.

(** A reply with the success status, [valid: false] and a server error: the
    report does not show the error's message. *)
Lemma C7_counterexample :
  lookup "valid" accepted_but_invalid = Some (JBool false)
  /\ rejects_with accepted_but_invalid [not_a_directory] []
  /\ exists text : string,
       run (config_disk_file_system "/backup/a" 9)
         (serving [fs_a; fs_b] (JObj accepted_but_invalid))
       = (Ret text,
          [fetch; write [JObj (new_item "/backup/a" 9); JObj fs_b]])
       /\ contains "Path is not a directory" text = false.
Proof.
  split; [reflexivity|]. split.
  - eexists. split; [reflexivity|]. split; left; reflexivity.
  - eexists. split; [reflexivity|]. vm_compute. reflexivity.
Qed.

(** ** C2 *)

(** C2, as the code has it.  What decides the outcome a write reports
    differs between the resources.  The disk-file-system writes follow the
    status of the reply: [config_disk_file_system] and
    [remove_disk_file_system] return the success report with
    [CONFIG_DISK_FILE_SYSTEM_SUCCESSFUL], and [delete_disk_file_systems]
    with [DELETE_COMPONENT_SUCCESSFUL], whatever the [valid] field holds,
    which is only printed; with any other status they return a failure
    report.  The S3 [config] operation reports completion, with the reply
    printed, for every reply that arrives.  The media-server writes ([add],
    [delete]) follow [valid]: a reply without a true [valid] yields a
    failure text. *)
Theorem C2_reported_outcome_follows_status :
  (forall (c : Client) (path : string) (n : Z) (g p : Request) (d : dict),
      c [g] p = Ret (JObj d) ->
      snd (run (config_disk_file_system path n) c) = [g; p] ->
      exists text : string,
        fst (run (config_disk_file_system path n) c) = Ret text
        /\ (accepted d = true ->
            exists total path_exists,
              text
              = join_lines
                  (config_header path (str_of_Z n) total path_exists
                   +++ ["✅ Disk file system configured successfully";
                        "📊 Status: CONFIG_DISK_FILE_SYSTEM_SUCCESSFUL";
                        "✔️ Valid: " ++ str (field "valid" (JBool false) d)]
                   +++ config_footer))
        /\ (accepted d = false ->
            contains "❌ Failed to configure disk file system" text = true
            \/ starts_with "❌ Error configuring disk file system" text = true))
  /\ (forall (c : Client) (path : string) (g p : Request) (d : dict),
        c [g] p = Ret (JObj d) ->
        snd (run (remove_disk_file_system path) c) = [g; p] ->
        exists text : string,
          fst (run (remove_disk_file_system path) c) = Ret text
          /\ (accepted d = true ->
              exists lines,
                text = join_lines lines
                /\ In "✅ Disk file system removed successfully" lines
                /\ In ("✔️ Valid: " ++ str (field "valid" (JBool false) d))
                     lines)
          /\ (accepted d = false ->
              contains "❌ Failed to remove disk file system" text = true
              \/ starts_with "❌ Error removing disk file system" text = true))
  /\ (forall (c : Client) (accessId accessKey : string) (bucketsByRegion : json)
             (bucketName acctName : string) (response : json),
        (accessId =? "") = false -> (accessKey =? "") = false ->
        truthy bucketsByRegion = true ->
        (acctName =? "") = false -> (bucketName =? "") = false ->
        c [] (POST AWS_S3
                (s3_request_data accessId accessKey bucketsByRegion bucketName
                   acctName))
        = Ret response ->
        fst (run (manage_AWS_S3_backup_configurations "config" (Some accessId)
                    (Some accessKey) (Some bucketsByRegion) (Some bucketName)
                    (Some acctName)) c)
        = Ret ("✅ AWS backup solution configuration operation completed"
               ++ nl ++ "Response: " ++ str response))
  /\ (forall (json_loads : string -> Loaded) (c : Client) (operation : string)
             (server_name : option string) (port : option Z)
             (ip_addresses : option string) (pool_shared_pipes : option Z)
             (virtual : option bool) (g : Request) (d : dict),
        operation = "add" \/ operation = "delete" ->
        snd (run (manage_dsa_media_servers json_loads operation server_name
                    port ip_addresses pool_shared_pipes virtual) c) = [g] ->
        c [] g = Ret (JObj d) ->
        exists text : string,
          fst (run (manage_dsa_media_servers json_loads operation server_name
                      port ip_addresses pool_shared_pipes virtual) c)
          = Ret text
          /\ (truthy (field "valid" (JBool false) d) = false ->
              starts_with "❌" text = true)
          /\ (truthy (field "valid" (JBool false) d) = true ->
              text = json_dumps (JObj d)))
  /\ (forall (c : Client) (d : dict),
        c [] delete_all_request = Ret (JObj d) ->
        exists text : string,
          run delete_disk_file_systems c = (Ret text, [delete_all_request])
          /\ (opt_eq_str (lookup "status" d) "DELETE_COMPONENT_SUCCESSFUL"
              = true ->
              text
              = join_lines
                  ["🗂️ DSA Disk File System Deletion";
                   rule;
                   "✅ All disk file systems deleted successfully";
                   "📊 Status: DELETE_COMPONENT_SUCCESSFUL";
                   "✔️ Valid: " ++ str (field "valid" (JBool false) d);
                   "";
                   rule;
                   "✅ Disk file system deletion operation completed"])
          /\ (opt_eq_str (lookup "status" d) "DELETE_COMPONENT_SUCCESSFUL"
              = false ->
              contains "❌ Failed to delete disk file systems" text = true
              \/ starts_with "❌ Error deleting disk file systems" text
                 = true)).
Proof.
  split; [|split; [|split; [|split]]].
  - intros c path n g p d Hreply Htrace.
    assert (Hn : printable_int n = true).
    { apply (config_requested c path). now rewrite Htrace. }
    destruct (config_wrote _ _ _ _ _ Htrace)
      as (items & path_exists & _ & _ & ->).
    rewrite Hreply. cbn [bindE]. eexists. split; [reflexivity|]. split.
    + intros Hs. rewrite (config_report_accepted _ _ _ _ _ Hn Hs).
      cbn [text_or]. eauto.
    + intros Hs. now apply config_text_not_accepted.
  - intros c path g p d Hreply Htrace.
    destruct (remove_wrote _ _ _ _ Htrace) as (kept & _ & _ & ->).
    rewrite Hreply. cbn [bindE]. eexists. split; [reflexivity|]. split.
    + intros Hs. unfold accepted in Hs.
      assert (Hstatus : lookup "status" d
                        = Some (JStr "CONFIG_DISK_FILE_SYSTEM_SUCCESSFUL")).
      { destruct (lookup "status" d) as [[| | |s| |]|]; try discriminate Hs.
        cbn in Hs. apply String.eqb_eq in Hs. now subst. }
      rewrite (remove_report_accepted _ _ _ Hstatus). cbn [text_or].
      eexists. split; [reflexivity|].
      split; apply in_or_app; right; apply in_or_app; left; cbn; tauto.
    + intros Hs. now apply remove_text_not_accepted.
  - intros c accessId accessKey bucketsByRegion bucketName acctName response
      Ha Hk Hb Hacct Hname Hreply.
    rewrite (run_s3_config c _ _ _ _ _ Ha Hk Hb Hacct Hname).
    cbn [fst]. now rewrite Hreply.
  - intros json_loads c operation server_name port ip_addresses
      pool_shared_pipes virtual g d Hop Htrace Hreply.
    destruct (media_write_wrote _ _ _ _ _ _ _ _ _ Hop Htrace)
      as (failed & handler & Hfailed & Hhandler & ->).
    rewrite Hreply. cbn [bindE].
    destruct (media_report failed (JObj d)) as [text|e] eqn:R; cbn [text_or];
      eexists; (split; [reflexivity|]); split; intros Hv.
    + apply (starts_with_trans _ failed); [assumption|].
      now apply (media_report_invalid failed d).
    + rewrite (media_report_valid failed d Hv) in R. congruence.
    + apply Hhandler.
    + rewrite (media_report_valid failed d Hv) in R. discriminate R.
  - intros c d Hreply. unfold run, delete_disk_file_systems.
    rewrite run_request_report. unfold delete_all_request in Hreply.
    rewrite Hreply. cbn [bindE app].
    eexists. split; [reflexivity|]. split; intros Hs.
    + now rewrite (delete_report_accepted d Hs).
    + now apply delete_text_not_accepted.
Qed.

Lemma C2_witness :
  (exists text : string,
      fst (run (config_disk_file_system "/backup/a" 9)
             (serving [fs_a; fs_b] (JObj accepted_but_invalid)))
      = Ret text
      /\ (accepted accepted_but_invalid = true ->
          exists total path_exists,
            text
            = join_lines
                (config_header "/backup/a" "9" total path_exists
                 +++ ["✅ Disk file system configured successfully";
                      "📊 Status: CONFIG_DISK_FILE_SYSTEM_SUCCESSFUL";
                      "✔️ Valid: "
                      ++ str (field "valid" (JBool false) accepted_but_invalid)]
                 +++ config_footer))
      /\ (accepted accepted_but_invalid = false ->
          contains "❌ Failed to configure disk file system" text = true
          \/ starts_with "❌ Error configuring disk file system" text = true))
  /\ fst (run (manage_AWS_S3_backup_configurations "config" (Some "AKIAEXAMPLE")
                (Some "secret") (Some regions) (Some "tdedsabucket01")
                (Some "backup-account")) (answering s3_rejected))
     = Ret ("✅ AWS backup solution configuration operation completed"
            ++ nl ++ "Response: " ++ str s3_rejected)
  /\ (exists text : string,
        fst (run (manage_dsa_media_servers sample_loads "add" (Some "media01")
                    (Some 15401%Z) (Some ip_text) None None)
               (answering (JObj media_refused)))
        = Ret text
        /\ (truthy (field "valid" (JBool false) media_refused) = false ->
            starts_with "❌" text = true)
        /\ (truthy (field "valid" (JBool false) media_refused) = true ->
            text = json_dumps (JObj media_refused)))
  /\ exists text : string,
       run delete_disk_file_systems (answering (JObj deleted_but_invalid))
       = (Ret text, [delete_all_request])
       /\ (opt_eq_str (lookup "status" deleted_but_invalid)
             "DELETE_COMPONENT_SUCCESSFUL" = true ->
           text
           = join_lines
               ["🗂️ DSA Disk File System Deletion";
                rule;
                "✅ All disk file systems deleted successfully";
                "📊 Status: DELETE_COMPONENT_SUCCESSFUL";
                "✔️ Valid: "
                ++ str (field "valid" (JBool false) deleted_but_invalid);
                "";
                rule;
                "✅ Disk file system deletion operation completed"])
       /\ (opt_eq_str (lookup "status" deleted_but_invalid)
             "DELETE_COMPONENT_SUCCESSFUL" = false ->
           contains "❌ Failed to delete disk file systems" text = true
           \/ starts_with "❌ Error deleting disk file systems" text = true).
Proof.
  split; [|split; [|split]].
  - apply (proj1 C2_reported_outcome_follows_status
             (serving [fs_a; fs_b] (JObj accepted_but_invalid)) "/backup/a" 9%Z
             fetch (write [JObj (new_item "/backup/a" 9); JObj fs_b])
             accepted_but_invalid);
      reflexivity.
  - apply (proj1 (proj2 (proj2 C2_reported_outcome_follows_status))
             (answering s3_rejected) "AKIAEXAMPLE" "secret" regions
             "tdedsabucket01" "backup-account" s3_rejected);
      reflexivity.
  - apply (proj1 (proj2 (proj2 (proj2 C2_reported_outcome_follows_status)))
             sample_loads (answering (JObj media_refused)) "add"
             (Some "media01") (Some 15401%Z) (Some ip_text) None None
             (add_request "media01" 15401 ip_value) media_refused);
      [now left|reflexivity|reflexivity].
  - apply (proj2 (proj2 (proj2 (proj2 C2_reported_outcome_follows_status)))
             (answering (JObj deleted_but_invalid)) deleted_but_invalid).
    reflexivity.
Defined.

(** Replies that carry [valid: false] and are reported as success: the
    disk-file-system writes with their success status, and the S3 write with
    any reply. *)
Lemma C2_counterexample :
  lookup "valid" accepted_but_invalid = Some (JBool false)
  /\ fst (run (config_disk_file_system "/backup/a" 9)
            (serving [fs_a; fs_b] (JObj accepted_but_invalid)))
     = Ret (join_lines
              (config_header "/backup/a" "9" 2 true
               +++ ["✅ Disk file system configured successfully";
                    "📊 Status: CONFIG_DISK_FILE_SYSTEM_SUCCESSFUL";
                    "✔️ Valid: False"]
               +++ config_footer))
  /\ fst (run (manage_AWS_S3_backup_configurations "config" (Some "AKIAEXAMPLE")
                (Some "secret") (Some regions) (Some "tdedsabucket01")
                (Some "backup-account")) (answering s3_rejected))
     = Ret ("✅ AWS backup solution configuration operation completed"
            ++ nl
            ++ "Response: {'status': 'CONFIG_AWS_APP_FAILED', 'valid': False}")
  /\ lookup "valid" deleted_but_invalid = Some (JBool false)
  /\ fst (run delete_disk_file_systems (answering (JObj deleted_but_invalid)))
     = Ret (join_lines
              ["🗂️ DSA Disk File System Deletion";
               rule;
               "✅ All disk file systems deleted successfully";
               "📊 Status: DELETE_COMPONENT_SUCCESSFUL";
               "✔️ Valid: False";
               "";
               rule;
               "✅ Disk file system deletion operation completed"]).
Proof. repeat split. Qed.

(** ** C1 *)

(** C1, as the code has it.  When the fetch before the mutation fails (the
    client raises, or the reply is not a listing with the success status),
    [remove_disk_file_system] stops: it returns the fetch error and issues no
    write.  [config_disk_file_system] goes on with an empty collection: for
    a [max_files] it can format (an [int] of at most 4300 digits) it issues
    one write, whose collection holds the candidate alone. *)
Theorem C1_failed_fetch_stops_remove_not_config
    (c : Client) (path : string) (n : Z) :
  printable_int n = true ->
  fetch_failed (c [] fetch) = true ->
  (exists text : string,
      run (remove_disk_file_system path) c = (Ret text, [fetch])
      /\ match c [] fetch with
         | Raise e => text = "❌ Error retrieving existing file systems: " ++ e
         | Ret (JObj _) =>
             text = "❌ Could not retrieve existing file systems to remove '"
                    ++ path ++ "'"
         | Ret v =>
             text = "❌ Error retrieving existing file systems: '"
                    ++ type_name v ++ "' object has no attribute 'get'"
         end)
  /\ snd (run (config_disk_file_system path n) c)
     = [fetch; write [JObj (new_item path n)]].
Proof.
  intros Hn Hfailed. rewrite run_remove, (run_config _ _ _ Hn).
  unfold remove_after_fetch, existing_after_fetch.
  destruct (c [] fetch) as [[| | | | |d]|e]; cbn [bindE get type_name];
    try (split; [eexists; split; reflexivity|reflexivity]).
  cbn [fetch_failed] in Hfailed. apply negb_true_iff in Hfailed.
  rewrite Hfailed.
  split; [eexists; split; reflexivity|reflexivity].
Qed.

Lemma C1_witness :
  (exists text : string,
      run (remove_disk_file_system "/backup/a") (unreachable_for_reads configured)
      = (Ret text, [fetch])
      /\ text = "❌ Error retrieving existing file systems: "
                ++ "Connection refused")
  /\ snd (run (config_disk_file_system "/backup/a" 9)
            (unreachable_for_reads configured))
     = [fetch; write [JObj (new_item "/backup/a" 9)]].
Proof.
  apply (C1_failed_fetch_stops_remove_not_config
           (unreachable_for_reads configured) "/backup/a" 9);
    reflexivity.
Defined.

(** The fetch fails and [config_disk_file_system] still writes: once with a
    transport failure, once with a failure status in the listing. *)
Lemma C1_counterexample :
  run (config_disk_file_system "/backup/c" 5) (unreachable_for_reads configured)
  = (Ret (join_lines
            (config_header "/backup/c" "5" 1 false
             +++ ["✅ Disk file system configured successfully";
                  "📊 Status: CONFIG_DISK_FILE_SYSTEM_SUCCESSFUL";
                  "✔️ Valid: True"]
             +++ config_footer)),
     [fetch; POST DISK_FILE_SYSTEM
               (JObj [("fileSystems", JList [JObj (new_item "/backup/c" 5)])])])
  /\ snd (run (config_disk_file_system "/backup/c" 5) (listing_refused configured))
     = [fetch; POST DISK_FILE_SYSTEM
                 (JObj [("fileSystems", JList [JObj (new_item "/backup/c" 5)])])].
Proof. split; reflexivity. Qed.

(** ** C8 *)

(** C8, as the code has it.  The S3 entry point answers [remove] and
    [delete_all] with its not-implemented text and issues no request.  The
    media-server entry point implements its removal: [delete] with a server
    name issues one DELETE request for that server, and the text returned is
    made from the service's reply. *)
Theorem C8_s3_removal_is_a_placeholder_media_delete_is_not :
  (forall (c : Client) (accessId accessKey : option string)
          (bucketsByRegion : option json) (bucketName acctName : option string),
      run (manage_AWS_S3_backup_configurations "remove" accessId accessKey
             bucketsByRegion bucketName acctName) c
      = (Ret "❌ Error: 'remove' operation is not implemented yet for AWS S3 Configuration",
         [])
      /\ run (manage_AWS_S3_backup_configurations "delete_all" accessId accessKey
                bucketsByRegion bucketName acctName) c
         = (Ret "❌ Error: 'delete_all' operation is not implemented yet for AWS S3 Configuration",
            []))
  /\ (forall (json_loads : string -> Loaded) (c : Client) (ch : ascii)
             (rest : string) (port : option Z) (ip_addresses : option string)
             (pool_shared_pipes : option Z) (virtual : option bool),
        let server_name := String ch rest in
        let request :=
          delete_request server_name
            (match virtual with Some b => b | None => false end) in
        run (manage_dsa_media_servers json_loads "delete" (Some server_name)
               port ip_addresses pool_shared_pipes virtual) c
        = (Ret (text_or
                  (fun e => "❌ Error deleting media server '" ++ server_name
                            ++ "': " ++ e)
                  (response <- c [] request ;;
                   media_report
                     ("❌ Failed to delete media server '" ++ server_name ++ "'")
                     response)%exc),
           [request])).
Proof.
  split.
  - intros. split; reflexivity.
  - intros json_loads c ch rest port ip_addresses pool_shared_pipes virtual
      server_name request.
    subst request server_name.
    unfold run, manage_dsa_media_servers.
    cbn [is_valid_operation valid_operations existsb String.eqb Ascii.eqb
         Bool.eqb negb orb andb].
    unfold given. change (String ch rest =? "") with false. cbn iota.
    unfold try_except at 1. now rewrite run_delete_media_server.
Qed.

(** The media-server [delete] reaches the service. *)
Lemma C8_counterexample :
  run (manage_dsa_media_servers sample_loads "delete" (Some "media01") None
         None (Some 50%Z) (Some false)) (answering media_done)
  = (Ret (json_dumps media_done),
     [mkRequest "DELETE" "dsa/components/mediaservers/media01" None
        (Some (JObj [])) None]).
Proof. reflexivity. Qed.

(** ** C9 *)



(** The same call of the handler, run on a sample service. *)
Example s3_handler_ignores_bucket_name :
  run (handle_bar_manageAWSS3Operations (string * json) pair "config"
         (Some "AKIAEXAMPLE") (Some "secret") (Some regions)
         (Some "another-bucket") (Some "backup-account"))
    (answering s3_rejected)
  = (Ret ("✅ AWS backup solution configuration operation completed"
          ++ nl
          ++ "Response: {'status': 'CONFIG_AWS_APP_FAILED', 'valid': False}",
          s3_metadata "config" (Some "AKIAEXAMPLE") (Some "secret")
            (Some regions) (Some "another-bucket") (Some "backup-account")),
     [POST AWS_S3
        (s3_request_data "AKIAEXAMPLE" "secret" regions "tdedsabucket01"
           "backup-account")]).
Proof. reflexivity. Qed.

(** ** C10 *)

(** C10.  For the media-server [add] operation every request issued is a POST
    whose payload has exactly the fields [serverName], [port] and [ipInfo],
    and two calls that differ in [pool_shared_pipes] alone issue the same
    requests and return the same text. *)
Theorem C10_pool_shared_pipes_has_no_effect
    (json_loads : string -> Loaded) (c : Client)
    (server_name : option string) (port : option Z)
    (ip_addresses : option string) (pipes1 pipes2 : option Z)
    (virtual : option bool) :
  run (manage_dsa_media_servers json_loads "add" server_name port ip_addresses
         pipes1 virtual) c
  = run (manage_dsa_media_servers json_loads "add" server_name port ip_addresses
           pipes2 virtual) c
  /\ forall r : Request,
       In r (snd (run (manage_dsa_media_servers json_loads "add" server_name
                         port ip_addresses pipes1 virtual) c)) ->
       exists payload : dict,
         r = mkRequest "POST" MEDIA_SERVERS (Some (JObj payload)) None
               (Some add_headers)
         /\ map fst payload = ["serverName"; "port"; "ipInfo"].
Proof.
  split; [reflexivity|].
  intros r.
  unfold run, manage_dsa_media_servers, try_except.
  cbn [is_valid_operation valid_operations existsb String.eqb Ascii.eqb
       Bool.eqb negb orb andb].
  destruct (given server_name) as [name|]; [|intros []].
  destruct (given_int port) as [p|]; [|intros []].
  destruct (given ip_addresses) as [ips|]; [|intros []].
  destruct (json_loads ips) as [ip_list|e|e]; [|intros []|intros []].
  unfold _add_media_server, try_except, bind, make_request, lift, ret.
  destruct ((name =? "") || (strip name =? "")); [intros []|].
  destruct (negb ((1 <=? p)%Z && (p <=? 65535)%Z)); [intros []|].
  destruct ip_list as [| | | |[|ip_info ip_infos]|]; try (intros []).
  destruct (negb (forallb well_formed_ip_info (ip_info :: ip_infos)));
    [intros []|].
  cbn [app].
  destruct (c [] _) as [response|e]; cbn [fst snd].
  - destruct (media_report _ response); cbn [snd In]; intros [<-|[]];
      eexists; split; reflexivity.
  - cbn [In]. intros [<-|[]]. eexists; split; reflexivity.
Qed.

(** The handler hands [pool_shared_pipes] to the entry point and to nothing
    else, so the argument has no effect there either, whatever the
    operation. *)
Corollary media_handler_ignores_pool_shared_pipes
    (ResponseType : Type) (create_response : string -> json -> ResponseType)
    (json_loads : string -> Loaded) (c : Client) (operation : string)
    (server_name : option string) (port : option Z)
    (ip_addresses : option string) (pipes1 pipes2 : option Z)
    (virtual : option bool) :
  run (handle_bar_manageMediaServer ResponseType create_response json_loads
         operation server_name port ip_addresses pipes1 virtual) c
  = run (handle_bar_manageMediaServer ResponseType create_response json_loads
           operation server_name port ip_addresses pipes2 virtual) c.
Proof. reflexivity. Qed.

(** An [add] on a sample service: the request and the text. *)
Example media_add_request :
  run (manage_dsa_media_servers sample_loads "add" (Some " media01 ")
         (Some 15401%Z) (Some ip_text) (Some 7%Z) None)
    (answering media_done)
  = (Ret (json_dumps media_done),
     [mkRequest "POST" "dsa/components/mediaservers"
        (Some (JObj [("serverName", JStr "media01");
                     ("port", JInt 15401);
                     ("ipInfo", ip_value)]))
        None (Some add_headers)]).
Proof. reflexivity. Qed.

End Claims.

(* ================================================================== *)
(** * Further properties of the module *)
(* ================================================================== *)

Module Coverage.
Import Py Dsa BarTools Spec Examples Facts.

(** ** Operation names and arguments at the entry points *)

Lemma not_in_eqb (operation : string) (names : list string) :
  ~ In operation names -> existsb (String.eqb operation) names = false.
Proof.
  intros H. destruct (existsb (String.eqb operation) names) eqn:E;
    [|reflexivity].
  apply existsb_exists in E. destruct E as (x & Hin & Hx).
  apply String.eqb_eq in Hx. subst. contradiction.
Qed.

(** X1.  The disk-file-system and the S3 entry points answer an operation
    name outside [list], [config], [delete_all], [remove] with a text that
    lists these four names, and issue no request. *)
Theorem X1_unknown_operation_disk_s3
    (c : Client) (operation : string) (file_system_path : option string)
    (max_files : option Z) (accessId accessKey : option string)
    (bucketsByRegion : option json) (bucketName acctName : option string) :
  ~ In operation ["list"; "config"; "delete_all"; "remove"] ->
  run (manage_dsa_disk_file_systems operation file_system_path max_files) c
  = (Ret ("❌ Error: Unknown operation '" ++ operation
          ++ "'. Available operations: list, config, delete_all, remove"),
     [])
  /\ run (manage_AWS_S3_backup_configurations operation accessId accessKey
            bucketsByRegion bucketName acctName) c
     = (Ret ("❌ Error: Unknown operation '" ++ operation
             ++ "'. Available operations: list, config, delete_all, remove"),
        []).
Proof.
  intros H. apply not_in_eqb in H.
  destruct (unknown_operation_rejected (fun _ => JSONDecodeError "") c operation)
    as [Hdisk _].
  destruct (Hdisk H) as [Hd Hs]. split; [apply Hd|apply Hs].
Qed.

Lemma X1_witness :
  run (manage_dsa_disk_file_systems "purge" (Some "/backup/a") None)
    (serving [fs_a] configured)
  = (Ret ("❌ Error: Unknown operation '" ++ "purge"
          ++ "'. Available operations: list, config, delete_all, remove"),
     [])
  /\ run (manage_AWS_S3_backup_configurations "purge" None None None None None)
       (serving [fs_a] configured)
     = (Ret ("❌ Error: Unknown operation '" ++ "purge"
             ++ "'. Available operations: list, config, delete_all, remove"),
        []).
Proof.
  apply (X1_unknown_operation_disk_s3 (serving [fs_a] configured) "purge").
  cbn. intuition discriminate.
Defined.

(** X2.  The media-server entry point answers an operation name outside its
    six with a text that lists the six names, and issues no request.  So
    does its handler, which flags the response [success: false], when it can
    format the port it logs first (an [int] of at most 4300 digits, or
    none). *)
Theorem X2_unknown_operation_media
    (ResponseType : Type) (create_response : string -> json -> ResponseType)
    (json_loads : string -> Loaded) (c : Client) (operation : string)
    (server_name : option string) (port : option Z)
    (ip_addresses : option string) (pool_shared_pipes : option Z)
    (virtual : option bool) :
  ~ In operation ["list"; "get"; "add"; "delete"; "list_consumers";
                  "list_consumers_by_server"] ->
  let text :=
    "❌ Invalid operation '" ++ operation
    ++ "'. Valid operations: list, get, add, delete, list_consumers, list_consumers_by_server" in
  run (manage_dsa_media_servers json_loads operation server_name port
         ip_addresses pool_shared_pipes virtual) c
  = (Ret text, [])
  /\ (printable (of_opt_int port) = true ->
      run (handle_bar_manageMediaServer ResponseType create_response
             json_loads operation server_name port ip_addresses
             pool_shared_pipes virtual) c
      = (Ret (create_response text (invalid_operation_metadata operation)),
         [])).
Proof.
  intros H text. apply not_in_eqb in H. split.
  - unfold run, manage_dsa_media_servers, is_valid_operation,
      valid_operations.
    now rewrite H.
  - intros Hport. rewrite (run_media_handler _ _ _ _ _ _ _ _ _ _ Hport).
    unfold is_valid_operation, valid_operations. now rewrite H.
Qed.

Lemma X2_witness :
  run (manage_dsa_media_servers sample_loads "remove" (Some "media01") None
         None None None) (answering media_done)
  = (Ret ("❌ Invalid operation '" ++ "remove"
          ++ "'. Valid operations: list, get, add, delete, list_consumers, list_consumers_by_server"),
     [])
  /\ run (handle_bar_manageMediaServer (string * json) pair sample_loads
            "remove" (Some "media01") None None None None) (answering media_done)
     = (Ret ("❌ Invalid operation '" ++ "remove"
             ++ "'. Valid operations: list, get, add, delete, list_consumers, list_consumers_by_server",
             invalid_operation_metadata "remove"),
        []).
Proof.
  destruct (X2_unknown_operation_media (string * json) pair sample_loads
              (answering media_done) "remove" (Some "media01") None None None
              None) as [Hentry Hhandler].
  - cbn. intuition discriminate.
  - split; [exact Hentry|apply Hhandler; reflexivity].
Defined.

(** X3.  The disk-file-system entry point refuses [config] and [remove]
    without a request when the path is missing or empty, and [config] when
    [max_files] is missing.  It checks no bound: with a path, every integer
    [max_files], zero and the negative ones included, reaches
    [config_disk_file_system] as given. *)
Theorem X3_disk_arguments_checked
    (c : Client) (ch : ascii) (rest : string) (n : Z) (max_files : option Z) :
  let path := String ch rest in
  run (manage_dsa_disk_file_systems "config" None max_files) c
  = (Ret "❌ Error: file_system_path is required for config operation", [])
  /\ run (manage_dsa_disk_file_systems "config" (Some "") max_files) c
     = (Ret "❌ Error: file_system_path is required for config operation", [])
  /\ run (manage_dsa_disk_file_systems "config" (Some path) None) c
     = (Ret "❌ Error: max_files is required for config operation", [])
  /\ run (manage_dsa_disk_file_systems "remove" None max_files) c
     = (Ret "❌ Error: file_system_path is required for remove operation", [])
  /\ run (manage_dsa_disk_file_systems "remove" (Some "") max_files) c
     = (Ret "❌ Error: file_system_path is required for remove operation", [])
  /\ run (manage_dsa_disk_file_systems "config" (Some path) (Some n)) c
     = run (config_disk_file_system path n) c
  /\ run (manage_dsa_disk_file_systems "remove" (Some path) max_files) c
     = run (remove_disk_file_system path) c.
Proof.
  intros path. repeat split; try reflexivity.
  - apply manage_config.
  - apply manage_remove.
Qed.

(** X4.  The S3 [config] operation issues no request when one of its five
    arguments is missing or empty: it returns the text that names a missing
    argument. *)
Theorem X4_s3_config_needs_every_argument
    (c : Client) (accessId accessKey : option string)
    (bucketsByRegion : option json) (bucketName acctName : option string) :
  (exists field,
      s3_missing accessId accessKey bucketsByRegion bucketName acctName field) ->
  exists field,
    s3_missing accessId accessKey bucketsByRegion bucketName acctName field
    /\ run (manage_AWS_S3_backup_configurations "config" accessId accessKey
              bucketsByRegion bucketName acctName) c
       = (Ret ("❌ Error: " ++ field ++ " is required for config operation"),
          []).
Proof.
  intros (field0 & Hmissing).
  unfold run, manage_AWS_S3_backup_configurations, try_except, s3_missing in *.
  cbn [String.eqb Ascii.eqb Bool.eqb].
  destruct (given accessId) as [a|] eqn:Ea;
    [|exists "accessId"; split; [tauto|reflexivity]].
  destruct (given accessKey) as [k|] eqn:Ek;
    [|exists "accessKey"; split; [tauto|reflexivity]].
  destruct (given_object bucketsByRegion) as [b|] eqn:Eb;
    [|exists "bucketsByRegion"; split; [tauto|reflexivity]].
  destruct (given acctName) as [acct|] eqn:Eacct;
    [|exists "acctName"; split; [tauto|reflexivity]].
  destruct (given bucketName) as [name|] eqn:Ename;
    [|exists "bucketName"; split; [tauto|reflexivity]].
  exfalso. intuition discriminate.
Qed.

Lemma X4_witness :
  exists field,
    s3_missing (Some "AKIAEXAMPLE") (Some "") (Some regions) None
      (Some "backup-account") field
    /\ run (manage_AWS_S3_backup_configurations "config" (Some "AKIAEXAMPLE")
              (Some "") (Some regions) None (Some "backup-account"))
         (answering s3_rejected)
       = (Ret ("❌ Error: " ++ field ++ " is required for config operation"),
          []).
Proof.
  apply (X4_s3_config_needs_every_argument (answering s3_rejected)).
  exists "accessKey". right. left. split; reflexivity.
Defined.

(** X5.  The media-server operations that take a server name ([get], [add],
    [delete], [list_consumers_by_server]) refuse a missing or empty name
    with a text that names the operation, and issue no request. *)
Theorem X5_media_server_name_required
    (json_loads : string -> Loaded) (c : Client) (operation : string)
    (server_name : option string) (port : option Z)
    (ip_addresses : option string) (pool_shared_pipes : option Z)
    (virtual : option bool) :
  In operation ["get"; "add"; "delete"; "list_consumers_by_server"] ->
  given server_name = None ->
  run (manage_dsa_media_servers json_loads operation server_name port
         ip_addresses pool_shared_pipes virtual) c
  = (Ret ("❌ server_name is required for '" ++ operation ++ "' operation"),
     []).
Proof.
  intros Hop Hname.
  unfold run, manage_dsa_media_servers, try_except.
  cbn [In] in Hop.
  destruct Hop as [<-|[<-|[<-|[<-|[]]]]];
    cbn [is_valid_operation valid_operations existsb String.eqb Ascii.eqb
         Bool.eqb negb orb andb];
    rewrite Hname; reflexivity.
Qed.

Lemma X5_witness :
  run (manage_dsa_media_servers sample_loads "delete" (Some "") None None None
         (Some true)) (answering media_done)
  = (Ret ("❌ server_name is required for '" ++ "delete" ++ "' operation"), []).
Proof.
  apply (X5_media_server_name_required sample_loads (answering media_done)
           "delete" (Some "")).
  - cbn. tauto.
  - reflexivity.
Defined.

(** ** Adding a media server *)

Lemma add_media_server_returns (server_name : string) (port : Z)
    (ip_list : json) (pool_shared_pipes : Z) (c : Client) (t : list Request) :
  exists text,
    fst (_add_media_server server_name port ip_list pool_shared_pipes c t)
    = Ret text.
Proof.
  destruct (run_add_media_server server_name port ip_list pool_shared_pipes c t)
    as [[text ->]| ->]; eexists; reflexivity.
Qed.

(** With its three arguments given and the address text decoded, [add] is
    [_add_media_server]. *)
Lemma manage_add (json_loads : string -> Loaded) (c : Client)
    (server_name : option string) (port : option Z)
    (ip_addresses : option string) (pool_shared_pipes : option Z)
    (virtual : option bool) (name : string) (p : Z) (text : string)
    (ip_list : json) :
  given server_name = Some name -> given_int port = Some p ->
  given ip_addresses = Some text -> json_loads text = Decoded ip_list ->
  run (manage_dsa_media_servers json_loads "add" server_name port ip_addresses
         pool_shared_pipes virtual) c
  = _add_media_server name p ip_list (pipes_or_50 pool_shared_pipes) c [].
Proof.
  intros Hn Hp Hi Hl.
  unfold run, manage_dsa_media_servers.
  cbn [is_valid_operation valid_operations existsb String.eqb Ascii.eqb
       Bool.eqb negb orb andb].
  rewrite Hn, Hp, Hi, Hl.
  destruct (add_media_server_returns name p ip_list
              (pipes_or_50 pool_shared_pipes) c []) as [a Ha].
  now apply (try_except_returned _ _ _ _ a).
Qed.

Lemma given_not_empty (s : option string) (x : string) :
  given s = Some x -> s = Some x /\ x <> "".
Proof.
  destruct s as [y|]; cbn; [|discriminate].
  destruct (y =? "") eqn:E; [discriminate|].
  intros [= <-]. split; [reflexivity|].
  intros ->. discriminate E.
Qed.

Lemma given_int_not_zero (z : option Z) (x : Z) :
  given_int z = Some x -> z = Some x /\ x <> 0%Z.
Proof.
  destruct z as [y|]; cbn; [|discriminate].
  destruct (y =? 0)%Z eqn:E; [discriminate|].
  intros [= <-]. split; [reflexivity|]. now apply Z.eqb_neq.
Qed.

Lemma well_formed_ip_info_spec (ip_info : json) :
  well_formed_ip_info ip_info = true ->
  exists d, ip_info = JObj d
            /\ has_key d "ipAddress" = true /\ has_key d "netmask" = true.
Proof.
  destruct ip_info as [| | | | |d]; cbn; try discriminate.
  intros H. apply andb_true_iff in H. now exists d.
Qed.

(** X6.  Whatever [add] sends to the service has passed its checks: the
    request is the POST of a payload whose [serverName] is the stripped name
    and is not empty, whose [port] lies between 1 and 65535, and whose
    [ipInfo] is the decoded address text, a non-empty list of objects that
    each carry [ipAddress] and [netmask]. *)
Theorem X6_add_sends_only_checked_values
    (json_loads : string -> Loaded) (c : Client)
    (server_name : option string) (port : option Z)
    (ip_addresses : option string) (pool_shared_pipes : option Z)
    (virtual : option bool) (r : Request) :
  In r (snd (run (manage_dsa_media_servers json_loads "add" server_name port
                    ip_addresses pool_shared_pipes virtual) c)) ->
  exists (name : string) (p : Z) (text : string) (ip_info : json)
         (ip_infos : list json),
    server_name = Some name /\ port = Some p /\ ip_addresses = Some text
    /\ json_loads text = Decoded (JList (ip_info :: ip_infos))
    /\ r = mkRequest "POST" MEDIA_SERVERS
             (Some (JObj [("serverName", JStr (strip name));
                          ("port", JInt p);
                          ("ipInfo", JList (ip_info :: ip_infos))]))
             None (Some add_headers)
    /\ strip name <> ""
    /\ (1 <= p <= 65535)%Z
    /\ Forall (fun i => exists d, i = JObj d
                                  /\ has_key d "ipAddress" = true
                                  /\ has_key d "netmask" = true)
         (ip_info :: ip_infos).
Proof.
  unfold run, manage_dsa_media_servers, try_except.
  cbn [is_valid_operation valid_operations existsb String.eqb Ascii.eqb
       Bool.eqb negb orb andb].
  destruct (given server_name) as [name|] eqn:En; [|intros []].
  destruct (given_int port) as [p|] eqn:Ep; [|intros []].
  destruct (given ip_addresses) as [text|] eqn:Ei; [|intros []].
  destruct (json_loads text) as [ip_list|e|e] eqn:El; [|intros []|intros []].
  apply given_not_empty in En. destruct En as [-> _].
  apply given_int_not_zero in Ep. destruct Ep as [-> _].
  apply given_not_empty in Ei. destruct Ei as [-> _].
  unfold _add_media_server, try_except, bind, make_request, lift, ret.
  destruct ((name =? "") || (strip name =? "")) eqn:Ename; [intros []|].
  destruct (negb ((1 <=? p)%Z && (p <=? 65535)%Z)) eqn:Eport; [intros []|].
  destruct ip_list as [| | | |[|ip_info ip_infos]|]; try (intros []).
  destruct (negb (forallb well_formed_ip_info (ip_info :: ip_infos)))
    eqn:Einfo; [intros []|].
  cbn [app]. intros Hin.
  assert (Hr : r = mkRequest "POST" MEDIA_SERVERS
                     (Some (add_payload name p (JList (ip_info :: ip_infos))))
                     None (Some add_headers)).
  { destruct (c [] _) as [response|e]; cbn [fst snd] in Hin.
    - destruct (media_report _ response); cbn [snd In] in Hin;
        destruct Hin as [<-|[]]; reflexivity.
    - cbn [In] in Hin. destruct Hin as [<-|[]]. reflexivity. }
  exists name, p, text, ip_info, ip_infos.
  repeat (split; [reflexivity|]).
  split; [exact El|]. split; [exact Hr|].
  apply orb_false_iff in Ename. destruct Ename as [_ Hstrip].
  apply negb_false_iff, andb_true_iff in Eport. destruct Eport as [Hlo Hhi].
  apply negb_false_iff in Einfo.
  split; [intros H; rewrite H in Hstrip; discriminate Hstrip|].
  split; [split; [now apply Z.leb_le|now apply Z.leb_le]|].
  apply Forall_forall. intros i Hi.
  apply well_formed_ip_info_spec.
  rewrite forallb_forall in Einfo. now apply Einfo.
Qed.

Lemma X6_witness :
  exists (name : string) (p : Z) (text : string) (ip_info : json)
         (ip_infos : list json),
    Some " media01 " = Some name /\ Some 15401%Z = Some p
    /\ Some ip_text = Some text
    /\ sample_loads text = Decoded (JList (ip_info :: ip_infos))
    /\ add_request " media01 " 15401 ip_value
       = mkRequest "POST" MEDIA_SERVERS
           (Some (JObj [("serverName", JStr (strip name));
                        ("port", JInt p);
                        ("ipInfo", JList (ip_info :: ip_infos))]))
           None (Some add_headers)
    /\ strip name <> ""
    /\ (1 <= p <= 65535)%Z
    /\ Forall (fun i => exists d, i = JObj d
                                  /\ has_key d "ipAddress" = true
                                  /\ has_key d "netmask" = true)
         (ip_info :: ip_infos).
Proof.
  apply (X6_add_sends_only_checked_values sample_loads (answering media_done)
           (Some " media01 ") (Some 15401%Z) (Some ip_text) (Some 7%Z) None
           (add_request " media01 " 15401 ip_value)).
  left. reflexivity.
Defined.

(** X7.  With a server name given, [add] refuses without a request, in this
    order: a missing or zero port; a missing or empty address text; a text
    that is not JSON; a name of white space only; a port outside 1..65535;
    a decoded value that is not a non-empty list; an address that is not an
    object with [ipAddress] and [netmask]. *)
Theorem X7_add_refusals
    (json_loads : string -> Loaded) (c : Client)
    (server_name : option string) (port : option Z)
    (ip_addresses : option string) (pool_shared_pipes : option Z)
    (virtual : option bool) (name : string) :
  given server_name = Some name ->
  let outcome :=
    run (manage_dsa_media_servers json_loads "add" server_name port
           ip_addresses pool_shared_pipes virtual) c in
  (given_int port = None ->
   outcome = (Ret "❌ port is required for 'add' operation", []))
  /\ forall p : Z,
       given_int port = Some p ->
       (given ip_addresses = None ->
        outcome = (Ret "❌ ip_addresses is required for 'add' operation", []))
       /\ forall text : string,
            given ip_addresses = Some text ->
            (forall e,
                json_loads text = JSONDecodeError e ->
                outcome
                = (Ret ("❌ Invalid IP addresses format: " ++ e ++ nl
                        ++ "Expected JSON format: " ++ expected_ip_format),
                   []))
            /\ forall ip_list : json,
                 json_loads text = Decoded ip_list ->
                 (strip name = "" ->
                  outcome
                  = (Ret "❌ Server name is required and cannot be empty", []))
                 /\ (strip name <> "" -> ~ (1 <= p <= 65535)%Z ->
                     outcome = (Ret "❌ Port must be between 1 and 65535", []))
                 /\ (strip name <> "" -> (1 <= p <= 65535)%Z ->
                     (forall i l, ip_list <> JList (i :: l)) ->
                     outcome
                     = (Ret "❌ At least one IP address is required", []))
                 /\ (strip name <> "" -> (1 <= p <= 65535)%Z ->
                     forall i l,
                       ip_list = JList (i :: l) ->
                       forallb well_formed_ip_info (i :: l) = false ->
                       outcome
                       = (Ret "❌ Each IP address must be a dictionary with 'ipAddress' and 'netmask' keys",
                          [])).
Proof.
  intros Hn outcome. subst outcome. split; [|intros p Hp; split;
    [|intros text Hi; split; [|intros ip_list Hl]]].
  - intros Hp. unfold run, manage_dsa_media_servers, try_except.
    cbn [is_valid_operation valid_operations existsb String.eqb Ascii.eqb
         Bool.eqb negb orb andb].
    now rewrite Hn, Hp.
  - intros Hi. unfold run, manage_dsa_media_servers, try_except.
    cbn [is_valid_operation valid_operations existsb String.eqb Ascii.eqb
         Bool.eqb negb orb andb].
    now rewrite Hn, Hp, Hi.
  - intros e Hl. unfold run, manage_dsa_media_servers, try_except.
    cbn [is_valid_operation valid_operations existsb String.eqb Ascii.eqb
         Bool.eqb negb orb andb].
    now rewrite Hn, Hp, Hi, Hl.
  - rewrite (manage_add _ _ _ _ _ _ _ _ _ _ _ Hn Hp Hi Hl).
    unfold _add_media_server, try_except.
    assert (Hname : (name =? "") = false).
    { apply given_not_empty in Hn. destruct Hn as [_ Hne].
      now apply String.eqb_neq. }
    rewrite Hname. cbn [orb].
    split; [intros ->; reflexivity|].
    assert (Hstrip : strip name <> "" -> (strip name =? "") = false)
      by (intros H; now apply String.eqb_neq).
    split; [|split].
    + intros Hs Hrange. rewrite (Hstrip Hs).
      assert (Hp' : (1 <=? p)%Z && (p <=? 65535)%Z = false).
      { apply andb_false_iff.
        destruct (1 <=? p)%Z eqn:E1; [right|now left].
        apply Z.leb_le in E1. apply Z.leb_gt. lia. }
      now rewrite Hp'.
    + intros Hs Hrange Hlist. rewrite (Hstrip Hs).
      assert (Hp' : (1 <=? p)%Z && (p <=? 65535)%Z = true)
        by (apply andb_true_iff; split; apply Z.leb_le; lia).
      rewrite Hp'. cbn [negb].
      destruct ip_list as [| | | |[|i l]|]; try reflexivity.
      exfalso. now apply (Hlist i l).
    + intros Hs Hrange i l -> Hbad. rewrite (Hstrip Hs).
      assert (Hp' : (1 <=? p)%Z && (p <=? 65535)%Z = true)
        by (apply andb_true_iff; split; apply Z.leb_le; lia).
      rewrite Hp'. cbn [negb]. now rewrite Hbad.
Qed.

Lemma X7_witness :
  let outcome :=
    run (manage_dsa_media_servers sample_loads "add" (Some "media01")
           (Some 70000%Z) (Some ip_text) None None) (answering media_done) in
  (given_int (Some 70000%Z) = None ->
   outcome = (Ret "❌ port is required for 'add' operation", []))
  /\ forall p : Z,
       given_int (Some 70000%Z) = Some p ->
       (given (Some ip_text) = None ->
        outcome = (Ret "❌ ip_addresses is required for 'add' operation", []))
       /\ forall text : string,
            given (Some ip_text) = Some text ->
            (forall e,
                sample_loads text = JSONDecodeError e ->
                outcome
                = (Ret ("❌ Invalid IP addresses format: " ++ e ++ nl
                        ++ "Expected JSON format: " ++ expected_ip_format),
                   []))
            /\ forall ip_list : json,
                 sample_loads text = Decoded ip_list ->
                 (strip "media01" = "" ->
                  outcome
                  = (Ret "❌ Server name is required and cannot be empty", []))
                 /\ (strip "media01" <> "" -> ~ (1 <= p <= 65535)%Z ->
                     outcome = (Ret "❌ Port must be between 1 and 65535", []))
                 /\ (strip "media01" <> "" -> (1 <= p <= 65535)%Z ->
                     (forall i l, ip_list <> JList (i :: l)) ->
                     outcome
                     = (Ret "❌ At least one IP address is required", []))
                 /\ (strip "media01" <> "" -> (1 <= p <= 65535)%Z ->
                     forall i l,
                       ip_list = JList (i :: l) ->
                       forallb well_formed_ip_info (i :: l) = false ->
                       outcome
                       = (Ret "❌ Each IP address must be a dictionary with 'ipAddress' and 'netmask' keys",
                          [])).
Proof.
  apply (X7_add_refusals sample_loads (answering media_done) (Some "media01")
           (Some 70000%Z) (Some ip_text) None None "media01").
  reflexivity.
Defined.

(** A port above the range, on a sample service. *)
Example add_port_out_of_range :
  run (manage_dsa_media_servers sample_loads "add" (Some "media01")
         (Some 70000%Z) (Some ip_text) None None) (answering media_done)
  = (Ret "❌ Port must be between 1 and 65535", []).
Proof. reflexivity. Qed.

(** ** One request, reported on *)

Lemma try_except_run_ret {A : Type} (m : Op A) (handler : string -> Op A)
    (c : Client) (t : list Request) (a : A) (t' : list Request) :
  m c t = (Ret a, t') -> try_except m handler c t = (Ret a, t').
Proof. intros H. unfold try_except. now rewrite H. Qed.

Lemma run_list_disk (c : Client) (t : list Request) :
  list_disk_file_systems c t
  = (Ret (text_or (fun e => "❌ Error listing disk file systems: " ++ e)
            (response <- c t (GET DISK_FILE_SYSTEM) ;;
             list_disk_report response)%exc),
     t +++ [GET DISK_FILE_SYSTEM]).
Proof. unfold list_disk_file_systems. apply run_request_report. Qed.

Lemma run_delete_disk (c : Client) (t : list Request) :
  delete_disk_file_systems c t
  = (Ret (text_or (fun e => "❌ Error deleting disk file systems: " ++ e)
            (response <- c t delete_all_request ;;
             delete_disk_report response)%exc),
     t +++ [delete_all_request]).
Proof. unfold delete_disk_file_systems. apply run_request_report. Qed.

Lemma run_list_s3 (c : Client) (t : list Request) :
  list_aws_s3_backup_configurations c t
  = (Ret (text_or
            (fun e => "❌ Error listing AWS S3 Backup Solutions Configured: "
                      ++ e)
            (response <- c t (GET AWS_S3) ;; list_aws_s3_report response)%exc),
     t +++ [GET AWS_S3]).
Proof. unfold list_aws_s3_backup_configurations. apply run_request_report. Qed.

Lemma run_list_media (c : Client) (t : list Request) :
  _list_media_servers c t
  = (Ret (text_or (fun e => "❌ Error listing media servers: " ++ e)
            (response <- c t (GET MEDIA_SERVERS) ;;
             media_report "❌ Failed to list media servers" response)%exc),
     t +++ [GET MEDIA_SERVERS]).
Proof. unfold _list_media_servers. apply run_request_report. Qed.

Lemma run_get_media (server_name : string) (c : Client) (t : list Request) :
  _get_media_server server_name c t
  = (Ret (text_or
            (fun e => "❌ Error getting media server '" ++ server_name
                      ++ "': " ++ e)
            (response <- c t (GET (MEDIA_SERVERS ++ "/" ++ server_name)) ;;
             media_report
               ("❌ Failed to get media server '" ++ server_name ++ "'")
               response)%exc),
     t +++ [GET (MEDIA_SERVERS ++ "/" ++ server_name)]).
Proof. unfold _get_media_server. cbv zeta. apply run_request_report. Qed.

Lemma run_list_consumers (c : Client) (t : list Request) :
  _list_media_server_consumers c t
  = (Ret (text_or (fun e => "❌ Error listing media server consumers: " ++ e)
            (response <- c t (GET (MEDIA_SERVERS ++ "/listconsumers")) ;;
             media_report "❌ Failed to list media server consumers"
               response)%exc),
     t +++ [GET (MEDIA_SERVERS ++ "/listconsumers")]).
Proof. unfold _list_media_server_consumers. apply run_request_report. Qed.

Lemma run_list_consumers_by_name (server_name : string) (c : Client)
    (t : list Request) :
  _list_media_server_consumers_by_name server_name c t
  = (Ret (text_or
            (fun e => "❌ Error listing consumers for media server '"
                      ++ server_name ++ "': " ++ e)
            (response <-
               c t (GET (MEDIA_SERVERS ++ "/listconsumers/"
                         ++ strip server_name)) ;;
             media_report
               ("❌ Failed to list consumers for media server '" ++ server_name
                ++ "'")
               response)%exc),
     t +++ [GET (MEDIA_SERVERS ++ "/listconsumers/" ++ strip server_name)]).
Proof.
  unfold _list_media_server_consumers_by_name. cbv zeta.
  apply run_request_report.
Qed.

(** Reduces an entry point whose operation name is a literal. *)
Ltac enter :=
  unfold run, manage_dsa_disk_file_systems, manage_AWS_S3_backup_configurations,
    manage_dsa_media_servers;
  cbn [is_valid_operation valid_operations existsb String.eqb Ascii.eqb
       Bool.eqb negb orb andb].

(** X8.  The listing and lookup operations only read: each issues exactly
    one GET, without body, parameters or headers, whatever the service
    replies. *)
Theorem X8_listing_operations_issue_one_get
    (json_loads : string -> Loaded) (c : Client)
    (file_system_path : option string) (max_files : option Z)
    (accessId accessKey : option string) (bucketsByRegion : option json)
    (bucketName acctName : option string)
    (ch : ascii) (rest : string) (server_name : option string)
    (port : option Z) (ip_addresses : option string)
    (pool_shared_pipes : option Z) (virtual : option bool) :
  let name := String ch rest in
  let media operation server_name :=
    snd (run (manage_dsa_media_servers json_loads operation server_name port
                ip_addresses pool_shared_pipes virtual) c) in
  snd (run (manage_dsa_disk_file_systems "list" file_system_path max_files) c)
  = [mkRequest "GET" "dsa/components/backup-applications/disk-file-system"
       None None None]
  /\ snd (run (manage_AWS_S3_backup_configurations "list" accessId accessKey
                 bucketsByRegion bucketName acctName) c)
     = [mkRequest "GET" "dsa/components/backup-applications/aws-s3"
          None None None]
  /\ media "list" server_name
     = [mkRequest "GET" "dsa/components/mediaservers" None None None]
  /\ media "get" (Some name)
     = [mkRequest "GET" ("dsa/components/mediaservers/" ++ name)
          None None None]
  /\ media "list_consumers" server_name
     = [mkRequest "GET" "dsa/components/mediaservers/listconsumers"
          None None None]
  /\ media "list_consumers_by_server" (Some name)
     = [mkRequest "GET"
          ("dsa/components/mediaservers/listconsumers/" ++ strip name)
          None None None].
Proof.
  intros name media. subst media name. repeat split; enter.
  - now rewrite (try_except_run_ret _ _ _ _ _ _ (run_list_disk c [])).
  - now rewrite (try_except_run_ret _ _ _ _ _ _ (run_list_s3 c [])).
  - now rewrite (try_except_run_ret _ _ _ _ _ _ (run_list_media c [])).
  - unfold given. change (String ch rest =? "") with false. cbn iota.
    now rewrite (try_except_run_ret _ _ _ _ _ _ (run_get_media _ c [])).
  - now rewrite (try_except_run_ret _ _ _ _ _ _ (run_list_consumers c [])).
  - unfold given. change (String ch rest =? "") with false. cbn iota.
    now rewrite (try_except_run_ret _ _ _ _ _ _
                   (run_list_consumers_by_name _ c [])).
Qed.

(** ** Where an exception can leave the module *)



Lemma handler_log_raises {A : Type} (v : json) (m : Op A) (c : Client) :
  printable v = false ->
  run (_ <- lift (format_value v) ;; m)%op c = (Raise int_too_long, []).
Proof.
  intros H. unfold run, bind, lift, format_value. now rewrite H.
Qed.


(** The limit lies between [10 ^ 4300 - 1] and [10 ^ 4300], on either side
    of zero. *)
Example int_limit_boundary :
  printable_int (10 ^ 4300 - 1) = true
  /\ printable_int (- (10 ^ 4300 - 1)) = true
  /\ printable_int (10 ^ 4300) = false
  /\ printable_int (- 10 ^ 4300) = false.
Proof. vm_compute. repeat split. Qed.

(** An [int] of 4301 digits: the handler raises, the operation returns the
    text of its handler, and neither issues a request. *)
Example long_max_files_is_refused :
  run (handle_bar_manageDsaDiskFileSystem (string * json) pair "config"
         (Some "/backup/a") (Some (10 ^ 4300)%Z)) (serving [fs_a] configured)
  = (Raise int_too_long, [])
  /\ run (config_disk_file_system "/backup/a" (10 ^ 4300))
       (serving [fs_a] configured)
     = (Ret (config_error "/backup/a" int_too_long), []).
Proof.
  assert (H : printable_int (10 ^ 4300) = false) by (vm_compute; reflexivity).
  split.
  - apply handler_log_raises. exact H.
  - apply run_config_too_long. exact H.
Qed.

(** ** What an execution issues *)

Lemma contains_refl (s : string) : contains s s = true.
Proof.
  apply contains_starts_with.
  replace s with (s ++ "") at 2 by (induction s; cbn; congruence).
  apply starts_with_app.
Qed.

(** A text that ends with [e] contains it. *)
Ltac ends_with_it := repeat apply contains_app_r; apply contains_refl.

(** Every media-server operation issues nothing, or one request on whose
    reply it reports. *)
Lemma media_issued (json_loads : string -> Loaded) (c : Client)
    (operation : string) (server_name : option string) (port : option Z)
    (ip_addresses : option string) (pool_shared_pipes : option Z)
    (virtual : option bool) :
  let outcome :=
    run (manage_dsa_media_servers json_loads operation server_name port
           ip_addresses pool_shared_pipes virtual) c in
  (exists text, outcome = (Ret text, []))
  \/ exists (g : Request) (failed : string) (handler : string -> string),
       (forall e, contains e (handler e) = true)
       /\ starts_with "❌ Failed to " failed = true
       /\ outcome
          = (Ret (text_or handler
                    (response <- c [] g ;; media_report failed response)%exc),
             [g]).
Proof.
  intros outcome. subst outcome.
  destruct (is_valid_operation operation) eqn:Hvalid.
  2:{ left. unfold run, manage_dsa_media_servers. rewrite Hvalid.
      eexists. reflexivity. }
  unfold is_valid_operation in Hvalid. apply existsb_exists in Hvalid.
  destruct Hvalid as (x & Hin & Hx). apply String.eqb_eq in Hx. subst x.
  cbn [valid_operations In] in Hin.
  destruct Hin as [<-|[<-|[<-|[<-|[<-|[<-|[]]]]]]]; enter.
  - right. rewrite (try_except_run_ret _ _ _ _ _ _ (run_list_media c [])).
    eexists _, _, _. split; [|split; [|reflexivity]];
      [intros; ends_with_it|reflexivity].
  - destruct (given server_name) as [name|]; [|left; eexists; reflexivity].
    right. rewrite (try_except_run_ret _ _ _ _ _ _ (run_get_media name c [])).
    eexists _, _, (fun e => _). split; [|split; [|reflexivity]];
      [intros; ends_with_it|reflexivity].
  - destruct (given server_name) as [name|]; [|left; eexists; reflexivity].
    destruct (given_int port) as [p|]; [|left; eexists; reflexivity].
    destruct (given ip_addresses) as [ips|]; [|left; eexists; reflexivity].
    destruct (json_loads ips) as [ip_list|e|e];
      [|left; eexists; reflexivity|left; eexists; reflexivity].
    destruct (run_add_media_server name p ip_list
                (pipes_or_50 pool_shared_pipes) c []) as [[text H]|H];
      rewrite (try_except_run_ret _ _ _ _ _ _ H).
    + left. eexists. reflexivity.
    + right. eexists _, _, (fun e => _). split; [|split; [|reflexivity]];
        [intros; ends_with_it|reflexivity].
  - destruct (given server_name) as [name|]; [|left; eexists; reflexivity].
    right.
    rewrite (try_except_run_ret _ _ _ _ _ _
               (run_delete_media_server name _ c [])).
    eexists _, _, (fun e => _). split; [|split; [|reflexivity]];
      [intros; ends_with_it|reflexivity].
  - right. rewrite (try_except_run_ret _ _ _ _ _ _ (run_list_consumers c [])).
    eexists _, _, _. split; [|split; [|reflexivity]];
      [intros; ends_with_it|reflexivity].
  - destruct (given server_name) as [name|]; [|left; eexists; reflexivity].
    right.
    rewrite (try_except_run_ret _ _ _ _ _ _
               (run_list_consumers_by_name name c [])).
    eexists _, _, (fun e => _). split; [|split; [|reflexivity]];
      [intros; ends_with_it|reflexivity].
Qed.

(** The S3 entry point issues nothing, or one request. *)
Lemma s3_issued (c : Client) (operation : string)
    (accessId accessKey : option string) (bucketsByRegion : option json)
    (bucketName acctName : option string) :
  let outcome :=
    run (manage_AWS_S3_backup_configurations operation accessId accessKey
           bucketsByRegion bucketName acctName) c in
  (exists text, outcome = (Ret text, []))
  \/ exists (g : Request) (done : json -> string) (handler : string -> string),
       (forall e, contains e (handler e) = true)
       /\ (g = GET AWS_S3 \/ exists data, g = POST AWS_S3 data)
       /\ outcome
          = (Ret (match c [] g with
                  | Ret response => done response
                  | Raise e => handler e
                  end),
             [g]).
Proof.
  intros outcome. subst outcome.
  unfold run, manage_AWS_S3_backup_configurations.
  destruct (operation =? "list").
  { right. rewrite (try_except_run_ret _ _ _ _ _ _ (run_list_s3 c [])).
    exists (GET AWS_S3),
      (fun response =>
         text_or (fun e => "❌ Error listing AWS S3 Backup Solutions Configured: "
                           ++ e) (list_aws_s3_report response)),
      (fun e => "❌ Error listing AWS S3 Backup Solutions Configured: " ++ e).
    split; [intros; ends_with_it|]. split; [now left|].
    destruct (c [] (GET AWS_S3)); reflexivity. }
  destruct (operation =? "config").
  { destruct (given accessId) as [a|]; [|left; eexists; reflexivity].
    destruct (given accessKey) as [k|]; [|left; eexists; reflexivity].
    destruct (given_object bucketsByRegion) as [b|];
      [|left; eexists; reflexivity].
    destruct (given acctName) as [acct|]; [|left; eexists; reflexivity].
    destruct (given bucketName) as [name|]; [|left; eexists; reflexivity].
    right.
    exists (POST AWS_S3 (s3_request_data a k b name acct)),
      (fun response =>
         "✅ AWS backup solution configuration operation completed" ++ nl
         ++ "Response: " ++ str response),
      (fun e => "❌ Error configuring AWS backup solution: " ++ e).
    split; [intros; ends_with_it|]. split; [right; eauto|].
    unfold try_except, bind, make_request, ret. cbn [app].
    destruct (c [] _); reflexivity. }
  destruct (operation =? "delete_all"); [left; eexists; reflexivity|].
  destruct (operation =? "remove"); left; eexists; reflexivity.
Qed.

(** The disk-file-system entry point issues nothing, one request, or the
    fetch and then the write of a collection. *)
Lemma disk_issued (c : Client) (operation : string)
    (file_system_path : option string) (max_files : option Z) :
  let outcome :=
    run (manage_dsa_disk_file_systems operation file_system_path max_files) c in
  (exists text, outcome = (Ret text, []))
  \/ (exists (g : Request) (done : json -> string) (handler : string -> string),
         (forall e, contains e (handler e) = true)
         /\ (g = fetch \/ g = delete_all_request)
         /\ outcome
            = (Ret (match c [] g with
                    | Ret response => done response
                    | Raise e => handler e
                    end),
               [g]))
  \/ exists (items : list json) (done : json -> string)
            (handler : string -> string),
       (forall e, contains e (handler e) = true)
       /\ outcome
          = (Ret (match c [fetch] (write items) with
                  | Ret response => done response
                  | Raise e => handler e
                  end),
             [fetch; write items]).
Proof.
  intros outcome. subst outcome.
  unfold run, manage_dsa_disk_file_systems.
  destruct (operation =? "list").
  { right. left. rewrite (try_except_run_ret _ _ _ _ _ _ (run_list_disk c [])).
    exists fetch,
      (fun response =>
         text_or (fun e => "❌ Error listing disk file systems: " ++ e)
           (list_disk_report response)),
      (fun e => "❌ Error listing disk file systems: " ++ e).
    split; [intros; ends_with_it|]. split; [now left|].
    unfold fetch. destruct (c [] (GET DISK_FILE_SYSTEM)); reflexivity. }
  destruct (operation =? "config").
  { destruct (given file_system_path) as [path|];
      [|left; eexists; reflexivity].
    destruct max_files as [n|]; [|left; eexists; reflexivity].
    destruct (printable_int n) eqn:Hn.
    2:{ left. pose proof (run_config_too_long c path n Hn) as H.
        unfold run in H. rewrite (try_except_run_ret _ _ _ _ _ _ H).
        eexists. reflexivity. }
    pose proof (run_config c path n Hn) as H. unfold run in H.
    destruct (config_merge path n (existing_after_fetch (c [] fetch)))
      as [[items path_exists]|e] eqn:Emerge.
    - right. right. rewrite (try_except_run_ret _ _ _ _ _ _ H).
      exists items,
        (fun response =>
           text_or (config_error path)
             (config_report path n items path_exists response)),
        (config_error path).
      split; [intros; unfold config_error, remove_error; ends_with_it|].
      destruct (c [fetch] (write items)); reflexivity.
    - right. left. rewrite (try_except_run_ret _ _ _ _ _ _ H).
      exists fetch, (fun _ => config_error path e),
        (fun e' => config_error path e ++ e').
      split; [intros; ends_with_it|]. split; [now left|].
      destruct (c [] fetch) as [response|e'] eqn:Efetch; [reflexivity|].
      discriminate Emerge. }
  destruct (operation =? "delete_all").
  { right. left.
    rewrite (try_except_run_ret _ _ _ _ _ _ (run_delete_disk c [])).
    exists delete_all_request,
      (fun response =>
         text_or (fun e => "❌ Error deleting disk file systems: " ++ e)
           (delete_disk_report response)),
      (fun e => "❌ Error deleting disk file systems: " ++ e).
    split; [intros; ends_with_it|]. split; [now right|].
    destruct (c [] delete_all_request); reflexivity. }
  destruct (operation =? "remove"); [|left; eexists; reflexivity].
  destruct (given file_system_path) as [path|]; [|left; eexists; reflexivity].
  pose proof (run_remove c path) as H. unfold run in H.
  destruct (remove_after_fetch path (c [] fetch)) as [text|existing] eqn:Efetch.
  - right. left. rewrite (try_except_run_ret _ _ _ _ _ _ H).
    exists fetch, (fun _ => text),
      (fun e => "❌ Error retrieving existing file systems: " ++ e).
    split; [intros; ends_with_it|]. split; [now left|].
    destruct (c [] fetch) as [response|e]; [reflexivity|].
    unfold remove_after_fetch in Efetch. cbn [bindE] in Efetch.
    injection Efetch as <-. reflexivity.
  - assert (Hfetched : exists response, c [] fetch = Ret response).
    { destruct (c [] fetch) as [response|e]; [eauto|discriminate Efetch]. }
    destruct Hfetched as (response & Hresponse).
    destruct (remove_scan path existing) as [[items [[|] keep]]|e].
    + right. right. rewrite (try_except_run_ret _ _ _ _ _ _ H).
      exists keep,
        (fun response =>
           text_or (remove_error path) (remove_report path keep response)),
        (remove_error path).
      split; [intros; unfold config_error, remove_error; ends_with_it|].
      destruct (c [fetch] (write keep)); reflexivity.
    + right. left. rewrite (try_except_run_ret _ _ _ _ _ _ H).
      exists fetch,
        (fun _ => text_or (remove_error path)
                    (remove_not_found_report path items)),
        (fun e => e).
      split; [intros; ends_with_it|]. split; [now left|].
      now rewrite Hresponse.
    + right. left. rewrite (try_except_run_ret _ _ _ _ _ _ H).
      exists fetch, (fun _ => remove_error path e), (fun e => e).
      split; [intros; ends_with_it|]. split; [now left|].
      now rewrite Hresponse.
Qed.

(** X10.  An execution issues at most two requests and repeats none: the
    disk-file-system entry point issues nothing, the fetch, the DELETE of
    [delete_all], or the fetch followed by one write of a collection; the S3
    entry point nothing, its GET or one POST; the media-server entry point
    at most one request. *)
Theorem X10_request_budget
    (json_loads : string -> Loaded) (c : Client) (operation : string)
    (file_system_path : option string) (max_files : option Z)
    (accessId accessKey : option string) (bucketsByRegion : option json)
    (bucketName acctName : option string) (server_name : option string)
    (port : option Z) (ip_addresses : option string)
    (pool_shared_pipes : option Z) (virtual : option bool) :
  let disk :=
    snd (run (manage_dsa_disk_file_systems operation file_system_path
                max_files) c) in
  let s3 :=
    snd (run (manage_AWS_S3_backup_configurations operation accessId accessKey
                bucketsByRegion bucketName acctName) c) in
  let media :=
    snd (run (manage_dsa_media_servers json_loads operation server_name port
                ip_addresses pool_shared_pipes virtual) c) in
  (disk = [] \/ disk = [fetch] \/ disk = [delete_all_request]
   \/ exists items, disk = [fetch; write items])
  /\ (s3 = [] \/ s3 = [GET AWS_S3] \/ exists data, s3 = [POST AWS_S3 data])
  /\ (media = [] \/ exists g, media = [g]).
Proof.
  intros disk s3 media. subst disk s3 media. split; [|split].
  - destruct (disk_issued c operation file_system_path max_files)
      as [[text ->]|[(g & done & handler & _ & [->| ->] & ->)
                    |(items & done & handler & _ & ->)]]; cbn [snd]; eauto.
  - destruct (s3_issued c operation accessId accessKey bucketsByRegion
                bucketName acctName)
      as [[text ->]|(g & done & handler & _ & [->|[data ->]] & ->)];
      cbn [snd]; eauto.
  - destruct (media_issued json_loads c operation server_name port
                ip_addresses pool_shared_pipes virtual)
      as [[text ->]|(g & failed & handler & _ & _ & ->)]; cbn [snd]; eauto.
Qed.

Lemma snoc_one {A : Type} (t : list A) (r g : A) :
  [g] = t +++ [r] -> t = [] /\ r = g.
Proof.
  intros H. change [g] with ([] +++ [g]) in H.
  apply app_inj_tail in H. destruct H; now subst.
Qed.

Lemma snoc_two {A : Type} (t : list A) (r g h : A) :
  [g; h] = t +++ [r] -> t = [g] /\ r = h.
Proof.
  intros H. change [g; h] with ([g] +++ [h]) in H.
  apply app_inj_tail in H. destruct H; now subst.
Qed.

(** X11.  When the last request an entry point issues fails in transport,
    the text returned carries the message of the exception. *)
Theorem X11_failure_of_the_last_request_is_reported
    (json_loads : string -> Loaded) (c : Client) (operation : string)
    (file_system_path : option string) (max_files : option Z)
    (accessId accessKey : option string) (bucketsByRegion : option json)
    (bucketName acctName : option string) (server_name : option string)
    (port : option Z) (ip_addresses : option string)
    (pool_shared_pipes : option Z) (virtual : option bool)
    (m : Op string) (t : list Request) (r : Request) (e : string) :
  m = manage_dsa_disk_file_systems operation file_system_path max_files
  \/ m = manage_AWS_S3_backup_configurations operation accessId accessKey
           bucketsByRegion bucketName acctName
  \/ m = manage_dsa_media_servers json_loads operation server_name port
           ip_addresses pool_shared_pipes virtual ->
  snd (run m c) = t +++ [r] ->
  c t r = Raise e ->
  exists text, fst (run m c) = Ret text /\ contains e text = true.
Proof.
  intros [->|[->| ->]].
  - destruct (disk_issued c operation file_system_path max_files)
      as [[text ->]|[(g & done & handler & Hh & _ & ->)
                    |(items & done & handler & Hh & ->)]]; cbn [fst snd].
    + intros H. now apply app_cons_not_nil in H.
    + intros H Hr. apply snoc_one in H. destruct H as [-> ->].
      rewrite Hr. eauto.
    + intros H Hr. apply snoc_two in H. destruct H as [-> ->].
      rewrite Hr. eauto.
  - destruct (s3_issued c operation accessId accessKey bucketsByRegion
                bucketName acctName)
      as [[text ->]|(g & done & handler & Hh & _ & ->)]; cbn [fst snd].
    + intros H. now apply app_cons_not_nil in H.
    + intros H Hr. apply snoc_one in H. destruct H as [-> ->].
      rewrite Hr. eauto.
  - destruct (media_issued json_loads c operation server_name port
                ip_addresses pool_shared_pipes virtual)
      as [[text ->]|(g & failed & handler & Hh & _ & ->)]; cbn [fst snd].
    + intros H. now apply app_cons_not_nil in H.
    + intros H Hr. apply snoc_one in H. destruct H as [-> ->].
      rewrite Hr. cbn [bindE text_or]. eauto.
Qed.

Lemma X11_witness :
  exists text,
    fst (run (manage_dsa_disk_file_systems "remove" (Some "/backup/a") None)
           (unreachable_for_reads configured))
    = Ret text
    /\ contains "Connection refused" text = true.
Proof.
  apply (X11_failure_of_the_last_request_is_reported sample_loads
           (unreachable_for_reads configured) "remove" (Some "/backup/a") None
           None None None None None None None None None None
           (manage_dsa_disk_file_systems "remove" (Some "/backup/a") None)
           [] fetch "Connection refused").
  - now left.
  - reflexivity.
  - reflexivity.
Defined.

(** ** The handlers *)



(** ** The report of a failed media-server request *)

Lemma error_messages_loop (errors : list dict) (acc : list string) :
  for_each (map JObj errors) error_message_step acc
  = Ret (acc +++ map code_line errors).
Proof.
  revert acc. induction errors as [|error errors IH]; intros acc.
  - cbn [map for_each]. now rewrite app_nil_r.
  - cbn [map for_each]. unfold error_message_step at 1, get_default.
    cbn [get bindE]. rewrite IH. rewrite <- app_assoc. reflexivity.
Qed.

Lemma listed_default (o : option json) (items : list dict) :
  listed o items ->
  match o with Some x => x | None => JList [] end = JList (map JObj items).
Proof. intros [->|[-> ->]]; reflexivity. Qed.

Lemma media_report_rejected (failed : string) (d : dict)
    (client_errors server_errors : list dict) :
  media_rejects d client_errors server_errors ->
  media_report failed (JObj d)
  = Ret (match client_errors +++ server_errors with
         | [] => failed ++ ": " ++ str (field "status" (JStr "Unknown error") d)
         | errors => failed ++ ":" ++ nl ++ join_lines (map code_line errors)
         end).
Proof.
  intros [Hv H]. unfold media_report, get_default. cbn [get bindE].
  fold (field "valid" (JBool false) d). rewrite Hv. cbn [negb].
  destruct H as [(-> & -> & ->)|(validation & -> & Hc & Hs)].
  - cbn [truthy bindE app]. reflexivity.
  - apply listed_default in Hc. apply listed_default in Hs.
    destruct validation as [|entry validation].
    + cbn in Hc, Hs. destruct client_errors; [|discriminate].
      destruct server_errors; [|discriminate].
      cbn [truthy bindE app]. reflexivity.
    + cbn [truthy get bindE]. rewrite Hc, Hs. cbn [add bindE iter].
      rewrite <- map_app. rewrite error_messages_loop.
      destruct client_errors as [|error errors];
        [destruct server_errors as [|error errors]|];
        cbn [map app bindE]; reflexivity.
Qed.

(** X13.  A media-server request whose reply is not [valid] is reported by
    the failure text of the operation followed by one line
    [Code <code>: <message>] for each client error and then each server
    error of the reply; when the reply carries none, by the failure text and
    the reply's status. *)
Theorem X13_media_failure_lists_client_then_server_errors
    (json_loads : string -> Loaded) (c : Client) (operation : string)
    (server_name : option string) (port : option Z)
    (ip_addresses : option string) (pool_shared_pipes : option Z)
    (virtual : option bool) (g : Request) (d : dict)
    (client_errors server_errors : list dict) :
  snd (run (manage_dsa_media_servers json_loads operation server_name port
              ip_addresses pool_shared_pipes virtual) c) = [g] ->
  c [] g = Ret (JObj d) ->
  media_rejects d client_errors server_errors ->
  exists failed,
    starts_with "❌ Failed to " failed = true
    /\ fst (run (manage_dsa_media_servers json_loads operation server_name
                   port ip_addresses pool_shared_pipes virtual) c)
       = Ret (match client_errors +++ server_errors with
              | [] =>
                  failed ++ ": "
                  ++ str (field "status" (JStr "Unknown error") d)
              | errors =>
                  failed ++ ":" ++ nl ++ join_lines (map code_line errors)
              end).
Proof.
  intros Htrace Hreply Hrejects.
  destruct (media_issued json_loads c operation server_name port
              ip_addresses pool_shared_pipes virtual)
    as [[text E]|(g' & failed & handler & _ & Hfailed & E)];
    rewrite E in Htrace |- *; cbn [fst snd] in *; [discriminate|].
  injection Htrace as ->. rewrite Hreply. cbn [bindE].
  rewrite (media_report_rejected failed d _ _ Hrejects).
  exists failed. split; [exact Hfailed|reflexivity].
Qed.

Lemma X13_witness :
  exists failed,
    starts_with "❌ Failed to " failed = true
    /\ fst (run (manage_dsa_media_servers sample_loads "delete"
                   (Some "media01") None None None None)
              (answering (JObj rejected)))
       = Ret (failed ++ ":" ++ nl
              ++ join_lines ["Code 1001: maxFiles must be positive";
                             "Code 2010: File system is in use by a target group";
                             "Code 2011: Path is not a directory"]).
Proof.
  apply (X13_media_failure_lists_client_then_server_errors sample_loads
           (answering (JObj rejected)) "delete" (Some "media01") None None None
           None (delete_request "media01" false) rejected [bad_max_files]
           [in_use; not_a_directory]).
  - reflexivity.
  - reflexivity.
  - split; [reflexivity|]. right.
    exists [("serverValidationList", JList [JObj in_use; JObj not_a_directory]);
            ("clientValidationList", JList [JObj bad_max_files])].
    split; [reflexivity|]. split; left; reflexivity.
Defined.

(** ** The listings *)

Lemma file_systems_loop (items : list dict) (results : list string) (i : Z) :
  for_each (map JObj items) file_system_step (results, i)
  = Ret (results +++ numbered file_system_shown i items,
         (i + Z.of_nat (length items))%Z).
Proof.
  revert results i. induction items as [|item items IH]; intros results i.
  - cbn [map for_each numbered length Z.of_nat]. rewrite app_nil_r.
    now rewrite Z.add_0_r.
  - cbn [map for_each]. unfold file_system_step at 1, get_default.
    cbn [get bindE]. rewrite IH. cbn [numbered length].
    rewrite <- app_assoc. do 2 f_equal. lia.
Qed.

(** X14.  A successful listing of the disk file systems shows their number
    and then every item once, in the order of the reply and numbered from 1,
    with its path and its limit ([N/A] for a missing one); without items it
    says that none is configured. *)
Theorem X14_listing_numbers_every_file_system
    (c : Client) (file_system_path : option string) (max_files : option Z)
    (d : dict) (items : list dict) :
  c [] fetch = Ret (JObj d) ->
  lookup "status" d = Some (JStr "LIST_DISK_FILE_SYSTEMS_SUCCESSFUL") ->
  listed (lookup "fileSystems" d) items ->
  fst (run (manage_dsa_disk_file_systems "list" file_system_path max_files) c)
  = Ret (join_lines
           (["🗂️ DSA Disk File Systems"; rule]
            +++ match items with
                | [] => ["📋 No disk file systems configured"]
                | _ =>
                    ["📊 Total File Systems: "
                     ++ str_of_Z (Z.of_nat (length items)); ""]
                    +++ numbered file_system_shown 1 items
                end
            +++ [rule;
                 "✅ Status: LIST_DISK_FILE_SYSTEMS_SUCCESSFUL";
                 "🔍 Found Component: "
                 ++ str (field "foundComponent" (JBool false) d);
                 "✔️ Valid: " ++ str (field "valid" (JBool false) d)])).
Proof.
  intros Hreply Hstatus Hitems. enter.
  rewrite (try_except_run_ret _ _ _ _ _ _ (run_list_disk c [])).
  cbn [fst]. unfold fetch in Hreply. rewrite Hreply. cbn [bindE text_or].
  unfold list_disk_report, get_default. cbn [get bindE]. rewrite Hstatus.
  replace (opt_eq_str (Some (JStr "LIST_DISK_FILE_SYSTEMS_SUCCESSFUL"))
             "LIST_DISK_FILE_SYSTEMS_SUCCESSFUL") with true by reflexivity.
  apply listed_default in Hitems. rewrite Hitems.
  destruct items as [|item items].
  - reflexivity.
  - cbn [map truthy len iter bindE]. rewrite <- (map_cons JObj item items).
    rewrite file_systems_loop. cbn [bindE fst of_option str].
    rewrite length_map. now rewrite <- !app_assoc.
Qed.

Lemma X14_witness :
  fst (run (manage_dsa_disk_file_systems "list" None None)
         (serving [fs_a; fs_b] configured))
  = Ret (join_lines
           ["🗂️ DSA Disk File Systems"; rule;
            "📊 Total File Systems: 2"; "";
            "🗂️ File System #1"; "   📁 Path: /backup/a";
            "   📄 Max Files: 100"; "";
            "🗂️ File System #2"; "   📁 Path: /backup/b";
            "   📄 Max Files: 200"; "";
            rule;
            "✅ Status: LIST_DISK_FILE_SYSTEMS_SUCCESSFUL";
            "🔍 Found Component: True";
            "✔️ Valid: True"]).
Proof.
  apply (X14_listing_numbers_every_file_system
           (serving [fs_a; fs_b] configured) None None
           [("status", JStr "LIST_DISK_FILE_SYSTEMS_SUCCESSFUL");
            ("fileSystems", JList (map JObj [fs_a; fs_b]));
            ("foundComponent", JBool true);
            ("valid", JBool true)]
           [fs_a; fs_b]).
  - reflexivity.
  - reflexivity.
  - left. reflexivity.
Defined.

Lemma list_errors_loop (errors : list dict) (results : list string) :
  for_each (map JObj errors) list_error_lines results
  = Ret (results +++ map list_error_shown errors).
Proof.
  revert results. induction errors as [|error errors IH]; intros results.
  - cbn [map for_each]. now rewrite app_nil_r.
  - cbn [map for_each]. unfold list_error_lines at 1, get_default.
    cbn [get bindE]. rewrite IH. now rewrite <- app_assoc.
Qed.

Lemma list_failure_details_shown (d : dict)
    (server_errors client_errors : list dict) (results : list string) :
  rejects_with d server_errors client_errors ->
  list_failure_details (JObj d) results
  = Ret (results +++ map list_error_shown server_errors).
Proof.
  intros (validation & Hvl & Hs & _). unfold list_failure_details.
  cbn [get bindE]. rewrite Hvl. cbn [of_option subscript]. rewrite Hvl.
  destruct validation as [|entry validation].
  - destruct Hs as [Hs|[_ ->]]; [discriminate Hs|].
    cbn [truthy map]. now rewrite app_nil_r.
  - cbn [truthy bindE get].
    apply (error_list_shown (entry :: validation) "serverValidationList"
             server_errors list_error_lines (map list_error_shown) results Hs
             eq_refl).
    intros results'. apply list_errors_loop.
Qed.

(** X15.  A listing whose reply has another status than the successful one
    is reported as failed, with that status and one line for the message of
    each server error; the client errors of the reply are not shown, nor is
    any code.  The disk-file-system and the S3 listing agree on this. *)
Theorem X15_failed_listing_shows_server_errors_only
    (c : Client) (file_system_path : option string) (max_files : option Z)
    (accessId accessKey : option string) (bucketsByRegion : option json)
    (bucketName acctName : option string) (d : dict)
    (server_errors client_errors : list dict) :
  rejects_with d server_errors client_errors ->
  let details :=
    ["📊 Status: " ++ str (field "status" (JStr "Unknown") d)]
    +++ map list_error_shown server_errors in
  (c [] fetch = Ret (JObj d) ->
   opt_eq_str (lookup "status" d) "LIST_DISK_FILE_SYSTEMS_SUCCESSFUL" = false ->
   fst (run (manage_dsa_disk_file_systems "list" file_system_path max_files) c)
   = Ret (join_lines
            (["🗂️ DSA Disk File Systems"; rule;
              "❌ Failed to list disk file systems"] +++ details)))
  /\ (c [] (GET AWS_S3) = Ret (JObj d) ->
      opt_eq_str (lookup "status" d) "LIST_AWS_APP_SUCCESSFUL" = false ->
      fst (run (manage_AWS_S3_backup_configurations "list" accessId accessKey
                  bucketsByRegion bucketName acctName) c)
      = Ret (join_lines
               (["🗂️ DSA AWS S3 Backup Solution Systems Available"; rule;
                 "❌ Failed to list AWS S3 Backup Solutions Configured"]
                +++ details))).
Proof.
  intros Hrejects details. subst details. split; intros Hreply Hstatus; enter.
  - rewrite (try_except_run_ret _ _ _ _ _ _ (run_list_disk c [])).
    cbn [fst]. unfold fetch in Hreply. rewrite Hreply. cbn [bindE text_or].
    unfold list_disk_report, get_default. cbn [get bindE]. rewrite Hstatus.
    rewrite (list_failure_details_shown d _ _ _ Hrejects). reflexivity.
  - rewrite (try_except_run_ret _ _ _ _ _ _ (run_list_s3 c [])).
    cbn [fst]. rewrite Hreply. cbn [bindE text_or].
    unfold list_aws_s3_report, get_default. cbn [get bindE]. rewrite Hstatus.
    rewrite (list_failure_details_shown d _ _ _ Hrejects). reflexivity.
Qed.

Lemma X15_witness :
  fst (run (manage_dsa_disk_file_systems "list" None None)
         (answering (JObj rejected)))
  = Ret (join_lines
           ["🗂️ DSA Disk File Systems"; rule;
            "❌ Failed to list disk file systems";
            "📊 Status: CONFIG_DISK_FILE_SYSTEM_FAILED";
            "❌ Error: File system is in use by a target group";
            "❌ Error: Path is not a directory"])
  /\ fst (run (manage_AWS_S3_backup_configurations "list" None None None None
                 None) (answering (JObj rejected)))
     = Ret (join_lines
              ["🗂️ DSA AWS S3 Backup Solution Systems Available"; rule;
               "❌ Failed to list AWS S3 Backup Solutions Configured";
               "📊 Status: CONFIG_DISK_FILE_SYSTEM_FAILED";
               "❌ Error: File system is in use by a target group";
               "❌ Error: Path is not a directory"]).
Proof.
  destruct (X15_failed_listing_shows_server_errors_only
              (answering (JObj rejected)) None None None None None None None
              rejected [in_use; not_a_directory] [bad_max_files])
    as [Hdisk Hs3].
  - exists [("serverValidationList",
             JList [JObj in_use; JObj not_a_directory]);
            ("clientValidationList", JList [JObj bad_max_files])].
    split; [reflexivity|]. split; left; reflexivity.
  - split; [apply Hdisk|apply Hs3]; reflexivity.
Defined.

(** ** Deleting every disk file system *)

Lemma validation_details_closed (d validation : dict)
    (server_errors client_errors : list dict) (results : list string) :
  validation <> [] ->
  lookup "validationlist" d = Some (JObj validation) ->
  error_list (lookup "serverValidationList" validation) server_errors ->
  error_list (lookup "clientValidationList" validation) client_errors ->
  validation_details (JObj d) results
  = Ret (results +++ [""; "🔍 Validation Details:"]
         +++ flat_map server_error_shown server_errors
         +++ map client_error_shown client_errors).
Proof.
  intros Hne Hv Hs Hc.
  unfold validation_details. cbn [get bindE subscript]. rewrite Hv.
  cbn [of_option]. destruct validation as [|kv validation]; [congruence|].
  cbn [truthy get bindE].
  rewrite (error_list_shown _ _ _ server_error_lines
             (flat_map server_error_shown) _ Hs eq_refl
             (server_errors_loop server_errors)).
  cbn [bindE].
  rewrite (error_list_shown _ _ _ client_error_lines
             (map client_error_shown) _ Hc eq_refl
             (client_errors_loop client_errors)).
  now rewrite <- !app_assoc.
Qed.

Lemma any_in_use_texts (server_errors : list dict) :
  (forall error, In error server_errors ->
     exists m, field "message" (JStr "") error = JStr m) ->
  any_in_use (map JObj server_errors) = Ret (in_use_by server_errors).
Proof.
  induction server_errors as [|error errors IH]; intros H; [reflexivity|].
  cbn [map any_in_use]. unfold get_default. cbn [get bindE].
  fold (field "message" (JStr "") error).
  destruct (H error (or_introl eq_refl)) as [m Hm].
  unfold in_use_by. cbn [existsb]. rewrite Hm. cbn [is_in bindE str].
  destruct (contains "in use by" m); [reflexivity|].
  cbn [orb]. apply IH. intros e He. apply H. now right.
Qed.

(** X16.  A [delete_all] that the service refuses, with another status
    than [DELETE_COMPONENT_SUCCESSFUL] and a validation list, has issued one
    DELETE on the collection, without a fetch and without a body.  It is
    reported as failed with every server and client error, and the helpful
    notes follow exactly when the message of some server error contains
    [in use by]; the text closes with the line [operation completed] all
    the same. *)
Theorem X16_delete_all_report
    (c : Client) (file_system_path : option string) (max_files : option Z)
    (d : dict) (server_errors client_errors : list dict) :
  c [] delete_all_request = Ret (JObj d) ->
  opt_eq_str (lookup "status" d) "DELETE_COMPONENT_SUCCESSFUL" = false ->
  delete_rejects d server_errors client_errors ->
  run (manage_dsa_disk_file_systems "delete_all" file_system_path max_files) c
  = (Ret (join_lines
            (["🗂️ DSA Disk File System Deletion"; rule;
              "❌ Failed to delete disk file systems";
              "📊 Status: " ++ str (field "status" (JStr "Unknown") d);
              "✔️ Valid: " ++ str (field "valid" (JBool false) d);
              ""; "🔍 Validation Details:"]
             +++ flat_map server_error_shown server_errors
             +++ map client_error_shown client_errors
             +++ (if in_use_by server_errors then helpful_notes else [])
             +++ [""; rule;
                  "✅ Disk file system deletion operation completed"])),
     [mkRequest "DELETE" "dsa/components/backup-applications/disk-file-system"
        None None None]).
Proof.
  intros Hreply Hstatus (validation & Hne & Hv & Hs & Hc & Hm). enter.
  rewrite (try_except_run_ret _ _ _ _ _ _ (run_delete_disk c [])).
  rewrite Hreply. cbn [bindE text_or]. f_equal.
  unfold delete_disk_report, get_default. cbn [get bindE]. rewrite Hstatus.
  rewrite Hv. cbn [of_option].
  assert (Hs' : error_list (lookup "serverValidationList" validation)
                  server_errors).
  { destruct Hs as [Hs|[Hs ->]]; [now left|right]. now rewrite Hs. }
  rewrite (validation_details_closed d validation _ _ _ Hne Hv Hs' Hc).
  destruct validation as [|kv validation]; [congruence|].
  cbn [truthy bindE subscript get]. rewrite Hv. cbn [get bindE].
  rewrite (listed_default _ _ Hs). cbn [iter bindE].
  rewrite (any_in_use_texts _ Hm). cbn [bindE].
  destruct (in_use_by server_errors); cbn [bindE]; unfold helpful_notes;
    rewrite <- ?app_assoc; reflexivity.
Qed.

Lemma X16_witness :
  run (manage_dsa_disk_file_systems "delete_all" None None)
    (answering (JObj rejected))
  = (Ret (join_lines
            (["🗂️ DSA Disk File System Deletion"; rule;
              "❌ Failed to delete disk file systems";
              "📊 Status: CONFIG_DISK_FILE_SYSTEM_FAILED";
              "✔️ Valid: False";
              ""; "🔍 Validation Details:"]
             +++ flat_map server_error_shown [in_use; not_a_directory]
             +++ map client_error_shown [bad_max_files]
             +++ helpful_notes
             +++ [""; rule;
                  "✅ Disk file system deletion operation completed"])),
     [mkRequest "DELETE" "dsa/components/backup-applications/disk-file-system"
        None None None]).
Proof.
  apply (X16_delete_all_report (answering (JObj rejected)) None None rejected
           [in_use; not_a_directory] [bad_max_files]).
  - reflexivity.
  - reflexivity.
  - exists [("serverValidationList",
             JList [JObj in_use; JObj not_a_directory]);
            ("clientValidationList", JList [JObj bad_max_files])].
    split; [discriminate|]. split; [reflexivity|].
    split; [left; reflexivity|]. split; [left; reflexivity|].
    intros error [<-|[<-|[]]]; eexists; reflexivity.
Defined.

(** X17.  The helpful notes of [delete_all] read the server errors without
    the guard of the lines before them: a refusal whose
    [serverValidationList] is [null] (or [false], or [0]) under a non-empty
    validation list loses its report, and the text returned is that of the
    exception. *)
Theorem X17_delete_all_needs_an_iterable_server_list
    (c : Client) (file_system_path : option string) (max_files : option Z)
    (d validation : dict) (v : json) (client_errors : list dict) :
  c [] delete_all_request = Ret (JObj d) ->
  opt_eq_str (lookup "status" d) "DELETE_COMPONENT_SUCCESSFUL" = false ->
  lookup "validationlist" d = Some (JObj validation) ->
  lookup "serverValidationList" validation = Some v ->
  v = JNull \/ v = JBool false \/ v = JInt 0 ->
  error_list (lookup "clientValidationList" validation) client_errors ->
  fst (run (manage_dsa_disk_file_systems "delete_all" file_system_path
              max_files) c)
  = Ret ("❌ Error deleting disk file systems: '" ++ type_name v
         ++ "' object is not iterable").
Proof.
  intros Hreply Hstatus Hv Hs Hfalsy Hc. enter.
  rewrite (try_except_run_ret _ _ _ _ _ _ (run_delete_disk c [])).
  rewrite Hreply. cbn [fst bindE text_or].
  unfold delete_disk_report, get_default. cbn [get bindE]. rewrite Hstatus.
  rewrite Hv. cbn [of_option].
  assert (Hne : validation <> []) by (intros ->; discriminate Hs).
  assert (Hs' : error_list (lookup "serverValidationList" validation) []).
  { right. rewrite Hs. now destruct Hfalsy as [->|[->| ->]]. }
  rewrite (validation_details_closed d validation _ _ _ Hne Hv Hs' Hc).
  destruct validation as [|kv validation]; [congruence|].
  cbn [truthy bindE subscript get]. rewrite Hv. cbn [get bindE].
  rewrite Hs. now destruct Hfalsy as [->|[->| ->]].
Qed.

Lemma X17_witness :
  fst (run (manage_dsa_disk_file_systems "delete_all" None None)
         (answering
            (JObj [("status", JStr "DELETE_COMPONENT_FAILED");
                   ("validationlist",
                    JObj [("serverValidationList", JNull);
                          ("clientValidationList",
                           JList [JObj bad_max_files])])])))
  = Ret ("❌ Error deleting disk file systems: '" ++ type_name JNull
         ++ "' object is not iterable").
Proof.
  apply (X17_delete_all_needs_an_iterable_server_list _ None None
           [("status", JStr "DELETE_COMPONENT_FAILED");
            ("validationlist",
             JObj [("serverValidationList", JNull);
                   ("clientValidationList", JList [JObj bad_max_files])])]
           [("serverValidationList", JNull);
            ("clientValidationList", JList [JObj bad_max_files])]
           JNull [bad_max_files]).
  - reflexivity.
  - reflexivity.
  - reflexivity.
  - reflexivity.
  - now left.
  - left. reflexivity.
Defined.

(** ** Sequences of disk-file-system operations *)

Lemma remove_none (path : string) (items : list dict) :
  existsb (has_path path) items = false -> remove path items = items.
Proof.
  unfold remove. induction items as [|fs items IH]; [reflexivity|].
  cbn [existsb filter]. intros H. apply orb_false_iff in H.
  destruct H as [-> H]. cbn [negb]. now rewrite IH.
Qed.

Lemma remove_all (path : string) (items : list dict) :
  existsb (has_path path) (remove path items) = false.
Proof.
  unfold remove. induction items as [|fs items IH]; [reflexivity|].
  cbn [filter]. destruct (has_path path fs) eqn:E; cbn [negb]; [exact IH|].
  cbn [existsb]. now rewrite E, IH.
Qed.

Lemma remove_appended (path : string) (n : Z) (items : list dict) :
  existsb (has_path path) items = false ->
  remove path (items +++ [new_item path n]) = items.
Proof.
  intros H. unfold remove. rewrite filter_app. cbn [filter].
  rewrite has_path_new_item. cbn [negb]. rewrite app_nil_r.
  now apply remove_none.
Qed.

Lemma config_trace (c : Client) (path : string) (n : Z) (items : list dict) :
  printable_int n = true ->
  lists (c [] fetch) items ->
  snd (run (config_disk_file_system path n) c)
  = [fetch; write (map JObj (upsert path n items))].
Proof.
  intros Hn H. rewrite (run_config _ _ _ Hn).
  rewrite (existing_after_listing _ _ H).
  now rewrite config_merge_upsert.
Qed.

Lemma remove_outcome (c : Client) (path : string) (items : list dict) :
  lists (c [] fetch) items ->
  run (remove_disk_file_system path) c
  = if existsb (has_path path) items then
      (Ret (text_or (remove_error path)
              (response <- c [fetch] (write (map JObj (remove path items))) ;;
               remove_report path (map JObj (remove path items))
                 response)%exc),
       [fetch; write (map JObj (remove path items))])
    else
      (Ret (text_or (remove_error path)
              (remove_not_found_report path (map JObj items))),
       [fetch]).
Proof.
  intros H. rewrite run_remove. rewrite (remove_after_listing _ _ _ H).
  rewrite remove_scan_filter.
  now destruct (existsb (has_path path) items).
Qed.

(** X18.  Removing a path undoes its configuration: when [config] adds a
    path the collection did not hold, with a [max_files] it can format (an
    [int] of at most 4300 digits), and the service then lists what was
    written, [remove] of that path writes the original collection back,
    every item as it was and in its place. *)
Theorem X18_remove_undoes_config
    (c c' : Client) (path : string) (n : Z) (max_files : option Z)
    (items : list dict) :
  path <> "" ->
  printable_int n = true ->
  lists (c [] fetch) items ->
  existsb (has_path path) items = false ->
  lists (c' [] fetch) (items +++ [new_item path n]) ->
  snd (run (manage_dsa_disk_file_systems "config" (Some path) (Some n)) c)
  = [fetch; write (map JObj (items +++ [new_item path n]))]
  /\ snd (run (manage_dsa_disk_file_systems "remove" (Some path) max_files) c')
     = [fetch; write (map JObj items)].
Proof.
  intros Hpath Hn Hitems Hnew Hthen.
  destruct path as [|ch rest]; [congruence|].
  rewrite manage_config, manage_remove. split.
  - rewrite (config_trace _ _ _ _ Hn Hitems). unfold upsert. rewrite Hnew.
    rewrite (map_ext_in _ (fun fs => fs)), map_id; [reflexivity|].
    intros fs Hin. destruct (has_path (String ch rest) fs) eqn:E;
      [|reflexivity].
    assert (existsb (has_path (String ch rest)) items = true)
      by (apply existsb_exists; eauto).
    congruence.
  - rewrite (remove_outcome _ _ _ Hthen). rewrite existsb_app.
    cbn [existsb]. rewrite has_path_new_item, orb_true_r. cbn [snd].
    now rewrite remove_appended.
Qed.

Lemma X18_witness :
  snd (run (manage_dsa_disk_file_systems "config" (Some "/backup/b")
              (Some 200%Z)) (serving [fs_a] configured))
  = [fetch; write (map JObj ([fs_a] +++ [new_item "/backup/b" 200]))]
  /\ snd (run (manage_dsa_disk_file_systems "remove" (Some "/backup/b") None)
            (serving [fs_a; fs_b] configured))
     = [fetch; write (map JObj [fs_a])].
Proof.
  apply (X18_remove_undoes_config (serving [fs_a] configured)
           (serving [fs_a; fs_b] configured) "/backup/b" 200%Z None [fs_a]).
  - discriminate.
  - reflexivity.
  - eexists. split; [reflexivity|]. split; reflexivity.
  - reflexivity.
  - eexists. split; [reflexivity|]. split; reflexivity.
Defined.

(** X19.  [remove] takes out every item that has the path, so a second
    [remove] of the same path, once the service lists what the first wrote,
    finds nothing: it reports the path as not found and writes nothing. *)
Theorem X19_second_remove_writes_nothing
    (c c' : Client) (path : string) (max_files : option Z)
    (items : list dict) :
  path <> "" ->
  lists (c [] fetch) items ->
  existsb (has_path path) items = true ->
  lists (c' [] fetch) (remove path items) ->
  snd (run (manage_dsa_disk_file_systems "remove" (Some path) max_files) c)
  = [fetch; write (map JObj (remove path items))]
  /\ run (manage_dsa_disk_file_systems "remove" (Some path) max_files) c'
     = (Ret (join_lines
               (["🗂️ DSA Disk File System Removal";
                 rule;
                 "❌ File system '" ++ path ++ "' not found";
                 "";
                 "📋 Available file systems:"]
                +++ match remove path items with
                    | [] => ["   (No file systems configured)"]
                    | kept => map bullet kept
                    end
                +++ [""; rule])),
        [fetch]).
Proof.
  intros Hpath Hitems Hfound Hthen.
  destruct path as [|ch rest]; [congruence|].
  rewrite !manage_remove. split.
  - rewrite (remove_outcome _ _ _ Hitems). now rewrite Hfound.
  - rewrite (remove_outcome _ _ _ Hthen). rewrite remove_all.
    rewrite not_found_report. cbn [text_or].
    now destruct (remove (String ch rest) items).
Qed.

Lemma X19_witness :
  snd (run (manage_dsa_disk_file_systems "remove" (Some "/backup/b") None)
         (serving [fs_a; fs_b] configured))
  = [fetch; write (map JObj (remove "/backup/b" [fs_a; fs_b]))]
  /\ run (manage_dsa_disk_file_systems "remove" (Some "/backup/b") None)
       (serving [fs_a] configured)
     = (Ret (join_lines
               (["🗂️ DSA Disk File System Removal";
                 rule;
                 "❌ File system '" ++ "/backup/b" ++ "' not found";
                 "";
                 "📋 Available file systems:"]
                +++ match remove "/backup/b" [fs_a; fs_b] with
                    | [] => ["   (No file systems configured)"]
                    | kept => map bullet kept
                    end
                +++ [""; rule])),
        [fetch]).
Proof.
  apply (X19_second_remove_writes_nothing (serving [fs_a; fs_b] configured)
           (serving [fs_a] configured) "/backup/b" None [fs_a; fs_b]).
  - discriminate.
  - eexists. split; [reflexivity|]. split; reflexivity.
  - reflexivity.
  - eexists. split; [reflexivity|]. split; reflexivity.
Defined.

(** ** A listing that holds something else than objects *)

Lemma loop_stops_at {S : Type} (body : S -> json -> Exc S) (e : string)
    (before : list dict) (v : json) (after : list json) :
  (forall s fs, exists s', body s (JObj fs) = Ret s') ->
  (forall s, body s v = Raise e) ->
  forall s, for_each (map JObj before +++ v :: after) body s = Raise e.
Proof.
  intros Hobj Hv. induction before as [|fs before IH]; intros s.
  - cbn [map app for_each]. now rewrite Hv.
  - cbn [map app for_each]. destruct (Hobj s fs) as [s' ->]. cbn [bindE].
    apply IH.
Qed.

Lemma get_not_an_object (v : json) (k : string) :
  isinstance_dict v = false ->
  get v k = Raise ("'" ++ type_name v ++ "' object has no attribute 'get'").
Proof. now destruct v. Qed.

(** X20.  The items of a listing are read with [.get]: when a successful
    listing holds an item that is not an object, [list], [config] (with a
    [max_files] it can format, an [int] of at most 4300 digits) and [remove]
    each return the text of their outer handler with the message of the
    [AttributeError], and neither [config] nor [remove] writes. *)
Theorem X20_listing_with_a_non_object_item
    (c : Client) (path : string) (n : Z) (d : dict) (before : list dict)
    (v : json) (after : list json) :
  printable_int n = true ->
  c [] fetch = Ret (JObj d) ->
  lookup "status" d = Some (JStr "LIST_DISK_FILE_SYSTEMS_SUCCESSFUL") ->
  lookup "fileSystems" d = Some (JList (map JObj before +++ v :: after)) ->
  isinstance_dict v = false ->
  let e := "'" ++ type_name v ++ "' object has no attribute 'get'" in
  run list_disk_file_systems c
  = (Ret ("❌ Error listing disk file systems: " ++ e), [fetch])
  /\ run (config_disk_file_system path n) c
     = (Ret ("❌ Error configuring disk file system '" ++ path ++ "': " ++ e),
        [fetch])
  /\ run (remove_disk_file_system path) c
     = (Ret ("❌ Error removing disk file system '" ++ path ++ "': " ++ e),
        [fetch]).
Proof.
  intros Hn Hreply Hstatus Hitems Hv e.
  pose proof (get_not_an_object v "fileSystemPath" Hv) as Hget.
  assert (Hne : exists x rest, map JObj before +++ v :: after = x :: rest).
  { destruct before; cbn [map app]; eauto. }
  destruct Hne as (x & rest & Hne).
  split; [|split].
  - unfold run. rewrite run_list_disk. unfold fetch in Hreply.
    rewrite Hreply. cbn [bindE app]. f_equal.
    unfold list_disk_report, get_default. cbn [get bindE]. rewrite Hstatus.
    replace (opt_eq_str (Some (JStr "LIST_DISK_FILE_SYSTEMS_SUCCESSFUL"))
               "LIST_DISK_FILE_SYSTEMS_SUCCESSFUL") with true by reflexivity.
    rewrite Hitems. cbn [bindE]. rewrite Hne at 1. cbn [truthy len iter bindE].
    rewrite (loop_stops_at file_system_step e before v after).
    + reflexivity.
    + intros [results i] fs. unfold file_system_step, get_default.
      cbn [get bindE]. eauto.
    + intros [results i]. unfold file_system_step, get_default.
      rewrite Hget. reflexivity.
  - rewrite (run_config _ _ _ Hn). rewrite Hreply.
    unfold existing_after_fetch, get_default. cbn [get bindE].
    rewrite Hstatus.
    replace (opt_eq_str (Some (JStr "LIST_DISK_FILE_SYSTEMS_SUCCESSFUL"))
               "LIST_DISK_FILE_SYSTEMS_SUCCESSFUL") with true by reflexivity.
    rewrite Hitems. cbn [len bindE]. unfold config_merge. cbn [iter bindE].
    rewrite (loop_stops_at (config_step path n) e before v after).
    + reflexivity.
    + intros s fs. rewrite config_step_item. eauto.
    + intros s. unfold config_step. rewrite Hget. reflexivity.
  - rewrite run_remove. rewrite Hreply.
    unfold remove_after_fetch, get_default. cbn [get bindE].
    rewrite Hstatus.
    replace (opt_eq_str (Some (JStr "LIST_DISK_FILE_SYSTEMS_SUCCESSFUL"))
               "LIST_DISK_FILE_SYSTEMS_SUCCESSFUL") with true by reflexivity.
    rewrite Hitems. cbn [len bindE]. unfold remove_scan. cbn [iter bindE].
    rewrite (loop_stops_at (remove_step path) e before v after).
    + reflexivity.
    + intros s fs. rewrite remove_step_item. eauto.
    + intros s. unfold remove_step. rewrite Hget. reflexivity.
Qed.

Lemma X20_witness :
  run list_disk_file_systems
    (answering
       (JObj [("status", JStr "LIST_DISK_FILE_SYSTEMS_SUCCESSFUL");
              ("fileSystems", JList [JObj fs_a; JStr "/backup/b"])]))
  = (Ret ("❌ Error listing disk file systems: "
          ++ "'str' object has no attribute 'get'"), [fetch])
  /\ run (config_disk_file_system "/backup/c" 10)
       (answering
          (JObj [("status", JStr "LIST_DISK_FILE_SYSTEMS_SUCCESSFUL");
                 ("fileSystems", JList [JObj fs_a; JStr "/backup/b"])]))
     = (Ret ("❌ Error configuring disk file system '" ++ "/backup/c" ++ "': "
             ++ "'str' object has no attribute 'get'"),
        [fetch])
  /\ run (remove_disk_file_system "/backup/c")
       (answering
          (JObj [("status", JStr "LIST_DISK_FILE_SYSTEMS_SUCCESSFUL");
                 ("fileSystems", JList [JObj fs_a; JStr "/backup/b"])]))
     = (Ret ("❌ Error removing disk file system '" ++ "/backup/c" ++ "': "
             ++ "'str' object has no attribute 'get'"),
        [fetch]).
Proof.
  apply (X20_listing_with_a_non_object_item
           (answering
              (JObj [("status", JStr "LIST_DISK_FILE_SYSTEMS_SUCCESSFUL");
                     ("fileSystems", JList [JObj fs_a; JStr "/backup/b"])]))
           "/backup/c" 10%Z
           [("status", JStr "LIST_DISK_FILE_SYSTEMS_SUCCESSFUL");
            ("fileSystems", JList [JObj fs_a; JStr "/backup/b"])]
           [fs_a] (JStr "/backup/b") []); reflexivity.
Defined.

(** ** A media-server reply that is valid, or no object *)

(** X21.  Each of the six media-server operations judges the reply by its
    [valid] entry alone: when it is truthy the reply is returned as
    indented JSON, whatever its status says; and a reply that is no object
    is answered with the text of the handler, which carries the message of
    the [AttributeError]. *)
Theorem X21_media_reply_is_judged_by_valid
    (json_loads : string -> Loaded) (c : Client) (operation : string)
    (server_name : option string) (port : option Z)
    (ip_addresses : option string) (pool_shared_pipes : option Z)
    (virtual : option bool) (g : Request) (r : json) :
  snd (run (manage_dsa_media_servers json_loads operation server_name port
              ip_addresses pool_shared_pipes virtual) c) = [g] ->
  c [] g = Ret r ->
  exists text,
    fst (run (manage_dsa_media_servers json_loads operation server_name port
                ip_addresses pool_shared_pipes virtual) c) = Ret text
    /\ (forall d, r = JObj d -> truthy (field "valid" (JBool false) d) = true ->
        text = json_dumps r)
    /\ (isinstance_dict r = false ->
        contains ("'" ++ type_name r ++ "' object has no attribute 'get'") text
        = true).
Proof.
  intros Htrace Hreply.
  destruct (media_issued json_loads c operation server_name port
              ip_addresses pool_shared_pipes virtual)
    as [[text E]|(g' & failed & handler & Hhandler & _ & E)];
    rewrite E in Htrace |- *; cbn [fst snd] in *; [discriminate|].
  injection Htrace as ->. rewrite Hreply. cbn [bindE].
  eexists. split; [reflexivity|]. split.
  - intros d -> Hvalid. now rewrite (media_report_valid failed d Hvalid).
  - intros Hr. unfold media_report, get_default.
    rewrite (get_not_an_object r "valid" Hr). cbn [bindE text_or].
    apply Hhandler.
Qed.

Lemma X21_witness :
  exists text,
    fst (run (manage_dsa_media_servers sample_loads "list" None None None None
                None) (answering media_done)) = Ret text
    /\ (forall d, media_done = JObj d ->
        truthy (field "valid" (JBool false) d) = true ->
        text = json_dumps media_done)
    /\ (isinstance_dict media_done = false ->
        contains
          ("'" ++ type_name media_done ++ "' object has no attribute 'get'")
          text
        = true).
Proof.
  apply (X21_media_reply_is_judged_by_valid sample_loads (answering media_done)
           "list" None None None None None (GET MEDIA_SERVERS) media_done);
    reflexivity.
Defined.

(** ** The S3 listing *)

Lemma one_or_many_as_list (o : option json) (items : list dict) :
  one_or_many o items ->
  as_list (match o with Some x => x | None => JList [] end)
  = JList (map JObj items).
Proof. intros [[->|[-> ->]]|(item & -> & ->)]; reflexivity. Qed.

Lemma prefixes_loop (prefixes : list dict) (results : list string) (k : Z) :
  for_each (map JObj prefixes) prefix_step (results, k)
  = Ret (results +++ numbered prefix_shown k prefixes,
         (k + Z.of_nat (length prefixes))%Z).
Proof.
  revert results k. induction prefixes as [|prefix prefixes IH];
    intros results k.
  - cbn [map for_each numbered length Z.of_nat]. rewrite app_nil_r.
    now rewrite Z.add_0_r.
  - cbn [map for_each]. unfold prefix_step at 1, get_default.
    cbn [get bindE]. rewrite IH. cbn [numbered length].
    rewrite <- app_assoc. do 2 f_equal. lia.
Qed.

Lemma bucket_step_shown (results : list string) (j count : Z)
    (bucket : Bucket) :
  bucket_ok bucket ->
  bucket_step (results, j, count) (JObj (fst bucket))
  = Ret (results +++ bucket_shown j bucket, (j + 1)%Z, (count + 1)%Z).
Proof.
  intros H. unfold bucket_step, get_default. cbn [get bindE].
  rewrite (one_or_many_as_list _ _ H). unfold bucket_shown.
  fold (field "bucketName" (JStr "N/A") (fst bucket)).
  destruct (snd bucket) as [|prefix prefixes].
  - cbn [map truthy bindE]. now rewrite <- app_assoc.
  - cbn [map truthy iter bindE]. rewrite <- (map_cons JObj prefix prefixes).
    rewrite prefixes_loop. cbn [bindE fst]. now rewrite <- app_assoc.
Qed.

Lemma buckets_loop (buckets : list Bucket) :
  Forall bucket_ok buckets ->
  forall (results : list string) (j count : Z),
    for_each (map JObj (map fst buckets)) bucket_step (results, j, count)
    = Ret (results +++ numbered bucket_shown j buckets,
           (j + Z.of_nat (length buckets))%Z,
           (count + Z.of_nat (length buckets))%Z).
Proof.
  induction 1 as [|bucket buckets Hb _ IH]; intros results j count.
  - cbn [map for_each numbered length Z.of_nat]. rewrite app_nil_r.
    now rewrite !Z.add_0_r.
  - cbn [map for_each]. rewrite (bucket_step_shown _ _ _ _ Hb).
    cbn [bindE]. rewrite IH. cbn [numbered length].
    rewrite <- app_assoc.
    replace (j + 1 + Z.of_nat (length buckets))%Z
      with (j + Z.of_nat (S (length buckets)))%Z by lia.
    replace (count + 1 + Z.of_nat (length buckets))%Z
      with (count + Z.of_nat (S (length buckets)))%Z by lia.
    reflexivity.
Qed.

Lemma region_step_shown (results : list string) (i count : Z)
    (region : Region) :
  region_ok region ->
  region_step (results, i, count) (JObj (fst region))
  = Ret (results +++ region_shown i region, (i + 1)%Z,
         (count + Z.of_nat (length (snd region)))%Z).
Proof.
  destruct region as [region buckets]. intros [H Hbuckets].
  cbn [fst snd] in *. unfold region_step, get_default. cbn [get bindE].
  rewrite (one_or_many_as_list _ _ H). unfold region_shown. cbn [fst snd].
  fold (field "region" (JStr "N/A") region).
  destruct buckets as [|bucket buckets].
  - cbn [map truthy bindE fst snd length Z.of_nat].
    rewrite Z.add_0_r. now rewrite <- !app_assoc.
  - change (truthy (JList (map JObj (map fst (bucket :: buckets)))))
      with true.
    cbn [iter bindE]. rewrite (buckets_loop _ Hbuckets). cbn [bindE fst snd].
    now rewrite <- !app_assoc.
Qed.

Lemma regions_loop (regions : list Region) :
  Forall region_ok regions ->
  forall (results : list string) (i count : Z),
    for_each (map JObj (map fst regions)) region_step (results, i, count)
    = Ret (results +++ numbered region_shown i regions,
           (i + Z.of_nat (length regions))%Z,
           (count + Z.of_nat (total_buckets regions))%Z).
Proof.
  induction 1 as [|region regions Hr _ IH]; intros results i count.
  - cbn [map for_each numbered length Z.of_nat total_buckets list_sum
         fold_right].
    rewrite app_nil_r. now rewrite !Z.add_0_r.
  - cbn [map for_each]. rewrite (region_step_shown _ _ _ _ Hr).
    cbn [bindE]. rewrite IH. cbn [numbered length].
    unfold total_buckets. cbn [map list_sum fold_right].
    rewrite <- app_assoc.
    replace (i + 1 + Z.of_nat (length regions))%Z
      with (i + Z.of_nat (S (length regions)))%Z by lia.
    rewrite Nat2Z.inj_add, Z.add_assoc. reflexivity.
Qed.

(** X22.  A successful S3 listing reads the regions of the first entry of
    [aws] only.  It shows every region, bucket and prefix once and in order,
    each kind numbered from 1 within its parent, and puts the number of
    buckets of all regions on the second line, before the rule; a region
    without buckets and a bucket without prefixes say so. *)
Theorem X22_s3_listing_counts_the_buckets
    (c : Client) (accessId accessKey : option string)
    (bucketsByRegion : option json) (bucketName acctName : option string)
    (d : dict) (regions : list Region) :
  c [] (GET AWS_S3) = Ret (JObj d) ->
  s3_lists d regions ->
  fst (run (manage_AWS_S3_backup_configurations "list" accessId accessKey
              bucketsByRegion bucketName acctName) c)
  = Ret (join_lines
           (match regions with
            | [] =>
                ["🗂️ DSA AWS S3 Backup Solution Systems Available"; rule;
                 "📋 No AWS backup Solutions Configured"]
            | _ =>
                ["🗂️ DSA AWS S3 Backup Solution Systems Available";
                 "📊 Total Buckets Configured: "
                 ++ str_of_Z (Z.of_nat (total_buckets regions));
                 rule]
                +++ numbered region_shown 1 regions
            end
            +++ [rule;
                 "✅ Status: LIST_AWS_APP_SUCCESSFUL";
                 "🔍 Found Component: "
                 ++ str (field "foundComponent" (JBool false) d);
                 "✔️ Valid: " ++ str (field "valid" (JBool false) d)])).
Proof.
  intros Hreply (Hstatus & first & config & others & Haws & Hconfig & Hregions
                 & Hok).
  enter. rewrite (try_except_run_ret _ _ _ _ _ _ (run_list_s3 c [])).
  cbn [fst]. rewrite Hreply. cbn [bindE text_or].
  unfold list_aws_s3_report, get_default. cbn [get bindE]. rewrite Hstatus.
  replace (opt_eq_str (Some (JStr "LIST_AWS_APP_SUCCESSFUL"))
             "LIST_AWS_APP_SUCCESSFUL") with true by reflexivity.
  rewrite Haws. cbn [get bindE]. rewrite Hconfig. cbn [get bindE].
  rewrite (one_or_many_as_list _ _ Hregions).
  destruct regions as [|region regions].
  - reflexivity.
  - change (truthy (JList (map JObj (map fst (region :: regions)))))
      with true.
    cbn [iter bindE]. rewrite (regions_loop _ Hok). cbn [bindE of_option str].
    rewrite Z.add_0_l. reflexivity.
Qed.

Lemma X22_witness :
  fst (run (manage_AWS_S3_backup_configurations "list" None None None None
              None) (answering (JObj s3_listing)))
  = Ret (join_lines
           ["🗂️ DSA AWS S3 Backup Solution Systems Available";
            "📊 Total Buckets Configured: 2";
            rule;
            "🗂️ Region #1: us-west-2";
            "   📁 Bucket #1: tdedsabucket01";
            "      🔖 Prefix #1: dsa-backup";
            "         Storage Devices: 4";
            "   📁 Bucket #2: archive";
            "      🔖 No prefixes configured";
            "";
            "🗂️ Region #2: eu-central-1";
            "   📁 No buckets configured in this region";
            "";
            rule;
            "✅ Status: LIST_AWS_APP_SUCCESSFUL";
            "🔍 Found Component: True";
            "✔️ Valid: True"]).
Proof.
  apply (X22_s3_listing_counts_the_buckets (answering (JObj s3_listing)) None
           None None None None s3_listing s3_regions).
  - reflexivity.
  - split; [reflexivity|]. eexists _, _, _.
    split; [reflexivity|]. split; [reflexivity|].
    split; [left; left; reflexivity|].
    repeat constructor; cbn; try (left; left; reflexivity);
      left; right; split; reflexivity.
Defined.

(** ** The reports of the accepted writes *)

Lemma upsert_length (path : string) (n : Z) (items : list dict) :
  length (upsert path n items)
  = length items + (if existsb (has_path path) items then 0 else 1).
Proof.
  unfold upsert. rewrite length_app, length_map.
  now destruct (existsb (has_path path) items).
Qed.

(** X23.  The report of an accepted [config], for a [max_files] it can
    format (an [int] of at most 4300 digits), describes what was written:
    its total is the size of the collection submitted, one more than listed
    for a new path and the same for a known one, and its operation reads
    [Update] exactly when the listing held the path. *)
Theorem X23_config_report_counts_the_collection
    (c : Client) (path : string) (n : Z) (items : list dict) (d : dict) :
  printable_int n = true ->
  lists (c [] fetch) items ->
  c [fetch] (write (map JObj (upsert path n items))) = Ret (JObj d) ->
  accepted d = true ->
  let known := existsb (has_path path) items in
  fst (run (config_disk_file_system path n) c)
  = Ret (join_lines
           (["🗂️ DSA Disk File System Configuration";
             rule;
             "📁 File System Path: " ++ path;
             "📄 Max Files: " ++ str_of_Z n;
             "📊 Total File Systems: "
             ++ str_of_Z (Z.of_nat (length items + (if known then 0 else 1)));
             "🔄 Operation: " ++ (if known then "Update" else "Add");
             "";
             "✅ Disk file system configured successfully";
             "📊 Status: CONFIG_DISK_FILE_SYSTEM_SUCCESSFUL";
             "✔️ Valid: " ++ str (field "valid" (JBool false) d);
             ""; rule;
             "✅ Disk file system configuration operation completed"])).
Proof.
  intros Hn Hitems Hreply Haccepted known. subst known.
  rewrite (run_config _ _ _ Hn). rewrite (existing_after_listing _ _ Hitems).
  rewrite config_merge_upsert. cbn [fst]. rewrite Hreply. cbn [bindE].
  rewrite (config_report_accepted _ _ _ _ _ Hn Haccepted). cbn [text_or].
  rewrite length_map, upsert_length. reflexivity.
Qed.

Lemma X23_witness :
  fst (run (config_disk_file_system "/backup/b" 250)
         (serving [fs_a; fs_b] configured))
  = Ret (join_lines
           ["🗂️ DSA Disk File System Configuration";
            rule;
            "📁 File System Path: /backup/b";
            "📄 Max Files: 250";
            "📊 Total File Systems: 2";
            "🔄 Operation: Update";
            "";
            "✅ Disk file system configured successfully";
            "📊 Status: CONFIG_DISK_FILE_SYSTEM_SUCCESSFUL";
            "✔️ Valid: True";
            ""; rule;
            "✅ Disk file system configuration operation completed"]).
Proof.
  apply (X23_config_report_counts_the_collection
           (serving [fs_a; fs_b] configured) "/backup/b" 250%Z [fs_a; fs_b]
           [("status", JStr "CONFIG_DISK_FILE_SYSTEM_SUCCESSFUL");
            ("valid", JBool true)]).
  - reflexivity.
  - eexists. split; [reflexivity|]. split; reflexivity.
  - reflexivity.
  - reflexivity.
Defined.

(** X24.  The report of an accepted [remove] gives the number of items
    written back and lists each of them with its path and its limit, in the
    order of the listing; when none is left it says so. *)
Theorem X24_remove_report_lists_the_rest
    (c : Client) (path : string) (items : list dict) (d : dict) :
  lists (c [] fetch) items ->
  existsb (has_path path) items = true ->
  c [fetch] (write (map JObj (remove path items))) = Ret (JObj d) ->
  lookup "status" d = Some (JStr "CONFIG_DISK_FILE_SYSTEM_SUCCESSFUL") ->
  fst (run (remove_disk_file_system path) c)
  = Ret (join_lines
           (["🗂️ DSA Disk File System Removal";
             rule;
             "📁 Removed File System: " ++ path;
             "📊 Remaining File Systems: "
             ++ str_of_Z (Z.of_nat (length (remove path items)));
             "";
             "✅ Disk file system removed successfully";
             "📊 Status: CONFIG_DISK_FILE_SYSTEM_SUCCESSFUL";
             "✔️ Valid: " ++ str (field "valid" (JBool false) d)]
            +++ match remove path items with
                | [] => [""; "📋 No file systems remaining (all removed)"]
                | kept => [""; "📋 Remaining file systems:"]
                          +++ map remaining_line kept
                end
            +++ [""; rule;
                 "✅ Disk file system removal operation completed"])).
Proof.
  intros Hitems Hfound Hreply Hstatus.
  rewrite (remove_outcome _ _ _ Hitems), Hfound. cbn [fst]. rewrite Hreply.
  cbn [bindE]. rewrite (remove_report_accepted _ _ _ Hstatus). cbn [text_or].
  now destruct (remove path items).
Qed.

Lemma X24_witness :
  fst (run (remove_disk_file_system "/backup/b")
         (serving [fs_a; fs_b] configured))
  = Ret (join_lines
           ["🗂️ DSA Disk File System Removal";
            rule;
            "📁 Removed File System: /backup/b";
            "📊 Remaining File Systems: 1";
            "";
            "✅ Disk file system removed successfully";
            "📊 Status: CONFIG_DISK_FILE_SYSTEM_SUCCESSFUL";
            "✔️ Valid: True";
            ""; "📋 Remaining file systems:";
            "   • /backup/a (Max Files: 100)";
            ""; rule;
            "✅ Disk file system removal operation completed"]).
Proof.
  apply (X24_remove_report_lists_the_rest (serving [fs_a; fs_b] configured)
           "/backup/b" [fs_a; fs_b]
           [("status", JStr "CONFIG_DISK_FILE_SYSTEM_SUCCESSFUL");
            ("valid", JBool true)]).
  - eexists. split; [reflexivity|]. split; reflexivity.
  - reflexivity.
  - reflexivity.
  - reflexivity.
Defined.

(** ** Which operations write and which delete *)

(** Settles the method of each request of an explicit trace. *)
Ltac by_method :=
  cbn [snd app In]; intros Hin;
  repeat (destruct Hin as [<-|Hin]); try contradiction;
  first [ left; reflexivity
        | right; left; split; [reflexivity|auto]
        | right; right; split; [reflexivity|auto]
        | right; split; [reflexivity|auto] ].

(** X25.  Writes and deletions happen only on request.  Every request is a
    GET, a POST or a DELETE; the disk-file-system entry point posts only for
    [config] and [remove] and deletes only for [delete_all]; the S3 entry
    point posts only for [config] and never deletes; the media-server entry
    point posts only for [add] and deletes only for [delete]. *)
Theorem X25_writes_and_deletions_only_on_request
    (json_loads : string -> Loaded) (c : Client) (operation : string)
    (file_system_path : option string) (max_files : option Z)
    (accessId accessKey : option string) (bucketsByRegion : option json)
    (bucketName acctName : option string) (server_name : option string)
    (port : option Z) (ip_addresses : option string)
    (pool_shared_pipes : option Z) (virtual : option bool) (r : Request) :
  (In r (snd (run (manage_dsa_disk_file_systems operation file_system_path
                     max_files) c)) ->
   req_method r = "GET"
   \/ (req_method r = "POST" /\ (operation = "config" \/ operation = "remove"))
   \/ (req_method r = "DELETE" /\ operation = "delete_all"))
  /\ (In r (snd (run (manage_AWS_S3_backup_configurations operation accessId
                        accessKey bucketsByRegion bucketName acctName) c)) ->
      req_method r = "GET"
      \/ (req_method r = "POST" /\ operation = "config"))
  /\ (In r (snd (run (manage_dsa_media_servers json_loads operation
                        server_name port ip_addresses pool_shared_pipes
                        virtual) c)) ->
      req_method r = "GET"
      \/ (req_method r = "POST" /\ operation = "add")
      \/ (req_method r = "DELETE" /\ operation = "delete")).
Proof.
  split; [|split].
  - unfold run, manage_dsa_disk_file_systems.
    destruct (operation =? "list") eqn:El.
    { rewrite (try_except_run_ret _ _ _ _ _ _ (run_list_disk c [])).
      by_method. }
    destruct (operation =? "config") eqn:Ec.
    { apply String.eqb_eq in Ec.
      destruct (given file_system_path) as [path|]; [|by_method].
      destruct max_files as [n|]; [|by_method].
      destruct (printable_int n) eqn:Hn.
      2:{ pose proof (run_config_too_long c path n Hn) as H.
          unfold run in H. rewrite (try_except_run_ret _ _ _ _ _ _ H).
          by_method. }
      pose proof (run_config c path n Hn) as H. unfold run in H.
      destruct (config_merge path n (existing_after_fetch (c [] fetch)))
        as [[items path_exists]|e];
        rewrite (try_except_run_ret _ _ _ _ _ _ H); by_method. }
    destruct (operation =? "delete_all") eqn:Ed.
    { apply String.eqb_eq in Ed.
      rewrite (try_except_run_ret _ _ _ _ _ _ (run_delete_disk c [])).
      by_method. }
    destruct (operation =? "remove") eqn:Er; [|by_method].
    apply String.eqb_eq in Er.
    destruct (given file_system_path) as [path|]; [|by_method].
    pose proof (run_remove c path) as H. unfold run in H.
    destruct (remove_after_fetch path (c [] fetch)) as [text|existing];
      [rewrite (try_except_run_ret _ _ _ _ _ _ H); by_method|].
    destruct (remove_scan path existing) as [[items [[|] keep]]|e];
      rewrite (try_except_run_ret _ _ _ _ _ _ H); by_method.
  - destruct (operation =? "config") eqn:Ec.
    + apply String.eqb_eq in Ec. subst operation. intros Hin.
      destruct (given bucketName) as [bucket|] eqn:Eb.
      * destruct bucketName as [bucket'|]; [|discriminate Eb].
        destruct (s3_config_trace c accessId accessKey bucketsByRegion
                    bucket' acctName r Hin) as (a & k & b & acct & _ & _ & _
                                                 & _ & ->).
        right. split; reflexivity.
      * revert Hin. unfold run, manage_AWS_S3_backup_configurations.
        cbn [String.eqb Ascii.eqb Bool.eqb].
        destruct (given accessId); [|by_method].
        destruct (given accessKey); [|by_method].
        destruct (given_object bucketsByRegion); [|by_method].
        destruct (given acctName); [|by_method].
        rewrite Eb. by_method.
    + unfold run, manage_AWS_S3_backup_configurations. rewrite Ec.
      destruct (operation =? "list").
      { rewrite (try_except_run_ret _ _ _ _ _ _ (run_list_s3 c [])).
        by_method. }
      destruct (operation =? "delete_all"); [by_method|].
      destruct (operation =? "remove"); by_method.
  - destruct (is_valid_operation operation) eqn:Hvalid.
    2:{ unfold run, manage_dsa_media_servers. rewrite Hvalid. by_method. }
    unfold is_valid_operation in Hvalid. apply existsb_exists in Hvalid.
    destruct Hvalid as (x & Hx & Heq). apply String.eqb_eq in Heq. subst x.
    cbn [valid_operations In] in Hx.
    destruct Hx as [<-|[<-|[<-|[<-|[<-|[<-|[]]]]]]]; enter.
    + rewrite (try_except_run_ret _ _ _ _ _ _ (run_list_media c [])).
      by_method.
    + destruct (given server_name) as [name|]; [|by_method].
      rewrite (try_except_run_ret _ _ _ _ _ _ (run_get_media name c [])).
      by_method.
    + destruct (given server_name) as [name|]; [|by_method].
      destruct (given_int port) as [p|]; [|by_method].
      destruct (given ip_addresses) as [ips|]; [|by_method].
      destruct (json_loads ips) as [ip_list|e|e]; [|by_method|by_method].
      destruct (run_add_media_server name p ip_list
                  (pipes_or_50 pool_shared_pipes) c []) as [[text H]|H];
        rewrite (try_except_run_ret _ _ _ _ _ _ H); by_method.
    + destruct (given server_name) as [name|]; [|by_method].
      rewrite (try_except_run_ret _ _ _ _ _ _
                 (run_delete_media_server name _ c [])).
      by_method.
    + rewrite (try_except_run_ret _ _ _ _ _ _ (run_list_consumers c [])).
      by_method.
    + destruct (given server_name) as [name|]; [|by_method].
      rewrite (try_except_run_ret _ _ _ _ _ _
                 (run_list_consumers_by_name name c [])).
      by_method.
Qed.

End Coverage.
